(** * python_template: the data-access layer ([gcs.py], [data.py]) and [logger.py]

    A shallow embedding of the modules of the package and the properties
    of its read-through cache, remote loader, date ordering, cleaning
    pipeline, asset discovery and loggers.

    Conventions of the embedding.
    - A Python [str] is a [string]; only ASCII code points are covered.
    - A Python exception is a constructor of [exn]; a call that may raise
      returns a [result].
    - Code that reads or writes the cache directory, calls the object store or
      logs runs in the monad [M] over a [World]; the state survives a raised
      exception, as it does in Python.
    - Library operations whose behaviour the package does not fix (the JSON
      parser, the timestamp parser, the unstable argsort behind [sort_values],
      [str] hashing, the [DataFrame] constructor) are fields of the class
      [Library], with the laws the package relies on.
    - The downloads of the thread pool run as threads: a download takes the
      steps of [load_jsonl_blob] one at a time (the bucket, the object, the
      end of the call), and the [schedule] of the world names the download
      that takes the next step, so the store operations of the downloads
      interleave and the downloads end in an order of their own.  Every
      interleaving is that of some schedule; the bound on the number of
      workers, which only rules interleavings out, is not modelled.
    - Paths are POSIX paths, joined and printed as [pathlib] does.  The
      cache directory exists and is no symbolic link, and neither is
      anything below it; a directory below it is known by the files below
      it (none is empty); every file holds a table.  A [..] in a path is
      followed lexically, which is what the file system does when the
      component before it is a directory.  Outside the cache directory a
      file is known by its normalised path, and nothing there stands in the
      way of a write.  The process may read and write wherever it does, and
      the disk has room.
    - [assert] statements are in force (the interpreter does not run with
      [-O]).
    - The order of [list(s)] for a set [s] is a field of the class
      [SetOrder]; the loggers of [logging] are a state of their own,
      [Logging], apart from the [World]. *)

From Stdlib Require Import List String Ascii ZArith Bool Lia.
From Stdlib Require Import Permutation Sorted DecimalString SpecFloat.
Import ListNotations.

Local Open Scope string_scope.
Local Open Scope Z_scope.
Local Open Scope list_scope.

(** ** Exceptions and results *)

Inductive exn : Type :=
| ValueError (msg : string)
| KeyError (key : string)
| TypeError
| OverflowError
| AssertionError (msg : string)
| JSONDecodeError
| NotFound (name : string)
| FileNotFoundError (path : string)
| FileExistsError
| NotADirectoryError
| IsADirectoryError.

Inductive result (A : Type) : Type :=
| OK (a : A)
| Raise (e : exn).

Arguments OK {A} a.
Arguments Raise {A} e.

Definition bind_result {A B} (r : result A) (k : A -> result B) : result B :=
  match r with
  | OK a => k a
  | Raise e => Raise e
  end.

(** [[f(x) for x in l]] where [f] may raise: the first failure, in list
    order, ends the evaluation. *)
Fixpoint map_result {A B} (f : A -> result B) (l : list A) : result (list B) :=
  match l with
  | [] => OK []
  | x :: l' =>
      match f x with
      | Raise e => Raise e
      | OK y =>
          match map_result f l' with
          | Raise e => Raise e
          | OK ys => OK (y :: ys)
          end
      end
  end.

Definition is_ok {A} (r : result A) : bool :=
  match r with OK _ => true | Raise _ => false end.

(** ** The [str] methods the package calls *)

Module Str.

Definition len (s : string) : nat := String.length s.

(** [s.startswith(p)] *)
Fixpoint startswith (s p : string) {struct p} : bool :=
  match p with
  | EmptyString => true
  | String c p' =>
      match s with
      | EmptyString => false
      | String d s' => Ascii.eqb c d && startswith s' p'
      end
  end.

Fixpoint rev_acc (s acc : string) : string :=
  match s with
  | EmptyString => acc
  | String c s' => rev_acc s' (String c acc)
  end.

Definition rev (s : string) : string := rev_acc s EmptyString.

(** [s.endswith(p)] *)
Definition endswith (s p : string) : bool := startswith (rev s) (rev p).

(** [s.replace(old, new)] for a non-empty [old]: the occurrences of [old]
    are found from the left and do not overlap.  [skip] counts the
    characters of a found occurrence that are still to be dropped. *)
Fixpoint replace_from (skip : nat) (old new s : string) : string :=
  match s with
  | EmptyString => EmptyString
  | String c s' =>
      match skip with
      | S k => replace_from k old new s'
      | O =>
          if startswith s old
          then new ++ replace_from (Nat.pred (len old)) old new s'
          else String c (replace_from O old new s')
      end
  end%string.

(** With an empty [old] Python puts [new] before every character and at
    the end. *)
Fixpoint interleave (new s : string) : string :=
  match s with
  | EmptyString => new
  | String c s' => new ++ String c (interleave new s')
  end%string.

Definition replace (s old new : string) : string :=
  match old with
  | EmptyString => interleave new s
  | _ => replace_from O old new s
  end.

(** [s.split(sep)] for a separator of one character: always at least one
    piece. *)
Fixpoint split (s : string) (sep : ascii) : list string :=
  match s with
  | EmptyString => [EmptyString]
  | String c s' =>
      if Ascii.eqb c sep then EmptyString :: split s' sep
      else
        match split s' sep with
        | [] => [String c EmptyString]
        | piece :: pieces => String c piece :: pieces
        end
  end.

End Str.

(** [l[-1]] on a list of strings *)
Definition last_item (l : list string) : string := List.last l EmptyString.

(** [l[:n]]: a negative [n] counts from the end. *)
Definition slice_to {A} (l : list A) (n : Z) : list A :=
  if n <? 0 then firstn (Z.to_nat (Z.of_nat (List.length l) + n)) l
  else firstn (Z.to_nat n) l.

(** ** [datetime] *)

(** The values [datetime.strptime(_, "%Y-%m-%d")] builds: the time of day is
    always midnight and is left out. *)
Record datetime : Type := mk_datetime { year : Z; month : Z; day : Z }.

(** Comparison of [datetime] values is the lexicographic comparison of their
    fields. *)
Definition datetime_ltb (a b : datetime) : bool :=
  (year a <? year b)
  || ((year a =? year b)
      && ((month a <? month b)
          || ((month a =? month b) && (day a <? day b)))).

Definition datetime_eqb (a b : datetime) : bool :=
  (year a =? year b) && (month a =? month b) && (day a =? day b).

Definition is_leap (y : Z) : bool :=
  (y mod 4 =? 0) && (negb (y mod 100 =? 0) || (y mod 400 =? 0)).

Definition days_in_month (y m : Z) : Z :=
  if m =? 2 then (if is_leap y then 29 else 28)
  else if (m =? 4) || (m =? 6) || (m =? 9) || (m =? 11) then 30
  else 31.

(** The constructor's range checks ([MINYEAR = 1], [MAXYEAR = 9999]). *)
Definition datetime_new (y m d : Z) : result datetime :=
  if negb ((1 <=? y) && (y <=? 9999)) then Raise (ValueError "year is out of range")
  else if negb ((1 <=? m) && (m <=? 12)) then Raise (ValueError "month must be in 1..12")
  else if negb ((1 <=? d) && (d <=? days_in_month y m))
       then Raise (ValueError "day is out of range for month")
  else OK (mk_datetime y m d).

(** *** [strptime] with the format [%Y-%m-%d]

    [_strptime] turns the format into the regular expression
    [(?P<Y>\d\d\d\d)-(?P<m>1[0-2]|0[1-9]|[1-9])-(?P<d>3[0-1]|[1-2]\d|0[1-9]|[1-9]| [1-9])],
    matches it at the start of the text, and rejects the text when the match
    does not reach its end.  A matcher lists its matches in the order the
    backtracking search tries them; the search takes the first. *)

Definition matcher (A : Type) : Type := string -> list (A * string).

Definition in_range (lo hi c : ascii) : bool :=
  (nat_of_ascii lo <=? nat_of_ascii c)%nat && (nat_of_ascii c <=? nat_of_ascii hi)%nat.

Definition digit_value (c : ascii) : Z := Z.of_nat (nat_of_ascii c) - 48.

(** One character of the class [[lo-hi]], as a digit. *)
Definition cls (lo hi : ascii) : matcher Z :=
  fun s =>
    match s with
    | String c s' => if in_range lo hi c then [(digit_value c, s')] else []
    | EmptyString => []
    end.

(** One literal character. *)
Definition lit (c : ascii) : matcher unit :=
  fun s =>
    match s with
    | String d s' => if Ascii.eqb c d then [(tt, s')] else []
    | EmptyString => []
    end.

Definition seq_m {A B C} (f : A -> B -> C) (p : matcher A) (q : matcher B) : matcher C :=
  fun s =>
    flat_map (fun '(a, s1) => map (fun '(b, s2) => (f a b, s2)) (q s1)) (p s).

Definition alt_m {A} (ps : list (matcher A)) : matcher A :=
  fun s => flat_map (fun p => p s) ps.

Definition two_digits (p q : matcher Z) : matcher Z :=
  seq_m (fun a b => 10 * a + b) p q.

(** [(?P<Y>\d\d\d\d)] *)
Definition re_Y : matcher Z :=
  seq_m (fun a b => 100 * a + b)
        (two_digits (cls "0" "9") (cls "0" "9"))
        (two_digits (cls "0" "9") (cls "0" "9")).

(** [(?P<m>1[0-2]|0[1-9]|[1-9])] *)
Definition re_m : matcher Z :=
  alt_m [ two_digits (cls "1" "1") (cls "0" "2");
          two_digits (cls "0" "0") (cls "1" "9");
          cls "1" "9" ].

(** [(?P<d>3[0-1]|[1-2]\d|0[1-9]|[1-9]| [1-9])] *)
Definition re_d : matcher Z :=
  alt_m [ two_digits (cls "3" "3") (cls "0" "1");
          two_digits (cls "1" "2") (cls "0" "9");
          two_digits (cls "0" "0") (cls "1" "9");
          cls "1" "9";
          seq_m (fun _ b => b) (lit " ") (cls "1" "9") ].

(** [(?P<Y>\d\d\d\d)-] and [(?P<m>...)-] *)
Definition re_Y_dash : matcher Z := seq_m (fun y _ => y) re_Y (lit "-").

Definition re_m_dash : matcher Z := seq_m (fun m _ => m) re_m (lit "-").

Definition format_regex : matcher (Z * Z * Z) :=
  seq_m (fun ym d => (fst ym, snd ym, d)) (seq_m (fun y m => (y, m)) re_Y_dash re_m_dash) re_d.

(** [datetime.strptime(data_string, "%Y-%m-%d")] *)
Definition strptime_Ymd (data_string : string) : result datetime :=
  match format_regex data_string with
  | [] => Raise (ValueError "time data does not match format")
  | ((y, m, d), rest) :: _ =>
      match rest with
      | EmptyString => datetime_new y m d
      | _ => Raise (ValueError "unconverted data remains")
      end
  end.

(** ** gcs.py: [sort_blobs_by_date] *)

(** The inner function [extract_date]. *)
Definition extract_date (blob : string) : result datetime :=
  let date_str := Str.replace (last_item (Str.split blob "/")) ".jsonl" "" in
  strptime_Ymd date_str.

(** [sorted(l, key=...)] once the keys are computed: the sort is stable and
    compares keys with [<] only.  An item goes in front of the first item of
    the sorted rest whose key is not smaller than its own. *)
Section Sorted.
Context {K A : Type}.
Variable ltb : K -> K -> bool.

Fixpoint insert_keyed (x : K * A) (l : list (K * A)) : list (K * A) :=
  match l with
  | [] => [x]
  | y :: l' =>
      if ltb (fst y) (fst x) then y :: insert_keyed x l' else x :: y :: l'
  end.

Definition sort_keyed (l : list (K * A)) : list (K * A) :=
  fold_right insert_keyed [] l.
End Sorted.

(** [sorted(l, key=key)]: every key is computed first, in list order, so a
    key that raises ends the call before any item is placed. *)
Definition sorted_by_key {K A} (ltb : K -> K -> bool) (key : A -> result K)
    (l : list A) : result (list A) :=
  match map_result key l with
  | Raise e => Raise e
  | OK keys => OK (map snd (sort_keyed ltb (combine keys l)))
  end.

Definition sort_blobs_by_date (blobs : list string) : result (list string) :=
  sorted_by_key datetime_ltb extract_date blobs.


(** ** Tables *)

(** A value in a table cell, as [json.loads] and pandas produce them. *)
Inductive cell : Type :=
| VInt (z : Z)
| VFloat (f : spec_float)
| VStr (s : string)
| VBool (b : bool)
| VNull
| VTimestamp (ns : Z)
| VNaT
| VNested (json : string).

(** One JSON-lines record: the fields of an object, in document order. *)
Definition record : Type := list (string * cell).

(** A [pd.DataFrame]: the row index, and the named columns in order.  The
    tables of the package have distinct column names (the keys of JSON
    objects). *)
Record DataFrame : Type := mk_DataFrame {
  df_index_name : option string;
  df_index : list cell;
  df_columns : list (string * list cell)
}.

(** [len(df)] *)
Definition df_len (df : DataFrame) : nat := List.length (df_index df).

(** [df.shape] *)
Definition shape (df : DataFrame) : Z * Z :=
  (Z.of_nat (df_len df), Z.of_nat (List.length (df_columns df))).

(** [float(z)] for an [int]: the nearest binary64 value, ties to even;
    [OverflowError] beyond the range. *)
Definition float_of_int (z : Z) : result spec_float :=
  match binary_normalize 53 1024 z 0 false with
  | S754_infinity _ => Raise OverflowError
  | f => OK f
  end.

(** ** The libraries behind the package *)

Class Library : Type := {
  (** [hash] on [str] *)
  py_hash : string -> Z;
  (** [json.loads] on one line of a JSON-lines object *)
  json_loads : string -> result record;
  (** [float] on a [str] *)
  float_of_str : string -> option spec_float;
  (** [pd.DataFrame(data)] on a list of records *)
  DataFrame_new : list record -> DataFrame;
  (** one row per record *)
  DataFrame_new_len : forall data, df_len (DataFrame_new data) = List.length data;
  (** [pd.to_datetime(column, format="mixed")] *)
  to_datetime_mixed : list cell -> result (list cell);
  (** the row order [sort_values] computes for a column (its default sort is
      not stable) *)
  argsort : list cell -> list nat
}.

(** ** data.py: [PolygonDataAsset] *)

Inductive PolygonAssetType : Type := options | index | equity | forex.

Definition asset_type_str (t : PolygonAssetType) : string :=
  match t with
  | options => "options"
  | index => "index"
  | equity => "equity"
  | forex => "forex"
  end.

Definition POLYGON_DATA_TYPE_MAP (t : PolygonAssetType) : string :=
  match t with
  | options => "ohlcv"
  | index => "ohlc"
  | equity => "ohlcv"
  | forex => "ohlcv"
  end.

Record PolygonDataAsset : Type := mk_PolygonDataAsset {
  asset_type : PolygonAssetType;
  asset_id : string;
  data_provider : string;
  interval_type : string;
  traded : bool;
  data_type : string
}.

(** The generated [__init__] followed by [__post_init__]. *)
Definition PolygonDataAsset_init (asset_type : PolygonAssetType) (asset_id : string)
    (data_provider interval_type : string) (traded : bool) : PolygonDataAsset :=
  mk_PolygonDataAsset asset_type asset_id data_provider interval_type traded
                      (POLYGON_DATA_TYPE_MAP asset_type).

(** [PolygonDataAsset(asset_type=..., asset_id=...)] with the defaults. *)
Definition PolygonDataAsset_default (asset_type : PolygonAssetType) (asset_id : string)
  : PolygonDataAsset :=
  PolygonDataAsset_init asset_type asset_id "polygon" "1d" false.

Definition label (self : PolygonDataAsset) : string :=
  (data_provider self ++ "." ++ asset_type_str (asset_type self) ++ "."
   ++ data_type self ++ "." ++ interval_type self ++ "." ++ asset_id self)%string.

(** [__eq__] on two [PolygonDataAsset] values *)
Definition PolygonDataAsset_eq (self other : PolygonDataAsset) : bool :=
  String.eqb (label other) (label self).

(** [__hash__] *)
Definition PolygonDataAsset_hash `{Library} (self : PolygonDataAsset) : Z :=
  py_hash (label self).

(** ** The world the package runs in *)

Inductive StoreCall : Type :=
| GetBucket (bucket : string)
| ListBlobs (bucket : string) (prefix : option string) (max_results : option nat)
| DownloadAsText (bucket : string) (blob : string).

Record World : Type := mk_World {
  (** the files below the cache directory: relative path and stored object,
      in the order [os.walk] meets them; every file holds a table, as [save]
      writes them *)
  files : list (string * DataFrame);
  (** the files outside the cache directory, by their normalised path *)
  elsewhere : list (string * DataFrame);
  (** the object store: per bucket, the objects (name and text) in listing
      order *)
  buckets : list (string * list (string * string));
  (** the store operations performed so far, oldest first *)
  store_calls : list StoreCall;
  (** the lines logged so far, oldest first *)
  log : list string;
  (** the scheduling of the threads to come: at each step the number,
      modulo the count of pending downloads, of the one that runs next *)
  schedule : list nat
}.

Definition M (A : Type) : Type := World -> result A * World.

Definition ret {A} (a : A) : M A := fun w => (OK a, w).

Definition raise {A} (e : exn) : M A := fun w => (Raise e, w).

Definition bind {A B} (m : M A) (k : A -> M B) : M B :=
  fun w =>
    match m w with
    | (OK a, w') => k a w'
    | (Raise e, w') => (Raise e, w')
    end.

Definition lift {A} (r : result A) : M A := fun w => (r, w).

(** Run [m] and hand back its outcome instead of raising. *)
Definition attempt {A} (m : M A) : M (result A) :=
  fun w => let (r, w') := m w in (OK r, w').

Declare Scope M_scope.
Delimit Scope M_scope with M.
Notation "x <- c1 ;; c2" := (bind c1 (fun x => c2))
  (at level 61, c1 at next level, right associativity) : M_scope.
Notation "c1 ;; c2" := (bind c1 (fun _ => c2))
  (at level 61, right associativity) : M_scope.
Local Open Scope M_scope.

Definition logger_info (msg : string) : M unit :=
  fun w => (OK tt, mk_World (files w) (elsewhere w) (buckets w) (store_calls w)
                            (log w ++ [msg]) (schedule w)).

Definition store_call (c : StoreCall) : M unit :=
  fun w => (OK tt, mk_World (files w) (elsewhere w) (buckets w) (store_calls w ++ [c])
                            (log w) (schedule w)).

Definition set_files (fs : list (string * DataFrame)) : M unit :=
  fun w => (OK tt, mk_World fs (elsewhere w) (buckets w) (store_calls w) (log w) (schedule w)).

Definition set_elsewhere (fs : list (string * DataFrame)) : M unit :=
  fun w => (OK tt, mk_World (files w) fs (buckets w) (store_calls w) (log w) (schedule w)).

Definition set_schedule (s : list nat) : M unit :=
  fun w => (OK tt, mk_World (files w) (elsewhere w) (buckets w) (store_calls w) (log w) s).

Definition get_world : M World := fun w => (OK w, w).

(** First binding of a key in an association list. *)
Fixpoint assoc {V} (k : string) (l : list (string * V)) : option V :=
  match l with
  | [] => None
  | (k', v) :: l' => if String.eqb k' k then Some v else assoc k l'
  end.

(** [str(n)] for an [int] *)
Definition str_of_Z (z : Z) : string := NilZero.string_of_int (Z.to_int z).

(** ** More [str] and [list] methods *)

(** The ASCII line boundaries of [str.splitlines]. *)
Definition is_linebreak (c : ascii) : bool :=
  let n := nat_of_ascii c in
  ((10 <=? n) && (n <=? 13) || (28 <=? n) && (n <=? 30))%nat.

(** The ASCII characters for which [str.isspace] holds. *)
Definition is_space (c : ascii) : bool :=
  let n := nat_of_ascii c in
  ((9 <=? n) && (n <=? 13) || (28 <=? n) && (n <=? 32))%nat.

(** [s.splitlines()]: a carriage return followed by a line feed is one
    boundary, and a boundary at the very end opens no further line. *)
Fixpoint splitlines (s : string) : list string :=
  match s with
  | EmptyString => []
  | String c s' =>
      if is_linebreak c then
        match s' with
        | String c' s'' =>
            if Ascii.eqb c "013" && Ascii.eqb c' "010"
            then EmptyString :: splitlines s''
            else EmptyString :: splitlines s'
        | EmptyString => [EmptyString]
        end
      else
        match splitlines s' with
        | [] => [String c EmptyString]
        | line :: lines => String c line :: lines
        end
  end.

Fixpoint lstrip (s : string) : string :=
  match s with
  | EmptyString => EmptyString
  | String c s' => if is_space c then lstrip s' else s
  end.

(** [s.strip()] *)
Definition strip (s : string) : string := Str.rev (lstrip (Str.rev (lstrip s))).

(** The truth value of a [str]. *)
Definition truthy (s : string) : bool :=
  match s with EmptyString => false | _ => true end.

(** [sep.join(l)] *)
Fixpoint join (sep : string) (l : list string) : string :=
  match l with
  | [] => EmptyString
  | [s] => s
  | s :: l' => (s ++ sep ++ join sep l')%string
  end.

(** ** Paths: [pathlib] and the file system (POSIX) *)

(** A [pathlib.PurePosixPath]: its root, which is empty, one slash or two,
    and its components, none of them empty or a single dot. *)
Record Path : Type := mk_Path {
  path_root : string;
  path_parts : list string
}.

Fixpoint leading_slashes (s : string) : nat :=
  match s with
  | String c s' => if Ascii.eqb c "/" then S (leading_slashes s') else O
  | EmptyString => O
  end.

(** [PurePosixPath(s)]: repeated slashes, single dots and a slash at the end
    go; two slashes at the start are kept, three or more are one. *)
Definition path_of_str (s : string) : Path :=
  let root : string :=
    match leading_slashes s with
    | O => ""
    | S (S O) => "//"
    | _ => "/"
    end in
  mk_Path root
    (filter (fun part => negb (String.eqb part "") && negb (String.eqb part "."))
            (Str.split s "/")).

(** [str(p)] *)
Definition str_of_path (p : Path) : string :=
  match path_parts p with
  | [] => if String.eqb (path_root p) "" then "." else path_root p
  | _ :: _ => (path_root p ++ join "/" (path_parts p))%string
  end.

(** [p / s]: an absolute [s] replaces [p]. *)
Definition truediv (p : Path) (s : string) : Path :=
  let q := path_of_str s in
  if String.eqb (path_root q) "" then mk_Path (path_root p) (path_parts p ++ path_parts q)
  else q.

(** [os.path.dirname(str(p))] *)
Definition dirname (p : Path) : string :=
  match List.rev (path_parts p) with
  | [] | [_] => path_root p
  | _ :: parents => (path_root p ++ join "/" (List.rev parents))%string
  end.

Definition rooted (p : Path) : bool := negb (String.eqb (path_root p) "").

(** The components the file system goes through for a path: a [..] takes
    back the component before it (the directory it leaves is taken to exist
    and to be no symbolic link), and there is nothing above the root. *)
Fixpoint follow_parts (is_rooted : bool) (stack parts : list string) : list string :=
  match parts with
  | [] => List.rev stack
  | part :: parts' =>
      if String.eqb part ".." then
        match stack with
        | [] =>
            if is_rooted then follow_parts is_rooted [] parts'
            else follow_parts is_rooted [part] parts'
        | top :: stack' =>
            if String.eqb top ".." then follow_parts is_rooted (part :: stack) parts'
            else follow_parts is_rooted stack' parts'
        end
      else follow_parts is_rooted (part :: stack) parts'
  end.

Fixpoint strip_parts (prefix parts : list string) : option (list string) :=
  match prefix, parts with
  | [], _ => Some parts
  | p :: prefix', q :: parts' => if String.eqb p q then strip_parts prefix' parts' else None
  | _ :: _, [] => None
  end.

(** Where a path leads: to a place below the cache directory, given by its
    components from there (none for the directory itself), or to a place
    outside it, given by its path. *)
Inductive Location : Type :=
| Inside (relative : list string)
| Outside (path : string).

(** Where [data_dir / file] leads.  A relative cache directory and an
    absolute path are taken to lead to different places. *)
Definition locate (data_dir file : string) : Location :=
  let d := path_of_str data_dir in
  let p := truediv d file in
  let place := follow_parts (rooted p) [] (path_parts p) in
  let outside :=
    Outside (str_of_path (mk_Path (if rooted p then "/" else "") place)) in
  if Bool.eqb (rooted d) (rooted p) then
    match strip_parts (follow_parts (rooted d) [] (path_parts d)) place with
    | Some relative =>
        if existsb (String.eqb "..") relative then outside else Inside relative
    | None => outside
    end
  else outside.

(** The directories above a place below the cache directory, from the top. *)
Definition ancestors (relative : list string) : list (list string) :=
  map (fun n => firstn n relative) (seq 1 (List.length relative - 1)).

(** ** gcs.py *)

Section Package.
Context {L : Library}.

(** [client.get_bucket(bucket_name)] *)
Definition get_bucket (bucket_name : string) : M (list (string * string)) :=
  store_call (GetBucket bucket_name) ;;
  w <- get_world ;;
  match assoc bucket_name (buckets w) with
  | Some objects => ret objects
  | None => raise (NotFound bucket_name)
  end.

(** [bucket.blob(blob_name).download_as_text()] *)
Definition download_as_text (bucket_name : string) (objects : list (string * string))
    (blob_name : string) : M string :=
  store_call (DownloadAsText bucket_name blob_name) ;;
  match assoc blob_name objects with
  | Some content => ret content
  | None => raise (NotFound blob_name)
  end.

(** The loop of [load_jsonl_blob] over the lines of the object. *)
Fixpoint json_objects_of (lines : list string) : result (list record) :=
  match lines with
  | [] => OK []
  | line :: lines' =>
      if truthy (strip line) then
        match json_loads line with
        | Raise e => Raise e
        | OK obj =>
            match json_objects_of lines' with
            | Raise e => Raise e
            | OK objs => OK (obj :: objs)
            end
        end
      else json_objects_of lines'
  end.

Definition load_jsonl_blob (bucket_name blob_name : string) : M (list record) :=
  bucket <- get_bucket bucket_name ;;
  content <- download_as_text bucket_name bucket blob_name ;;
  lift (json_objects_of (splitlines content)).

(** What [bucket.list_blobs(prefix=prefix, max_results=limit)] yields. *)
Definition list_blobs (objects : list (string * string)) (prefix : option string)
    (max_results : option nat) : list string :=
  let names := map fst objects in
  let matching :=
    match prefix with
    | Some p => filter (fun name => Str.startswith name p) names
    | None => names
    end in
  match max_results with
  | Some n => firstn n matching
  | None => matching
  end.

Definition list_blobs_in_bucket (bucket_name : string) (prefix : option string)
    (limit : option nat) : M (list string) :=
  bucket <- get_bucket bucket_name ;;
  store_call (ListBlobs bucket_name prefix limit) ;;
  ret (list_blobs bucket prefix limit).

(** ** cfg.py *)

Definition GCP_BUCKET_ID : string := "bskb-data-prod".

(** ** data.py: cleaning transforms *)

(** A [CleanerFunc], with the [__name__] the logging wrapper prints. *)
Record CleanerFunc : Type := mk_CleanerFunc {
  cleaner_name : string;
  cleaner_call : DataFrame -> PolygonDataAsset -> M DataFrame
}.

(** Rows [order] of a column. *)
Definition take_rows (order : list nat) (col : list cell) : list cell :=
  map (fun i => nth i col VNull) order.

Definition drop_column (name : string) (cols : list (string * list cell))
  : list (string * list cell) :=
  filter (fun nc => negb (String.eqb (fst nc) name)) cols.

(** [df[name] = col] for a column that exists: it keeps its place. *)
Definition set_column (name : string) (col : list cell)
    (cols : list (string * list cell)) : list (string * list cell) :=
  map (fun nc => if String.eqb (fst nc) name then (fst nc, col) else nc) cols.

Definition set_sort_dt_index_fn (df : DataFrame) (asset : PolygonDataAsset)
  : result DataFrame :=
  match assoc "dt" (df_columns df) with
  | None => Raise (KeyError "dt")
  | Some col =>
      match to_datetime_mixed col with
      | Raise e => Raise e
      | OK dt =>
          let cols := set_column "dt" dt (df_columns df) in
          (* sort_values("dt") *)
          let order := argsort dt in
          let cols := map (fun nc => (fst nc, take_rows order (snd nc))) cols in
          (* set_index("dt") *)
          OK (mk_DataFrame (Some "dt") (take_rows order dt) (drop_column "dt" cols))
      end
  end.

Definition add_asset_id_prefixes_fn (df : DataFrame) (asset : PolygonDataAsset)
  : result DataFrame :=
  let asset_id := asset_id asset in
  let prefixed := map (fun nc => ((asset_id ++ "_" ++ fst nc)%string, snd nc)) (df_columns df) in
  OK (mk_DataFrame (df_index_name df) (df_index df) prefixed).

(** [astype(float)] on one cell. *)
Definition cell_to_float (c : cell) : result cell :=
  match c with
  | VInt z =>
      match float_of_int z with
      | OK f => OK (VFloat f)
      | Raise e => Raise e
      end
  | VFloat f => OK (VFloat f)
  | VStr s =>
      match float_of_str s with
      | Some f => OK (VFloat f)
      | None => Raise (ValueError "could not convert string to float")
      end
  | VBool b => OK (VFloat (binary_normalize 53 1024 (if b then 1 else 0) 0 false))
  | VNull => OK (VFloat S754_nan)
  | VTimestamp _ | VNaT | VNested _ => Raise TypeError
  end.

(** [df[keys]]: the named columns, in the order of [keys]. *)
Definition select_columns (df : DataFrame) (keys : list string)
  : result (list (string * list cell)) :=
  map_result
    (fun k =>
       match assoc k (df_columns df) with
       | Some col => OK (k, col)
       | None => Raise (KeyError k)
       end)
    keys.

(** [sub.astype(float)] on the selected columns. *)
Definition astype_float (sub : list (string * list cell))
  : result (list (string * list cell)) :=
  map_result
    (fun nc =>
       match map_result cell_to_float (snd nc) with
       | OK col => OK (fst nc, col)
       | Raise e => Raise e
       end)
    sub.

(** [df[keys] = sub], column by column. *)
Definition set_columns (sub cols : list (string * list cell))
  : list (string * list cell) :=
  fold_left (fun cs nc => set_column (fst nc) (snd nc) cs) sub cols.

Definition ohlcv_cols : list string := ["open"; "high"; "low"; "close"]%string.

Definition ohlc_to_float_fn (df : DataFrame) (asset : PolygonDataAsset)
  : result DataFrame :=
  match select_columns df ohlcv_cols with
  | Raise e => Raise e
  | OK sub =>
      match astype_float sub with
      | Raise e => Raise e
      | OK floats =>
          OK (mk_DataFrame (df_index_name df) (df_index df)
                           (set_columns floats (df_columns df)))
      end
  end.

Definition set_sort_dt_index : CleanerFunc :=
  mk_CleanerFunc "set_sort_dt_index" (fun df asset => lift (set_sort_dt_index_fn df asset)).

Definition add_asset_id_prefixes : CleanerFunc :=
  mk_CleanerFunc "add_asset_id_prefixes"
                 (fun df asset => lift (add_asset_id_prefixes_fn df asset)).

Definition ohlc_to_float : CleanerFunc :=
  mk_CleanerFunc "ohlc_to_float" (fun df asset => lift (ohlc_to_float_fn df asset)).

Definition CLEANERS (t : PolygonAssetType) : list CleanerFunc :=
  match t with
  | options => [set_sort_dt_index]
  | index => []
  | equity => [set_sort_dt_index; ohlc_to_float; add_asset_id_prefixes]
  | forex => [set_sort_dt_index]
  end.

(** One entry of [changes]: [f"{'added' if change > 0 else 'removed'} {abs(change)} {what}"]
    when [change != 0]. *)
Definition change_entry (change : Z) (what : string) : list string :=
  let verb : string := if 0 <? change then "added" else "removed" in
  if negb (change =? 0)
  then [(verb ++ " " ++ str_of_Z (Z.abs change) ++ " " ++ what)%string]
  else [].

(** The text [log_dataframe_changes] logs for a change of shape. *)
Definition change_description (before_shape after_shape : Z * Z) : string :=
  let row_change := fst after_shape - fst before_shape in
  let col_change := snd after_shape - snd before_shape in
  let changes := change_entry row_change "rows" ++ change_entry col_change "columns" in
  match changes with
  | [] => "made no changes"
  | _ => join " and " changes
  end.

(** The decorator: the wrapper keeps the name of [func] ([functools.wraps]). *)
Definition log_dataframe_changes (func : CleanerFunc) : CleanerFunc :=
  mk_CleanerFunc (cleaner_name func)
    (fun df asset =>
       let before_shape := shape df in
       result_df <- cleaner_call func df asset ;;
       let after_shape := shape result_df in
       logger_info (cleaner_name func ++ "() "
                    ++ change_description before_shape after_shape ++ ".")%string ;;
       ret result_df).

(** ** data.py: the remote loader *)

(** The prefix [list_polygon_asset_files] lists under. *)
Definition asset_files_prefix (asset : PolygonDataAsset) : string :=
  let prefix := Str.replace (label asset) "." "/" in
  if negb (Str.endswith prefix "/") then (prefix ++ "/")%string else prefix.

Definition list_polygon_asset_files (asset : PolygonDataAsset) : M (list string) :=
  let prefix := asset_files_prefix asset in
  list_blobs_in_bucket GCP_BUCKET_ID (Some prefix) None.

(** A download of the thread pool whose future is not done: it is submitted,
    or it holds the bucket it asked for and is about to fetch the object, or
    its call has come to its outcome, which the future is about to get. *)
Inductive Download : Type :=
| Submitted (blob : string)
| Fetching (blob : string) (bucket : list (string * string))
| Returning (blob : string) (outcome : result (list record)).

(** The next step of a download: the next store operation of
    [load_jsonl_blob], after which the download goes on, or the end of the
    call, with the outcome its future keeps. *)
Definition step_download (bucket_name : string) (d : Download)
  : M (Download + result (list record)) :=
  match d with
  | Submitted blob =>
      r <- attempt (get_bucket bucket_name) ;;
      match r with
      | OK bucket => ret (inl (Fetching blob bucket))
      | Raise e => ret (inl (Returning blob (Raise e)))
      end
  | Fetching blob bucket =>
      r <- attempt (content <- download_as_text bucket_name bucket blob ;;
                    lift (json_objects_of (splitlines content))) ;;
      ret (inl (Returning blob r))
  | Returning _ outcome => ret (inr outcome)
  end.

(** The threads of the pool: at each step the pending download that the
    schedule names takes its next step, so the store operations of the
    downloads interleave; the outcomes come in the order in which the
    downloads end, as [as_completed] hands them back. *)
Fixpoint run_pool (steps : nat) (choices : list nat) (pending : list Download)
  : M (list (result (list record))) :=
  match steps with
  | O => ret []
  | S steps' =>
      let i := Nat.modulo (hd O choices) (List.length pending) in
      match nth_error pending i with
      | None => ret []
      | Some d =>
          next <- step_download GCP_BUCKET_ID d ;;
          match next with
          | inl d' =>
              run_pool steps' (tl choices) (firstn i pending ++ d' :: skipn (S i) pending)
          | inr r =>
              rs <- run_pool steps' (tl choices) (firstn i pending ++ skipn (S i) pending) ;;
              ret (r :: rs)
          end
      end
  end.

(** The loop over the completed futures: [future.result()] re-raises what the
    call raised; otherwise its records extend [data]. *)
Fixpoint extend_all (data : list record) (results : list (result (list record)))
  : result (list record) :=
  match results with
  | [] => OK data
  | OK blob_json :: results' => extend_all (data ++ blob_json) results'
  | Raise e :: _ => Raise e
  end.

(** The [with ThreadPoolExecutor()] block.  Every submitted download runs to
    its end before the block is left, also when one of them raised: each
    takes three steps.  The outcomes are taken in the order in which the
    downloads ended. *)
Definition download_blobs (blobs : list string) : M (list record) :=
  w <- get_world ;;
  let steps := (3 * List.length blobs)%nat in
  set_schedule (skipn steps (schedule w)) ;;
  results <- run_pool steps (schedule w) (map Submitted blobs) ;;
  lift (extend_all [] results).

(** [if blob_limit: blobs = blobs[:blob_limit]]: [None] and [0] leave the
    list as it is. *)
Definition limit_blobs (blob_limit : option Z) (blobs : list string) : list string :=
  match blob_limit with
  | Some n => if negb (n =? 0) then slice_to blobs n else blobs
  | None => blobs
  end.

Definition load_polygon_data_asset_from_gcs (asset : PolygonDataAsset)
    (blob_limit : option Z) (clean : bool) : M DataFrame :=
  blobs <- list_polygon_asset_files asset ;;
  blobs <- lift (sort_blobs_by_date blobs) ;;
  let blobs := limit_blobs blob_limit blobs in
  logger_info ("Loading " ++ str_of_Z (Z.of_nat (List.length blobs)) ++ " blobs.")%string ;;
  data <- download_blobs blobs ;;
  let df := DataFrame_new data in
  (* assert len(df) > 0, "No data" *)
  if (0 <? df_len df)%nat then ret df else raise (AssertionError "No data").

(** ** data.py: the local cache *)

Definition get_polygon_asset_local_file_name (asset : PolygonDataAsset) : string :=
  (Str.replace (label asset) "." "/" ++ ".joblib")%string.

Record LocalDataCache : Type := mk_LocalDataCache { data_dir : string }.

(** [str(self.data_dir / file)] *)
Definition path_join (dir file : string) : string :=
  str_of_path (truediv (path_of_str dir) file).

Definition list_files (self : LocalDataCache) (prefix : string) : M (list string) :=
  w <- get_world ;;
  let all_files := map fst (files w) in
  ret (filter (fun file => Str.startswith file prefix) all_files).

(** The relative path of a place below the cache directory, as [list_files]
    gives it. *)
Definition relative_path (relative : list string) : string := join "/" relative.

(** In the cache directory a place is a file when it is the path of one, and
    a directory when files lie below it: the cache directory itself exists,
    and no directory in it is empty. *)
Definition is_file (relative : list string) (fs : list (string * DataFrame)) : bool :=
  existsb (String.eqb (relative_path relative)) (map fst fs).

Definition is_directory (relative : list string) (fs : list (string * DataFrame)) : bool :=
  match relative with
  | [] => true
  | _ :: _ => existsb (fun f => Str.startswith f (relative_path relative ++ "/")) (map fst fs)
  end.

(** What [open(file_name, "rb")] raises for a place that holds no file. *)
Definition open_error (file_name : string) (relative : list string)
    (fs : list (string * DataFrame)) : exn :=
  if existsb (fun a => is_file a fs) (ancestors relative) then NotADirectoryError
  else if is_directory relative fs then IsADirectoryError
  else FileNotFoundError file_name.

Definition load (self : LocalDataCache) (file : string) : M DataFrame :=
  let file_name := path_join (data_dir self) file in
  logger_info ("Loading " ++ file_name)%string ;;
  w <- get_world ;;
  (* joblib.load(file_name) *)
  match locate (data_dir self) file with
  | Inside relative =>
      match relative, assoc (relative_path relative) (files w) with
      | _ :: _, Some obj => ret obj
      | _, _ => raise (open_error file_name relative (files w))
      end
  | Outside path =>
      match assoc path (elsewhere w) with
      | Some obj => ret obj
      | None => raise (FileNotFoundError file_name)
      end
  end.

(** Writing a file: an existing file is replaced where it is; a new file is
    taken to be met last by the next walk (its place is up to the file
    system). *)
Fixpoint write_file (file : string) (obj : DataFrame) (fs : list (string * DataFrame))
  : list (string * DataFrame) :=
  match fs with
  | [] => [(file, obj)]
  | (f, o) :: fs' =>
      if String.eqb f file then (f, obj) :: fs' else (f, o) :: write_file file obj fs'
  end.

(** What [os.makedirs(os.path.dirname(file_name), exist_ok=True)] raises: the
    empty path is no directory, and a file where a directory is needed stands
    in the way (as the directory itself, or above it).  Outside the cache
    directory the directories are taken to be there or to be made. *)
Definition makedirs_error (self : LocalDataCache) (file : string)
    (fs : list (string * DataFrame)) : option exn :=
  if String.eqb (dirname (truediv (path_of_str (data_dir self)) file)) "" then
    Some (FileNotFoundError "")
  else
    match locate (data_dir self) file with
    | Inside relative =>
        match filter (fun a => is_file a fs) (ancestors relative) with
        | [] => None
        | a :: _ =>
            if Nat.eqb (S (List.length a)) (List.length relative) then Some FileExistsError
            else Some NotADirectoryError
        end
    | Outside _ => None
    end.

(** What [open(file_name, "wb")] raises once the directories are there. *)
Definition dump_error (self : LocalDataCache) (file : string)
    (fs : list (string * DataFrame)) : option exn :=
  match locate (data_dir self) file with
  | Inside relative => if is_directory relative fs then Some IsADirectoryError else None
  | Outside _ => None
  end.

Definition save (self : LocalDataCache) (obj : DataFrame) (file : string) : M unit :=
  let file_name := path_join (data_dir self) file in
  w <- get_world ;;
  (* os.makedirs(os.path.dirname(file_name), exist_ok=True) *)
  match makedirs_error self file (files w) with
  | Some e => raise e
  | None =>
      logger_info ("Saving " ++ file_name)%string ;;
      (* joblib.dump(obj, file_name) *)
      match dump_error self file (files w) with
      | Some e => raise e
      | None =>
          match locate (data_dir self) file with
          | Inside relative => set_files (write_file (relative_path relative) obj (files w))
          | Outside path => set_elsewhere (write_file path obj (elsewhere w))
          end
      end
  end.

(** ** data.py: [DataManager] *)

(** The loop over [CLEANERS[asset.asset_type]]. *)
Fixpoint apply_cleaners (cleaners : list CleanerFunc) (df : DataFrame)
    (asset : PolygonDataAsset) : M DataFrame :=
  match cleaners with
  | [] => ret df
  | cleaner_func :: cleaners' =>
      let logged_cleaner_func := log_dataframe_changes cleaner_func in
      df <- cleaner_call logged_cleaner_func df asset ;;
      apply_cleaners cleaners' df asset
  end.

Definition load_asset (self : LocalDataCache) (asset : PolygonDataAsset)
    (force_reload clean : bool) : M DataFrame :=
  let cache_file := get_polygon_asset_local_file_name asset in
  cached_files <- list_files self cache_file ;;
  df <- match negb force_reload, cached_files with
        | true, first :: _ =>
            logger_info ("Loading " ++ label asset ++ " from local cache.")%string ;;
            load self first
        | _, _ =>
            logger_info ("Loading " ++ label asset ++ " from remote.")%string ;;
            df <- load_polygon_data_asset_from_gcs asset None true ;;
            save self df cache_file ;;
            ret df
        end ;;
  if clean then apply_cleaners (CLEANERS (asset_type asset)) df asset else ret df.

End Package.

(** ** The vocabulary of the properties *)

(** [a] carries a date that is not later than the date of [b]. *)
Definition blob_date_leb (a b : string) : bool :=
  match extract_date a, extract_date b with
  | OK da, OK db => negb (datetime_ltb db da)
  | _, _ => false
  end.

(** [b] carries the date [d]. *)
Definition has_date (d : datetime) (b : string) : bool :=
  match extract_date b with
  | OK d' => datetime_eqb d' d
  | Raise _ => false
  end.

(** The reading of C7 in the words of the specification: the token is the
    file-name component with the suffix [.jsonl] taken off its end, and it is
    well formed when it is four digits, a dash, two digits, a dash and two
    digits. *)
Definition remove_suffix (s suffix : string) : string :=
  if Str.endswith s suffix
  then String.substring 0 (String.length s - String.length suffix) s
  else s.

Definition date_token (blob : string) : string :=
  remove_suffix (last_item (Str.split blob "/")) ".jsonl".

Definition is_digit (c : ascii) : bool := in_range "0" "9" c.

Definition is_YYYY_MM_DD (token : string) : bool :=
  match list_ascii_of_string token with
  | [y1; y2; y3; y4; dash1; m1; m2; dash2; d1; d2] =>
      forallb is_digit [y1; y2; y3; y4; m1; m2; d1; d2]
      && Ascii.eqb dash1 "-" && Ascii.eqb dash2 "-"
  | _ => false
  end.

(** The date a token of the form YYYY-MM-DD names, if it is one of the
    calendar. *)
Definition token_datetime (token : string) : result datetime :=
  match list_ascii_of_string token with
  | [y1; y2; y3; y4; _; m1; m2; _; d1; d2] =>
      datetime_new (100 * (10 * digit_value y1 + digit_value y2)
                    + (10 * digit_value y3 + digit_value y4))
                   (10 * digit_value m1 + digit_value m2)
                   (10 * digit_value d1 + digit_value d2)
  | _ => Raise (ValueError "not a date")
  end.

Definition with_traded (t : bool) (a : PolygonDataAsset) : PolygonDataAsset :=
  mk_PolygonDataAsset (asset_type a) (asset_id a) (data_provider a) (interval_type a) t
                      (data_type a).

Definition with_asset_id (id : string) (a : PolygonDataAsset) : PolygonDataAsset :=
  mk_PolygonDataAsset (asset_type a) id (data_provider a) (interval_type a) (traded a)
                      (data_type a).

(** The world after some more lines were logged. *)
Definition logged (lines : list string) (w : World) : World :=
  mk_World (files w) (elsewhere w) (buckets w) (store_calls w) (log w ++ lines) (schedule w).

(** The world after a file was written at a place. *)
Definition written (place : Location) (obj : DataFrame) (w : World) : World :=
  match place with
  | Inside relative =>
      mk_World (write_file (relative_path relative) obj (files w)) (elsewhere w) (buckets w)
               (store_calls w) (log w) (schedule w)
  | Outside path =>
      mk_World (files w) (write_file path obj (elsewhere w)) (buckets w)
               (store_calls w) (log w) (schedule w)
  end.

(** The relative path below the cache directory that [self.data_dir / file]
    leads to, when it leads to a place below it. *)
Definition cache_key (self : LocalDataCache) (file : string) : option string :=
  match locate (data_dir self) file with
  | Inside (part :: parts) => Some (relative_path (part :: parts))
  | _ => None
  end.


(** A column is one of the four when its name is in [ohlcv_cols]. *)
Definition is_ohlc (name : string) : bool := existsb (String.eqb name) ohlcv_cols.

(** In a list of items with their keys: [p] may stand before [q]; the key
    of [p] is the key of its item. *)
Definition keyed_le {K A} (ltb : K -> K -> bool) (p q : K * A) : Prop :=
  ltb (fst q) (fst p) = false.

Definition keyed_ok {K A} (key : A -> result K) (p : K * A) : Prop :=
  key (snd p) = OK (fst p).

(** No full stop occurs in [s]. *)
Definition no_dot (s : string) : bool :=
  forallb (fun c => negb (Ascii.eqb c ".")) (list_ascii_of_string s).

(** [m] never changes the part [proj] of the world. *)
Definition keeps {B A} (proj : World -> B) (m : M A) : Prop :=
  forall w, proj (snd (m w)) = proj w.

(** What [ohlc_to_float] does to one column, given the four columns of
    floats. *)
Definition put_floats (f_open f_high f_low f_close : list cell)
    (nc : string * list cell) : string * list cell :=
  if String.eqb (fst nc) "close" then (fst nc, f_close)
  else if String.eqb (fst nc) "low" then (fst nc, f_low)
  else if String.eqb (fst nc) "high" then (fst nc, f_high)
  else if String.eqb (fst nc) "open" then (fst nc, f_open)
  else nc.

(** ** A library instance and a world to run the package on *)

(** The column names of [pd.DataFrame(data)]: the keys of the records in
    the order they first appear. *)
Fixpoint column_names (seen : list string) (data : list record) : list string :=
  match data with
  | [] => seen
  | r :: data' =>
      let fresh := filter (fun k => negb (existsb (String.eqb k) seen)) (map fst r) in
      column_names (seen ++ fresh) data'
  end.

(** [pd.DataFrame(data)] without the inference of column types: a field a
    record lacks is NaN, the index counts the rows from 0. *)
Definition DataFrame_of_records (data : list record) : DataFrame :=
  mk_DataFrame None
    (map (fun i => VInt (Z.of_nat i)) (seq 0 (List.length data)))
    (map (fun k =>
            (k, map (fun r => match assoc k r with
                              | Some c => c
                              | None => VFloat S754_nan
                              end) data))
         (column_names [] data)).

(** A stand-in for [json.loads] that reads objects written as
    [{key=value,key=value}]: a value that is a decimal number is an [int],
    any other value is a [str]. *)
Definition example_value (v : string) : cell :=
  match NilZero.int_of_string v with
  | Some i => VInt (Z.of_int i)
  | None => VStr v
  end.

Definition example_json_loads (line : string) : result record :=
  if Str.startswith line "{" && Str.endswith line "}"
  then map_result
         (fun field =>
            match Str.split field "=" with
            | [k; v] => OK (k, example_value v)
            | _ => Raise JSONDecodeError
            end)
         (Str.split (String.substring 1 (String.length line - 2) line) ",")
  else Raise JSONDecodeError.

Definition example_hash (s : string) : Z :=
  fold_left (fun h c => (31 * h + Z.of_nat (nat_of_ascii c)) mod 2 ^ 61)
            (list_ascii_of_string s) 7.

Definition example_float_of_str (s : string) : option spec_float :=
  match NilZero.int_of_string s with
  | Some i => Some (binary_normalize 53 1024 (Z.of_int i) 0 false)
  | None => None
  end.

(** Dates in the form of [%Y-%m-%d], as a count of days. *)
Definition example_to_datetime (col : list cell) : result (list cell) :=
  map_result
    (fun c =>
       match c with
       | VStr s =>
           match strptime_Ymd s with
           | OK d => OK (VTimestamp (372 * year d + 31 * month d + day d))
           | Raise e => Raise e
           end
       | VTimestamp t => OK (VTimestamp t)
       | VNull | VNaT => OK VNaT
       | _ => Raise TypeError
       end)
    col.

Definition timestamp_ltb (a b : cell) : bool :=
  match a, b with
  | VTimestamp s, VTimestamp t => s <? t
  | VTimestamp _, _ => true
  | _, _ => false
  end.

Definition example_argsort (col : list cell) : list nat :=
  map snd (sort_keyed timestamp_ltb (combine col (seq 0 (List.length col)))).

Lemma DataFrame_of_records_len (data : list record) :
  df_len (DataFrame_of_records data) = List.length data.
Proof. unfold df_len; simpl. now rewrite length_map, length_seq. Qed.

#[local] Instance example_library : Library := {
  py_hash := example_hash;
  json_loads := example_json_loads;
  float_of_str := example_float_of_str;
  DataFrame_new := DataFrame_of_records;
  DataFrame_new_len := DataFrame_of_records_len;
  to_datetime_mixed := example_to_datetime;
  argsort := example_argsort
}.

Definition SPY : PolygonDataAsset := PolygonDataAsset_default equity "SPY".

Definition SPX : PolygonDataAsset := PolygonDataAsset_default index "SPX".

Definition example_frame : DataFrame :=
  DataFrame_of_records [[("dt"%string, VStr "2024-01-01"); ("open"%string, VInt 1);
                         ("high"%string, VInt 2); ("low"%string, VInt 1);
                         ("close"%string, VStr "15"); ("volume"%string, VInt 100)];
                        [("dt"%string, VStr "2024-01-02"); ("open"%string, VInt 1);
                         ("high"%string, VInt 2); ("low"%string, VInt 1);
                         ("close"%string, VStr "15"); ("volume"%string, VInt 100)]].

(** The bucket: two days of [SPY], in the reverse of their order of date, a
    day of its neighbour [SPYD], a day of [SPX], and for [VIX] an object of
    blank lines. *)
Definition example_bucket : list (string * string) :=
  [("polygon/equity/ohlcv/1d/SPY/2024-01-02.jsonl",
    "{dt=2024-01-02,open=1,high=2,low=1,close=2,volume=100}");
   ("polygon/equity/ohlcv/1d/SPY/2024-01-01.jsonl",
    "{dt=2024-01-01,open=1,high=2,low=1,close=2,volume=100}");
   ("polygon/equity/ohlcv/1d/SPYD/2024-01-01.jsonl",
    "{dt=2024-01-01,open=3,high=3,low=3,close=3,volume=7}");
   ("polygon/index/ohlc/1d/SPX/2024-01-01.jsonl",
    "{dt=2024-01-01,open=4,high=4,low=4,close=4}");
   ("polygon/index/ohlc/1d/VIX/2024-01-01.jsonl", "

")]%string.

(** A world with a cold cache. *)
Definition cold_world : World :=
  mk_World [] [] [(GCP_BUCKET_ID, example_bucket)] [] [] [1%nat; 0%nat].

(** A world in which [SPY] is cached. *)
Definition warm_world : World :=
  mk_World [("polygon/equity/ohlcv/1d/SPY.joblib"%string, example_frame)] []
           [(GCP_BUCKET_ID, example_bucket)] [] [] [].

Definition cache : LocalDataCache := mk_LocalDataCache "resources/cachedir".


(** ** The vocabulary of the further properties *)

(** Two paths lead to one file: the same place below the cache directory, or
    the same path outside it. *)
Definition same_file (self : LocalDataCache) (file other : string) : bool :=
  match locate (data_dir self) file, locate (data_dir self) other with
  | Inside (part :: parts), Inside (part' :: parts') =>
      String.eqb (relative_path (part :: parts)) (relative_path (part' :: parts'))
  | Outside path, Outside path' => String.eqb path path'
  | _, _ => false
  end.

(** A relative path in normal form: no component is empty (so no separator
    comes first, last or twice in a row), [.] or [..]. *)
Definition normal_relative (file : string) : bool :=
  forallb (fun part => negb (String.eqb part "") && negb (String.eqb part ".")
                       && negb (String.eqb part ".."))
          (Str.split file "/").

(** No component of the path is [..]. *)
Definition no_parent_step (file : string) : bool :=
  negb (existsb (String.eqb "..") (path_parts (path_of_str file))).

(** Two full stops in a row occur in [s]. *)
Fixpoint adjacent_dots (s : string) : bool :=
  match s with
  | EmptyString => false
  | String c s' =>
      (Ascii.eqb c "." && Str.startswith s' ".") || adjacent_dots s'
  end.

(** The cache holds nothing but cache files of assets, each path once. *)
Definition cache_of_assets (fs : list (string * DataFrame)) : Prop :=
  NoDup (map fst fs)
  /\ forall f, In f (map fst fs) -> exists b, f = get_polygon_asset_local_file_name b.

(** What downloading and reading the object [blob] of a bucket gives. *)
Definition blob_records {L : Library} (objects : list (string * string)) (blob : string)
  : result (list record) :=
  match assoc blob objects with
  | Some content => json_objects_of (splitlines content)
  | None => Raise (NotFound blob)
  end.

(** The store operations of one download. *)
Definition download_calls (blob : string) : list StoreCall :=
  [GetBucket GCP_BUCKET_ID; DownloadAsText GCP_BUCKET_ID blob].

(** The world after some more store operations. *)
Definition called (calls : list StoreCall) (w : World) : World :=
  mk_World (files w) (elsewhere w) (buckets w) (store_calls w ++ calls) (log w) (schedule w).

(** The blob of a pending download, the store operations it still has to
    perform, and their number. *)
Definition download_blob (d : Download) : string :=
  match d with Submitted blob | Fetching blob _ | Returning blob _ => blob end.

Definition pending_calls (d : Download) : list StoreCall :=
  match d with
  | Submitted blob => download_calls blob
  | Fetching blob _ => [DownloadAsText GCP_BUCKET_ID blob]
  | Returning _ _ => []
  end.

Definition pending_steps (d : Download) : nat :=
  match d with Submitted _ => 3%nat | Fetching _ _ => 2%nat | Returning _ _ => 1%nat end.

(** For a bucket that exists: the blobs of the pool in the order in which
    their downloads end, and the store operations of the pool in the order in
    which they are performed. *)
Fixpoint pool_trace {L : Library} (objects : list (string * string)) (steps : nat)
    (choices : list nat) (pending : list Download) : list string * list StoreCall :=
  match steps with
  | O => ([], [])
  | S steps' =>
      let i := Nat.modulo (hd O choices) (List.length pending) in
      match nth_error pending i with
      | None => ([], [])
      | Some (Submitted blob) =>
          let rest :=
            pool_trace objects steps' (tl choices)
                       (firstn i pending ++ Fetching blob objects :: skipn (S i) pending) in
          (fst rest, GetBucket GCP_BUCKET_ID :: snd rest)
      | Some (Fetching blob _) =>
          let rest :=
            pool_trace objects steps' (tl choices)
                       (firstn i pending
                        ++ Returning blob (blob_records objects blob) :: skipn (S i) pending) in
          (fst rest, DownloadAsText GCP_BUCKET_ID blob :: snd rest)
      | Some (Returning blob _) =>
          let rest :=
            pool_trace objects steps' (tl choices) (firstn i pending ++ skipn (S i) pending) in
          (blob :: fst rest, snd rest)
      end
  end.

(** The pool, for a bucket that exists: a download that fetches holds the
    bucket, and one that is about to end holds the records of its blob. *)
Definition pool_invariant {L : Library} (objects : list (string * string)) (d : Download)
  : Prop :=
  match d with
  | Submitted _ => True
  | Fetching _ bucket => bucket = objects
  | Returning blob outcome => outcome = blob_records objects blob
  end.

(** The records of an outcome, none for an error. *)
Definition records_of (r : result (list record)) : list record :=
  match r with OK records => records | Raise _ => [] end.

(** A world whose bucket holds a day of [SPY] that is not JSON. *)
Definition broken_bucket : list (string * string) :=
  ("polygon/equity/ohlcv/1d/SPY/2024-01-03.jsonl", "oops")%string :: example_bucket.

Definition broken_world : World :=
  mk_World [] [] [(GCP_BUCKET_ID, broken_bucket)] [] [] [2%nat; 0%nat; 0%nat].

(** ** gcs.py and data.py: the discovery of the assets of a type *)

(** [list(s)] for the set [s] that the items of [l] were put in: every item
    once, in an order that is up to the hashes of the strings. *)
Class SetOrder : Type := {
  list_of_set : list string -> list string;
  list_of_set_perm : forall l, Permutation (list_of_set l) (nodup string_dec l)
}.

(** [s[len(p):]] for an [s] that starts with [p]. *)
Fixpoint after_prefix (s p : string) {struct p} : option string :=
  match p with
  | EmptyString => Some s
  | String c p' =>
      match s with
      | EmptyString => None
      | String d s' => if Ascii.eqb c d then after_prefix s' p' else None
      end
  end.

(** The part of [rest] up to and including the first occurrence of a
    non-empty [delimiter]. *)
Fixpoint upto_delimiter (delimiter rest : string) : option string :=
  match rest with
  | EmptyString => None
  | String c rest' =>
      if Str.startswith rest delimiter then Some delimiter
      else option_map (String c) (upto_delimiter delimiter rest')
  end.

(** What the pages of [bucket.list_blobs(prefix=prefix, delimiter=delimiter)]
    give as [prefixes]: for every object under [prefix] whose name goes on
    with the delimiter, the name up to and including that delimiter. *)
Definition list_blobs_prefixes (objects : list (string * string)) (prefix : option string)
    (delimiter : string) : list string :=
  let p := match prefix with Some p => p | None => EmptyString end in
  flat_map
    (fun name =>
       match after_prefix name p with
       | Some rest =>
           match upto_delimiter delimiter rest with
           | Some dir => [(p ++ dir)%string]
           | None => []
           end
       | None => []
       end)
    (map fst objects).

(** [s[:-1]] on a [str] *)
Definition drop_last (s : string) : string :=
  String.substring 0 (String.length s - 1) s.

(** The prefix [list_assets_by_type] lists under. *)
Definition assets_prefix (asset_type : PolygonAssetType) : string :=
  ("polygon/" ++ asset_type_str asset_type ++ "/" ++ POLYGON_DATA_TYPE_MAP asset_type
   ++ "/1d/")%string.

(** The body of the loop of [list_assets_by_type]. *)
Definition asset_id_of (prefix asset : string) : string :=
  let asset := Str.replace asset prefix "" in
  if Str.endswith asset "/" then drop_last asset else asset.

Section Discovery.
Context {order : SetOrder}.

(** The listing is recorded as a listing under the prefix. *)
Definition list_prefixes_in_bucket (bucket_name : string) (prefix : option string)
    (delimiter : string) : M (list string) :=
  bucket <- get_bucket bucket_name ;;
  store_call (ListBlobs bucket_name prefix None) ;;
  let prefixes := list_of_set (list_blobs_prefixes bucket prefix delimiter) in
  ret prefixes.

Definition list_assets_by_type (asset_type : PolygonAssetType) : M (list PolygonDataAsset) :=
  let prefix := assets_prefix asset_type in
  all_assets <- list_prefixes_in_bucket GCP_BUCKET_ID (Some prefix) "/" ;;
  let asset_ids := map (asset_id_of prefix) all_assets in
  ret (map (fun asset_id => PolygonDataAsset_default asset_type asset_id) asset_ids).

Definition list_polygon_options_assets : M (list PolygonDataAsset) :=
  list_assets_by_type options.

Definition list_polygon_index_assets : M (list PolygonDataAsset) :=
  list_assets_by_type index.

Definition list_polygon_equity_assets : M (list PolygonDataAsset) :=
  list_assets_by_type equity.

Definition list_polygon_forex_assets : M (list PolygonDataAsset) :=
  list_assets_by_type forex.

End Discovery.

(** No separator occurs in [s]. *)
Definition no_slash (s : string) : bool :=
  forallb (fun c => negb (Ascii.eqb c "/")) (list_ascii_of_string s).

(** A set order for the examples: the reverse of the order of insertion. *)
Lemma rev_nodup_perm (l : list string) :
  Permutation (List.rev (nodup string_dec l)) (nodup string_dec l).
Proof. symmetry. apply Permutation_rev. Qed.

#[local] Instance example_set_order : SetOrder := {
  list_of_set := fun l => List.rev (nodup string_dec l);
  list_of_set_perm := rev_nodup_perm
}.

(** ** logger.py *)

(** A [logging.Handler]: its level and the format of its formatter. *)
Record Handler : Type := mk_Handler {
  handler_level : Z;
  handler_format : option string
}.

(** A [logging.Logger]: its level, whether it hands its records on to the
    handlers of its parents, and its own handlers. *)
Record Logger : Type := mk_Logger {
  logger_level : Z;
  propagate : bool;
  handlers : list Handler
}.

(** The loggers of the process: the root logger and the loggers that
    [logging.getLogger] has made so far, by name. *)
Record Logging : Type := mk_Logging {
  root_logger : Logger;
  named_loggers : list (string * Logger)
}.

(** The state of [logging] when it is imported: the root logger is at
    [WARNING]. *)
Definition initial_logging : Logging := mk_Logging (mk_Logger 30 true []) [].

(** A level as [setLevel] takes it: a name or a number. *)
Inductive LogLevel : Type :=
| LevelName (name : string)
| LevelNumber (n : Z).

(** [logging._nameToLevel] *)
Definition name_to_level : list (string * Z) :=
  [("CRITICAL", 50); ("FATAL", 50); ("ERROR", 40); ("WARN", 30); ("WARNING", 30);
   ("INFO", 20); ("DEBUG", 10); ("NOTSET", 0)]%string.

(** [logging._checkLevel]; the message is that of a name [repr] quotes as it
    is. *)
Definition check_level (level : LogLevel) : result Z :=
  match level with
  | LevelNumber n => OK n
  | LevelName name =>
      match assoc name name_to_level with
      | Some n => OK n
      | None => Raise (ValueError ("Unknown level: '" ++ name ++ "'"))
      end
  end.

(** The names [logging.getLogger] takes for the root logger. *)
Definition is_root (name : string) : bool :=
  String.eqb name "" || String.eqb name "root".

(** [logging.getLogger(name)]: the logger of that name, a new one when there
    is none yet. *)
Definition getLogger (name : string) (lg : Logging) : Logger :=
  if is_root name then root_logger lg
  else
    match assoc name (named_loggers lg) with
    | Some logger => logger
    | None => mk_Logger 0 true []
    end.

Fixpoint set_named (name : string) (logger : Logger) (loggers : list (string * Logger))
  : list (string * Logger) :=
  match loggers with
  | [] => [(name, logger)]
  | (n, l) :: loggers' =>
      if String.eqb n name then (n, logger) :: loggers'
      else (n, l) :: set_named name logger loggers'
  end.

(** The logger of that name after the assignments to it. *)
Definition set_logger (name : string) (logger : Logger) (lg : Logging) : Logging :=
  if is_root name then mk_Logging logger (named_loggers lg)
  else mk_Logging (root_logger lg) (set_named name logger (named_loggers lg)).

Definition LOG_FORMAT : string :=
  "%(asctime)s [%(levelname)s] [%(module)s:%(funcName)s:%(lineno)d] : %(message)s".

(** [get_logger(name, log_level)]; the default of [log_level] is
    [LevelName "INFO"]. *)
Definition get_logger (name : string) (log_level : LogLevel) (lg : Logging)
  : result Logger * Logging :=
  let logger := getLogger name lg in
  (* logger.propagate = False *)
  let logger := mk_Logger (logger_level logger) false (handlers logger) in
  (* ch = logging.StreamHandler() *)
  let ch := mk_Handler 0 None in
  (* logger.setLevel(log_level) *)
  match check_level log_level with
  | Raise e => (Raise e, set_logger name logger lg)
  | OK level =>
      let logger := mk_Logger level (propagate logger) (handlers logger) in
      (* ch.setLevel(log_level); ch.setFormatter(formatter) *)
      let ch := mk_Handler level (Some LOG_FORMAT) in
      (* if not logger.handlers: logger.addHandler(ch) *)
      let logger :=
        match handlers logger with
        | [] => mk_Logger (logger_level logger) (propagate logger) [ch]
        | _ :: _ => logger
        end in
      (OK logger, set_logger name logger lg)
  end.

(** The default of [log_level]. *)
Definition INFO : LogLevel := LevelName "INFO".

(** * Properties *)

(** ** Results *)

Lemma map_result_Forall2 {A B} (f : A -> result B) (l : list A) (ys : list B) :
  map_result f l = OK ys -> Forall2 (fun x y => f x = OK y) l ys.
Proof.
  revert ys; induction l as [|x l IH]; simpl; intros ys Hm.
  - injection Hm as <-. constructor.
  - destruct (f x) as [y|e] eqn:Hx; try discriminate.
    destruct (map_result f l) as [ys'|e] eqn:Hl; try discriminate.
    injection Hm as <-. constructor; auto.
Qed.

Lemma map_result_ok {A B} (f : A -> result B) (l : list A) :
  Forall (fun x => is_ok (f x) = true) l -> exists ys, map_result f l = OK ys.
Proof.
  induction 1 as [|x l Hx _ [ys IH]]; simpl.
  - now exists [].
  - destruct (f x) as [y|e]; try discriminate.
    rewrite IH. now exists (y :: ys).
Qed.

Lemma map_result_first_raise {A B} (f : A -> result B) (l : list A) :
  Exists (fun x => is_ok (f x) = false) l ->
  exists x e, In x l /\ f x = Raise e /\ map_result f l = Raise e.
Proof.
  induction l as [|x l IH]; intros Hex.
  - inversion Hex.
  - simpl. destruct (f x) as [y|e] eqn:Hx.
    + inversion Hex as [? ? Hbad|? ? Hrest]; subst.
      * rewrite Hx in Hbad. discriminate.
      * destruct (IH Hrest) as (x' & e & Hin & Hfx & ->).
        exists x', e. auto.
    + exists x, e. auto.
Qed.

(** ** Facts on [str] methods *)

Lemma startswith_app (s x p : string) :
  Str.startswith s (x ++ p)%string = true <->
  exists r, s = (x ++ r)%string /\ Str.startswith r p = true.
Proof.
  revert s; induction x as [|c x IH]; intros s; simpl.
  - split; [intros Hp; now exists s | now intros (r & -> & Hr)].
  - destruct s as [|d s]; simpl.
    + split; [discriminate | intros (r & Hr & _); discriminate].
    + rewrite andb_true_iff, IH. split.
      * intros [Hc (r & -> & Hr)]. apply Ascii.eqb_eq in Hc as ->. now exists r.
      * intros (r & [= -> ->] & Hr). split; [apply Ascii.eqb_refl | now exists r].
Qed.

Lemma append_inj_l (x r1 r2 : string) : (x ++ r1 = x ++ r2)%string -> r1 = r2.
Proof. induction x as [|c x IH]; simpl; [auto | intros [= Heq]; auto]. Qed.

Lemma append_assoc (a b c : string) : ((a ++ b) ++ c = a ++ (b ++ c))%string.
Proof. induction a as [|x a IH]; simpl; [reflexivity | now rewrite IH]. Qed.

Lemma rev_acc_app (s t acc : string) :
  Str.rev_acc (s ++ t)%string acc = Str.rev_acc t (Str.rev_acc s acc).
Proof. revert acc; induction s as [|c s IH]; intros acc; simpl; auto. Qed.

(** The last character decides [endswith] for a suffix of one character. *)
Lemma endswith_snoc (s : string) (c d : ascii) :
  Str.endswith (s ++ String c EmptyString)%string (String d EmptyString) = Ascii.eqb d c.
Proof.
  unfold Str.endswith, Str.rev. rewrite rev_acc_app. simpl.
  now rewrite andb_true_r.
Qed.

(** Replacing a single character works character by character. *)
Lemma replace_char_app (s t : string) (c : ascii) (new : string) :
  Str.replace (s ++ t)%string (String c EmptyString) new
  = (Str.replace s (String c EmptyString) new
     ++ Str.replace t (String c EmptyString) new)%string.
Proof.
  unfold Str.replace. induction s as [|d s IH]; simpl; auto.
  rewrite IH, andb_true_r. destruct (Ascii.eqb c d); simpl; auto.
  now rewrite append_assoc.
Qed.

Lemma append_empty_r (s : string) : (s ++ "")%string = s.
Proof. induction s as [|c s IH]; simpl; [reflexivity | now rewrite IH]. Qed.

Lemma rev_acc_spec (s acc : string) : Str.rev_acc s acc = (Str.rev s ++ acc)%string.
Proof.
  unfold Str.rev. revert acc; induction s as [|c s IH]; intros acc; simpl; auto.
  rewrite IH, (IH (String c EmptyString)), append_assoc. reflexivity.
Qed.

Lemma rev_app (a b : string) : Str.rev (a ++ b)%string = (Str.rev b ++ Str.rev a)%string.
Proof.
  unfold Str.rev at 1. rewrite rev_acc_app, rev_acc_spec. reflexivity.
Qed.

Lemma rev_involutive (s : string) : Str.rev (Str.rev s) = s.
Proof.
  induction s as [|c s IH]; auto.
  change (String c s) with (String c EmptyString ++ s)%string at 1.
  rewrite rev_app, rev_app, IH. reflexivity.
Qed.

Lemma length_append (a b : string) :
  String.length (a ++ b)%string = (String.length a + String.length b)%nat.
Proof. induction a as [|c a IH]; simpl; auto. Qed.

Lemma substring_0_append (a b : string) :
  String.substring 0 (String.length a) (a ++ b)%string = a.
Proof.
  induction a as [|c a IH]; simpl.
  - now destruct b.
  - now rewrite IH.
Qed.

(** A text that ends with [suffix] is [remove_suffix] of it followed by
    [suffix]. *)
Lemma endswith_remove_suffix (s suffix : string) :
  Str.endswith s suffix = true -> s = (remove_suffix s suffix ++ suffix)%string.
Proof.
  intros He. unfold remove_suffix. rewrite He. unfold Str.endswith in He.
  rewrite <- (append_empty_r (Str.rev suffix)) in He.
  apply startswith_app in He as (r & Hr & _).
  apply (f_equal Str.rev) in Hr. rewrite rev_involutive, rev_app, rev_involutive in Hr.
  subst s. rewrite length_append, Nat.add_sub, substring_0_append. reflexivity.
Qed.

Lemma replace_jsonl_no_dot (t tail : string) :
  no_dot t = true ->
  Str.replace (t ++ tail)%string ".jsonl" ""
  = (t ++ Str.replace tail ".jsonl" "")%string.
Proof.
  unfold Str.replace, no_dot.
  induction t as [|c t IH];
    cbn [append list_ascii_of_string forallb Str.replace_from]; auto.
  intros Hc. apply andb_true_iff in Hc as [Hc Ht].
  rewrite Ascii.eqb_sym in Hc. apply negb_true_iff in Hc.
  change (Str.startswith (String c (t ++ tail)) ".jsonl")
    with (Ascii.eqb "." c && Str.startswith (t ++ tail) "jsonl").
  rewrite Hc. cbn [andb]. now rewrite IH.
Qed.

(** ** The stable sort *)

Section SortedFacts.
Context {K A : Type}.
Variable ltb : K -> K -> bool.

Lemma insert_keyed_perm (x : K * A) l : Permutation (x :: l) (insert_keyed ltb x l).
Proof.
  induction l as [|y l IH]; simpl.
  - apply Permutation_refl.
  - destruct (ltb (fst y) (fst x)).
    + eapply perm_trans; [apply perm_swap|]. now apply perm_skip.
    + apply Permutation_refl.
Qed.

Lemma sort_keyed_perm (l : list (K * A)) : Permutation l (sort_keyed ltb l).
Proof.
  induction l as [|x l IH]; simpl.
  - constructor.
  - eapply perm_trans; [apply perm_skip, IH|]. apply insert_keyed_perm.
Qed.

Hypothesis ltb_asym : forall a b, ltb a b = true -> ltb b a = false.
Hypothesis ltb_negtrans :
  forall a b c, ltb b a = false -> ltb c b = false -> ltb c a = false.

Lemma insert_keyed_sorted (x : K * A) l :
  StronglySorted (keyed_le ltb) l -> StronglySorted (keyed_le ltb) (insert_keyed ltb x l).
Proof.
  induction 1 as [|y l Hs IH Hy]; simpl.
  - repeat constructor.
  - destruct (ltb (fst y) (fst x)) eqn:Hyx.
    + constructor; auto.
      apply (Permutation_Forall (insert_keyed_perm x l)).
      constructor; auto. now apply ltb_asym.
    + constructor.
      * now constructor.
      * constructor; auto.
        eapply Forall_impl; [|exact Hy].
        intros z Hz. unfold keyed_le in *. eapply ltb_negtrans; eauto.
Qed.

Lemma sort_keyed_sorted (l : list (K * A)) : StronglySorted (keyed_le ltb) (sort_keyed ltb l).
Proof.
  induction l as [|x l IH]; simpl.
  - constructor.
  - now apply insert_keyed_sorted.
Qed.

(** Items whose keys fall in a class that [ltb] never separates keep their
    order. *)
Variable same : K -> bool.
Hypothesis same_not_ltb : forall a b, same a = true -> same b = true -> ltb a b = false.

Lemma insert_keyed_filter (x : K * A) l :
  filter (fun p => same (fst p)) (insert_keyed ltb x l)
  = filter (fun p => same (fst p)) (x :: l).
Proof.
  induction l as [|y l IH]; simpl in *; auto.
  destruct (ltb (fst y) (fst x)) eqn:Hyx; simpl; auto.
  rewrite IH.
  destruct (same (fst y)) eqn:Hy, (same (fst x)) eqn:Hx; auto.
  rewrite (same_not_ltb _ _ Hy Hx) in Hyx. discriminate.
Qed.

Lemma sort_keyed_stable (l : list (K * A)) :
  filter (fun p => same (fst p)) (sort_keyed ltb l) = filter (fun p => same (fst p)) l.
Proof.
  induction l as [|x l IH]; simpl; auto.
  rewrite insert_keyed_filter. simpl. now rewrite IH.
Qed.
End SortedFacts.

Section SortedByKey.
Context {K A : Type}.
Variable ltb : K -> K -> bool.
Variable key : A -> result K.

Lemma combine_keys_ok (l : list A) (keys : list K) :
  Forall2 (fun x k => key x = OK k) l keys ->
  Forall (keyed_ok key) (combine keys l) /\ map snd (combine keys l) = l.
Proof.
  induction 1 as [|x k l keys Hx _ [IH1 IH2]]; simpl.
  - split; constructor.
  - split; [constructor; auto | now rewrite IH2].
Qed.

Lemma sorted_by_key_decorated (l : list A) (keys : list K) :
  map_result key l = OK keys ->
  let dec := sort_keyed ltb (combine keys l) in
  sorted_by_key ltb key l = OK (map snd dec)
  /\ Forall (keyed_ok key) dec
  /\ Permutation l (map snd dec).
Proof.
  intros Hk dec. unfold sorted_by_key. rewrite Hk.
  destruct (combine_keys_ok _ _ (map_result_Forall2 _ _ _ Hk)) as [Hok Hsnd].
  split; [reflexivity|]. split.
  - apply (Permutation_Forall (sort_keyed_perm ltb _) Hok).
  - rewrite <- Hsnd at 1. apply Permutation_map, sort_keyed_perm.
Qed.

Lemma StronglySorted_map_snd (R : K * A -> K * A -> Prop) (R' : A -> A -> Prop)
    (dec : list (K * A)) :
  (forall p q, keyed_ok key p -> keyed_ok key q -> R p q -> R' (snd p) (snd q)) ->
  Forall (keyed_ok key) dec -> StronglySorted R dec -> StronglySorted R' (map snd dec).
Proof.
  intros HR Hok Hs. induction Hs as [|p dec Hs IH Hp]; simpl.
  - constructor.
  - inversion Hok as [|? ? Hokp Hokd]; subst. constructor; auto.
    rewrite Forall_map. rewrite Forall_forall in *.
    intros q Hq. apply HR; auto.
Qed.

Lemma filter_map_snd (same : K -> bool) (same' : A -> bool) (dec : list (K * A)) :
  (forall p, keyed_ok key p -> same' (snd p) = same (fst p)) ->
  Forall (keyed_ok key) dec ->
  filter same' (map snd dec) = map snd (filter (fun p => same (fst p)) dec).
Proof.
  intros Hsame. induction 1 as [|p dec Hp _ IH]; simpl; auto.
  rewrite (Hsame p Hp), IH. now destruct (same (fst p)).
Qed.
End SortedByKey.

(** ** Order of [datetime] values *)

(** [datetime_ltb] is the lexicographic order on year, month and day. *)
Lemma datetime_ltb_lt (a b : datetime) :
  datetime_ltb a b = true <->
  year a < year b
  \/ (year a = year b
      /\ (month a < month b \/ (month a = month b /\ day a < day b))).
Proof.
  unfold datetime_ltb.
  now rewrite !orb_true_iff, !andb_true_iff, !orb_true_iff, !andb_true_iff,
    !Z.ltb_lt, !Z.eqb_eq.
Qed.

Lemma datetime_eqb_eq (a b : datetime) : datetime_eqb a b = true <-> a = b.
Proof.
  destruct a as [y m d], b as [y' m' d']. unfold datetime_eqb; simpl.
  rewrite !andb_true_iff, !Z.eqb_eq. split.
  - intros [[-> ->] ->]. reflexivity.
  - intros [= -> -> ->]. auto.
Qed.

Lemma datetime_ltb_asym (a b : datetime) :
  datetime_ltb a b = true -> datetime_ltb b a = false.
Proof.
  rewrite <- not_true_iff_false, !datetime_ltb_lt. lia.
Qed.

Lemma datetime_ltb_negtrans (a b c : datetime) :
  datetime_ltb b a = false -> datetime_ltb c b = false -> datetime_ltb c a = false.
Proof.
  rewrite <- !not_true_iff_false, !datetime_ltb_lt. lia.
Qed.

Lemma datetime_eqb_not_ltb (d a b : datetime) :
  datetime_eqb a d = true -> datetime_eqb b d = true -> datetime_ltb a b = false.
Proof.
  rewrite !datetime_eqb_eq, <- not_true_iff_false, datetime_ltb_lt.
  intros -> ->. lia.
Qed.

(** ** Dates written as YYYY-MM-DD *)

(** [strptime] on some texts: what it accepts beyond the form YYYY-MM-DD,
    and what it rejects. *)
Example strptime_Ymd_examples :
  map strptime_Ymd ["2024-01-05"; "2024-1-5"; "2024-01- 5"; "2024-02-29"]%string
  = [OK (mk_datetime 2024 1 5); OK (mk_datetime 2024 1 5); OK (mk_datetime 2024 1 5);
     OK (mk_datetime 2024 2 29)]
  /\ map (fun t => is_ok (strptime_Ymd t))
         ["2023-02-29"; "2024-13-01"; "2024-01-00"; "0000-01-01"; "2024-01-311";
          "2024-01-05 "; " 2024-01-05"; "20240105"; "latest"; ""]%string
     = [false; false; false; false; false; false; false; false; false; false].
Proof. split; reflexivity. Qed.

Lemma is_digit_cases (c : ascii) :
  is_digit c = true ->
  In c ["0"; "1"; "2"; "3"; "4"; "5"; "6"; "7"; "8"; "9"]%char.
Proof.
  destruct c as [[] [] [] [] [] [] [] []]; intros H; try discriminate H;
    simpl; auto 12.
Qed.

Lemma re_Y_digits (y1 y2 y3 y4 : ascii) (rest : string) :
  is_digit y1 = true -> is_digit y2 = true -> is_digit y3 = true -> is_digit y4 = true ->
  re_Y (String y1 (String y2 (String y3 (String y4 rest))))
  = [(100 * (10 * digit_value y1 + digit_value y2)
      + (10 * digit_value y3 + digit_value y4), rest)].
Proof.
  unfold is_digit. intros H1 H2 H3 H4.
  unfold re_Y, two_digits, seq_m, cls. simpl. rewrite H1. simpl. rewrite H2. simpl.
  rewrite H3. simpl. rewrite H4. reflexivity.
Qed.

(** The month of two digits, followed by the dash. *)
Lemma re_m_two_digits (m1 m2 : ascii) (rest : string) :
  is_digit m1 = true -> is_digit m2 = true ->
  let m := 10 * digit_value m1 + digit_value m2 in
  re_m_dash (String m1 (String m2 (String "-" rest)))
  = if (1 <=? m) && (m <=? 12) then [(m, rest)] else [].
Proof.
  intros H1 H2. apply is_digit_cases in H1, H2. simpl in H1, H2.
  repeat destruct H1 as [<- | H1]; try destruct H1;
    repeat destruct H2 as [<- | H2]; try destruct H2; reflexivity.
Qed.

(** The first match of the day of two digits at the end of the text. *)
Lemma re_d_two_digits (d1 d2 : ascii) :
  is_digit d1 = true -> is_digit d2 = true ->
  let d := 10 * digit_value d1 + digit_value d2 in
  match re_d (String d1 (String d2 EmptyString)) with
  | (d', EmptyString) :: _ => d' = d /\ 1 <= d <= 31
  | _ => ~ 1 <= d <= 31
  end.
Proof.
  intros H1 H2. apply is_digit_cases in H1, H2. simpl in H1, H2.
  repeat destruct H1 as [<- | H1]; try destruct H1;
    repeat destruct H2 as [<- | H2]; try destruct H2;
    vm_compute; try (split; [reflexivity|split; discriminate]);
    intros [Hlo Hhi]; try (now apply Hlo); try (now apply Hhi).
Qed.

Lemma seq_m_single {A B C} (f : A -> B -> C) (p : matcher A) (q : matcher B)
    (s s1 : string) (a : A) :
  p s = [(a, s1)] -> seq_m f p q s = map (fun bs => (f a (fst bs), snd bs)) (q s1).
Proof.
  intros Hp. unfold seq_m. rewrite Hp. simpl. rewrite app_nil_r.
  apply map_ext. now intros [b s2].
Qed.

Lemma seq_m_none {A B C} (f : A -> B -> C) (p : matcher A) (q : matcher B) (s : string) :
  p s = [] -> seq_m f p q s = [].
Proof. intros Hp. unfold seq_m. now rewrite Hp. Qed.

(** On a text of the form YYYY-MM-DD, [strptime] returns exactly when the
    three numbers are a date of the calendar, and returns that date. *)
Lemma strptime_Ymd_strict (y1 y2 y3 y4 m1 m2 d1 d2 : ascii) (dt : datetime) :
  forallb is_digit [y1; y2; y3; y4; m1; m2; d1; d2] = true ->
  let y := 100 * (10 * digit_value y1 + digit_value y2)
           + (10 * digit_value y3 + digit_value y4) in
  let m := 10 * digit_value m1 + digit_value m2 in
  let d := 10 * digit_value d1 + digit_value d2 in
  strptime_Ymd
    (String y1 (String y2 (String y3 (String y4 (String "-"
       (String m1 (String m2 (String "-" (String d1 (String d2 EmptyString))))))))))
  = OK dt
  <-> datetime_new y m d = OK dt.
Proof.
  intros Hdigits y m d. cbn [forallb] in Hdigits. rewrite !andb_true_iff in Hdigits.
  destruct Hdigits as (Hy1 & Hy2 & Hy3 & Hy4 & Hm1 & Hm2 & Hd1 & Hd2 & _).
  unfold strptime_Ymd, format_regex.
  assert (HY : re_Y_dash
                 (String y1 (String y2 (String y3 (String y4 (String "-"
                    (String m1 (String m2 (String "-" (String d1 (String d2 EmptyString))))))))))
               = [(y, String m1 (String m2 (String "-" (String d1 (String d2 EmptyString)))))]).
  { unfold re_Y_dash. rewrite (seq_m_single _ _ _ _ _ _ (re_Y_digits _ _ _ _ _ Hy1 Hy2 Hy3 Hy4)).
    reflexivity. }
  pose proof (re_m_two_digits m1 m2 (String d1 (String d2 EmptyString)) Hm1 Hm2) as HM.
  cbv zeta in HM. fold m in HM.
  pose proof (re_d_two_digits d1 d2 Hd1 Hd2) as HD. cbv zeta in HD. fold d in HD.
  assert (HYM : seq_m (fun y m => (y, m)) re_Y_dash re_m_dash
                  (String y1 (String y2 (String y3 (String y4 (String "-"
                     (String m1 (String m2 (String "-"
                        (String d1 (String d2 EmptyString))))))))))
                = if (1 <=? m) && (m <=? 12)
                  then [((y, m), String d1 (String d2 EmptyString))] else []).
  { rewrite (seq_m_single _ _ _ _ _ _ HY), HM. now destruct ((1 <=? m) && (m <=? 12)). }
  destruct ((1 <=? m) && (m <=? 12)) eqn:Hm.
  - rewrite (seq_m_single _ _ _ _ _ _ HYM).
    destruct (re_d (String d1 (String d2 EmptyString))) as [|[d' [|c rest]] l]; simpl.
    + split; [discriminate|]. unfold datetime_new.
      destruct (negb _); [discriminate|]. destruct (negb _); [discriminate|].
      destruct (negb ((1 <=? d) && (d <=? days_in_month y m))) eqn:Hd; [discriminate|].
      exfalso. apply HD. apply negb_false_iff, andb_true_iff in Hd as [Hlo Hhi].
      apply Z.leb_le in Hlo, Hhi. split; auto.
      unfold days_in_month in Hhi.
      repeat match type of Hhi with
             | context [if ?b then _ else _] => destruct b
             end; lia.
    + destruct HD as [-> _]. reflexivity.
    + split; [discriminate|]. unfold datetime_new.
      destruct (negb _); [discriminate|]. destruct (negb _); [discriminate|].
      destruct (negb ((1 <=? d) && (d <=? days_in_month y m))) eqn:Hd; [discriminate|].
      exfalso. apply HD. apply negb_false_iff, andb_true_iff in Hd as [Hlo Hhi].
      apply Z.leb_le in Hlo, Hhi. split; auto.
      unfold days_in_month in Hhi.
      repeat match type of Hhi with
             | context [if ?b then _ else _] => destruct b
             end; lia.
  - rewrite (seq_m_none _ _ _ _ HYM).
    split; [discriminate|]. unfold datetime_new.
    destruct (negb _); [discriminate|]. rewrite Hm. discriminate.
Qed.

Lemma is_digit_not_dot (c : ascii) : is_digit c = true -> Ascii.eqb c "." = false.
Proof.
  intros H. destruct (Ascii.eqb_spec c "."); auto. subst. discriminate.
Qed.

Lemma is_YYYY_MM_DD_no_dot (t : string) : is_YYYY_MM_DD t = true -> no_dot t = true.
Proof.
  unfold is_YYYY_MM_DD, no_dot.
  destruct (list_ascii_of_string t)
    as [|y1 [|y2 [|y3 [|y4 [|a [|m1 [|m2 [|b [|d1 [|d2 [|x l]]]]]]]]]]]; try discriminate.
  intros Hform. cbn [forallb] in *. rewrite !andb_true_iff in Hform.
  destruct Hform as [[(Hy1 & Hy2 & Hy3 & Hy4 & Hm1 & Hm2 & Hd1 & Hd2 & _) Ha] Hb].
  apply Ascii.eqb_eq in Ha, Hb. subst a b.
  rewrite (is_digit_not_dot _ Hy1), (is_digit_not_dot _ Hy2), (is_digit_not_dot _ Hy3),
    (is_digit_not_dot _ Hy4), (is_digit_not_dot _ Hm1), (is_digit_not_dot _ Hm2),
    (is_digit_not_dot _ Hd1), (is_digit_not_dot _ Hd2).
  reflexivity.
Qed.

(** When the token of a name, as the specification reads it, has the form
    YYYY-MM-DD, it is the text [extract_date] parses. *)
Lemma extract_date_date_token (blob : string) :
  is_YYYY_MM_DD (date_token blob) = true ->
  extract_date blob = strptime_Ymd (date_token blob).
Proof.
  unfold extract_date, date_token.
  set (name := last_item (Str.split blob "/")).
  intros Hform. apply is_YYYY_MM_DD_no_dot in Hform. f_equal.
  destruct (Str.endswith name ".jsonl") eqn:He.
  - rewrite (endswith_remove_suffix _ _ He) at 1.
    rewrite (replace_jsonl_no_dot _ _ Hform). apply append_empty_r.
  - unfold remove_suffix in *. rewrite He in *.
    rewrite <- (append_empty_r name) at 1.
    rewrite (replace_jsonl_no_dot _ _ Hform). apply append_empty_r.
Qed.

(** A name whose token, as the specification reads it, has the form
    YYYY-MM-DD carries the date that the token names, and carries no date
    when the token names none. *)
Lemma extract_date_token_datetime (blob : string) (dt : datetime) :
  is_YYYY_MM_DD (date_token blob) = true ->
  extract_date blob = OK dt <-> token_datetime (date_token blob) = OK dt.
Proof.
  intros Hform. rewrite (extract_date_date_token _ Hform).
  revert Hform. unfold is_YYYY_MM_DD, token_datetime.
  rewrite <- (string_of_list_ascii_of_string (date_token blob)) at 2.
  destruct (list_ascii_of_string (date_token blob))
    as [|y1 [|y2 [|y3 [|y4 [|a [|m1 [|m2 [|b [|d1 [|d2 [|x l]]]]]]]]]]]; try discriminate.
  intros Hform. apply andb_true_iff in Hform as [Hform Hb].
  apply andb_true_iff in Hform as [Hdigits Ha].
  apply Ascii.eqb_eq in Ha, Hb. subst a b.
  cbn [string_of_list_ascii]. now apply strptime_Ymd_strict.
Qed.

Lemma datetime_new_raises_ValueError (y m d : Z) (e : exn) :
  datetime_new y m d = Raise e -> exists msg, e = ValueError msg.
Proof.
  unfold datetime_new.
  repeat match goal with
         | |- context [if ?b then _ else _] => destruct b
         end; intros [= <-]; eauto.
Qed.

Lemma extract_date_raises_ValueError (blob : string) (e : exn) :
  extract_date blob = Raise e -> exists msg, e = ValueError msg.
Proof.
  unfold extract_date, strptime_Ymd.
  destruct (format_regex _) as [|[[[y m] d] rest] ?].
  - intros [= <-]; eauto.
  - destruct rest.
    + apply datetime_new_raises_ValueError.
    + intros [= <-]; eauto.
Qed.

(** ** [sort_blobs_by_date] *)

(** C3. [sort_blobs_by_date] is a stable ascending sort by the date in the
    file name: whenever every name carries a date, the call returns a
    rearrangement of its input in which dates never decrease and in which the
    names of any one date keep the order they had.  The date a name carries
    is the one its token names, when the token (the last path component
    without the suffix [.jsonl]) has the form YYYY-MM-DD.  On
    [["a/2024-01-05.jsonl"; "a/2024-01-01.jsonl"]] the name of 2024-01-01
    comes first. *)
Theorem sort_blobs_by_date_stable_ascending :
  (forall blobs : list string,
      Forall (fun b => is_ok (extract_date b) = true) blobs ->
      exists out,
        sort_blobs_by_date blobs = OK out
        /\ Permutation blobs out
        /\ StronglySorted (fun a b => blob_date_leb a b = true) out
        /\ forall d, filter (has_date d) out = filter (has_date d) blobs)
  /\ (forall (blob : string) (dt : datetime),
         is_YYYY_MM_DD (date_token blob) = true ->
         extract_date blob = OK dt <-> token_datetime (date_token blob) = OK dt)
  /\ sort_blobs_by_date ["a/2024-01-05.jsonl"; "a/2024-01-01.jsonl"]%string
     = OK ["a/2024-01-01.jsonl"; "a/2024-01-05.jsonl"]%string.
Proof.
  split; [|split; [exact extract_date_token_datetime | reflexivity]].
  intros blobs Hall.
  destruct (map_result_ok _ _ Hall) as [keys Hk].
  destruct (sorted_by_key_decorated datetime_ltb _ _ _ Hk) as (Hsort & Hok & Hperm).
  set (dec := sort_keyed datetime_ltb (combine keys blobs)) in *.
  exists (map snd dec). split; [exact Hsort|]. split; [exact Hperm|]. split.
  - apply (StronglySorted_map_snd extract_date (keyed_le datetime_ltb)); auto.
    + intros p q Hp Hq Hle. unfold blob_date_leb, keyed_ok, keyed_le in *.
      now rewrite Hp, Hq, Hle.
    + apply sort_keyed_sorted.
      * apply datetime_ltb_asym.
      * apply datetime_ltb_negtrans.
  - intros d.
    rewrite (filter_map_snd extract_date (fun k => datetime_eqb k d)); auto.
    + unfold dec.
      rewrite (sort_keyed_stable datetime_ltb (fun k => datetime_eqb k d)
                 (fun a b => datetime_eqb_not_ltb d a b)).
      destruct (combine_keys_ok _ _ _ (map_result_Forall2 _ _ _ Hk)) as [Hok0 Hsnd].
      rewrite <- (filter_map_snd extract_date (fun k => datetime_eqb k d)
                    (has_date d)); auto.
      * now rewrite Hsnd.
      * intros p Hp. unfold has_date, keyed_ok in *. now rewrite Hp.
    + intros p Hp. unfold has_date, keyed_ok in *. now rewrite Hp.
Qed.

Lemma sort_blobs_by_date_stable_ascending_witness :
  (exists out,
      sort_blobs_by_date ["b/2024-03-01.jsonl"; "a/2024-01-05.jsonl"; "c/2024-03-01.jsonl"]%string
      = OK out
      /\ Permutation
           ["b/2024-03-01.jsonl"; "a/2024-01-05.jsonl"; "c/2024-03-01.jsonl"]%string out
      /\ StronglySorted (fun a b => blob_date_leb a b = true) out
      /\ filter (has_date (mk_datetime 2024 3 1)) out
         = ["b/2024-03-01.jsonl"; "c/2024-03-01.jsonl"]%string)
  /\ extract_date "a/2024-01-05.jsonl" = OK (mk_datetime 2024 1 5).
Proof.
  destruct sort_blobs_by_date_stable_ascending as (Hsort & Htoken & _).
  split.
  - destruct (Hsort ["b/2024-03-01.jsonl"; "a/2024-01-05.jsonl"; "c/2024-03-01.jsonl"]%string)
      as (out & Hout & Hperm & Hsorted & Hstable); [repeat constructor|].
    exists out. repeat split; auto.
  - apply Htoken; reflexivity.
Defined.

(** C7, as stated, fails: a month and a day without their leading zero are
    not of the form YYYY-MM-DD, and the call returns all the same. *)
Lemma sort_blobs_by_date_accepts_unpadded_date :
  Exists (fun b => is_YYYY_MM_DD (date_token b) = false) ["a/2024-1-5.jsonl"]%string
  /\ sort_blobs_by_date ["a/2024-1-5.jsonl"]%string = OK ["a/2024-1-5.jsonl"]%string.
Proof. split; [constructor|]; reflexivity. Qed.

(** What [extract_date] takes out is every occurrence of [.jsonl], not the
    suffix alone. *)
Example extract_date_removes_every_jsonl :
  date_token "a/2024.jsonl-01-05" = "2024.jsonl-01-05"%string
  /\ extract_date "a/2024.jsonl-01-05" = OK (mk_datetime 2024 1 5).
Proof. split; reflexivity. Qed.

(** The failure of a comprehension is the failure of its first item that
    fails. *)
Lemma map_result_raise_first {A B} (f : A -> result B) (l : list A) (e : exn) :
  map_result f l = Raise e ->
  exists accepted x rest,
    l = accepted ++ x :: rest
    /\ Forall (fun a => is_ok (f a) = true) accepted
    /\ f x = Raise e.
Proof.
  induction l as [|a l IH]; cbn [map_result]; [discriminate|].
  destruct (f a) as [y|e'] eqn:Ha.
  - destruct (map_result f l) as [ys|e'] eqn:Hl; [discriminate|].
    intros [= ->]. destruct (IH eq_refl) as (accepted & x & rest & -> & Hok & Hx).
    exists (a :: accepted), x, rest. repeat split; auto.
    constructor; [now rewrite Ha | exact Hok].
  - intros [= ->]. exists [], a, l. repeat split; auto.
Qed.

(** On a token of the form YYYY-MM-DD the parser raises exactly when the
    token names no date of the calendar. *)
Lemma extract_date_strict_token (blob : string) :
  is_YYYY_MM_DD (date_token blob) = true ->
  is_ok (extract_date blob) = is_ok (token_datetime (date_token blob)).
Proof.
  intros Hstrict.
  destruct (extract_date blob) as [dt|e] eqn:Hdate.
  - apply (extract_date_token_datetime blob dt Hstrict) in Hdate. now rewrite Hdate.
  - destruct (token_datetime (date_token blob)) as [dt|e'] eqn:Htoken; [|reflexivity].
    apply (extract_date_token_datetime blob dt Hstrict) in Htoken. congruence.
Qed.

(** C7, amended. If [strptime] with [%Y-%m-%d] rejects the date text of any
    name (the last path component with every [.jsonl] taken out), the whole
    call raises [ValueError], the one of the first such name, every name
    before it being accepted: nothing is skipped and no list is returned.
    Among names whose token has the form YYYY-MM-DD, exactly those whose
    token names no date of the calendar are rejected. *)
Theorem sort_blobs_by_date_rejected_date_is_fatal (blobs : list string) :
  Exists (fun b => is_ok (extract_date b) = false) blobs ->
  (exists accepted b rest msg,
      blobs = accepted ++ b :: rest
      /\ Forall (fun a => is_ok (extract_date a) = true) accepted
      /\ extract_date b = Raise (ValueError msg)
      /\ sort_blobs_by_date blobs = Raise (ValueError msg))
  /\ (forall blob,
         is_YYYY_MM_DD (date_token blob) = true ->
         is_ok (extract_date blob) = is_ok (token_datetime (date_token blob))).
Proof.
  intros Hex. split; [|exact extract_date_strict_token].
  destruct (map_result_first_raise _ _ Hex) as (b0 & e & _ & _ & Hmap).
  destruct (map_result_raise_first _ _ _ Hmap) as (accepted & b & rest & Hsplit & Hok & Hb).
  destruct (extract_date_raises_ValueError _ _ Hb) as [msg ->].
  exists accepted, b, rest, msg. repeat split; auto.
  unfold sort_blobs_by_date, sorted_by_key. now rewrite Hmap.
Qed.

Lemma sort_blobs_by_date_rejected_date_is_fatal_witness :
  sort_blobs_by_date ["a/2024-01-05.jsonl"; "a/2024-02-30.jsonl"; "a/latest.jsonl"]%string
  = Raise (ValueError "day is out of range for month")
  /\ extract_date "a/2024-02-30.jsonl" = Raise (ValueError "day is out of range for month")
  /\ extract_date "a/latest.jsonl" = Raise (ValueError "time data does not match format")
  /\ is_ok (token_datetime (date_token "a/2024-02-30.jsonl")) = false.
Proof.
  destruct (sort_blobs_by_date_rejected_date_is_fatal
              ["a/2024-01-05.jsonl"; "a/2024-02-30.jsonl"; "a/latest.jsonl"]%string)
    as [(accepted & b & rest & msg & Hsplit & Hok & Hb & Hsort) Hstrict].
  { apply Exists_cons_tl, Exists_cons_hd. reflexivity. }
  split; [|split; [reflexivity | split; [reflexivity|]]].
  - rewrite Hsort. vm_compute in Hsort. injection Hsort as <-. reflexivity.
  - rewrite <- (Hstrict "a/2024-02-30.jsonl"%string eq_refl). reflexivity.
Defined.

(** ** [PolygonDataAsset]: equality and hashing *)

(** C6. Two assets are equal exactly when their labels are, assets of equal
    labels have equal hashes, and neither equality nor the hash looks at
    [traded]. *)
Theorem PolygonDataAsset_eq_iff_label {L : Library} (a b : PolygonDataAsset) :
  (PolygonDataAsset_eq a b = true <-> label a = label b)
  /\ (label a = label b -> PolygonDataAsset_hash a = PolygonDataAsset_hash b)
  /\ (forall ta tb,
         PolygonDataAsset_eq (with_traded ta a) (with_traded tb b) = PolygonDataAsset_eq a b
         /\ PolygonDataAsset_hash (with_traded ta a) = PolygonDataAsset_hash a).
Proof.
  unfold PolygonDataAsset_eq, PolygonDataAsset_hash. repeat split.
  - intros Heq. apply String.eqb_eq in Heq. congruence.
  - intros Heq. apply String.eqb_eq. congruence.
  - intros Heq. now rewrite Heq.
Qed.

Lemma PolygonDataAsset_eq_iff_label_witness :
  PolygonDataAsset_eq (PolygonDataAsset_init equity "SPY" "polygon" "1d" true) SPY = true
  /\ PolygonDataAsset_hash (PolygonDataAsset_init equity "SPY" "polygon" "1d" true)
     = PolygonDataAsset_hash SPY.
Proof.
  destruct (PolygonDataAsset_eq_iff_label
              (PolygonDataAsset_init equity "SPY" "polygon" "1d" true) SPY)
    as (Heq & Hhash & _).
  split; [apply Heq | apply Hhash]; reflexivity.
Defined.

(** ** [list_polygon_asset_files] *)

(** The label ends with the asset id. *)
Lemma label_asset_id (a : PolygonDataAsset) :
  label a = (label (with_asset_id "" a) ++ asset_id a)%string.
Proof.
  unfold label, with_asset_id; simpl.
  repeat (rewrite append_assoc; simpl). reflexivity.
Qed.

Lemma asset_files_prefix_ends_with_separator (a : PolygonDataAsset) :
  Str.endswith (asset_files_prefix a) "/" = true.
Proof.
  unfold asset_files_prefix.
  destruct (Str.endswith (Str.replace (label a) "." "/") "/") eqn:He; simpl; auto.
  apply endswith_snoc.
Qed.

Lemma asset_files_prefix_SPY (a : PolygonDataAsset) :
  asset_id a = "SPY"%string ->
  asset_files_prefix a
  = (Str.replace (label (with_asset_id "" a)) "." "/" ++ "SPY/")%string
  /\ asset_files_prefix (with_asset_id "SPYD" a)
     = (Str.replace (label (with_asset_id "" a)) "." "/" ++ "SPYD/")%string.
Proof.
  intros Hid. unfold asset_files_prefix. split.
  - rewrite (label_asset_id a), Hid, replace_char_app.
    change (Str.replace "SPY" "." "/") with ("SP" ++ "Y")%string.
    rewrite <- append_assoc, endswith_snoc. simpl.
    now rewrite !append_assoc.
  - rewrite (label_asset_id (with_asset_id "SPYD" a)), replace_char_app. simpl asset_id.
    change (with_asset_id "" (with_asset_id "SPYD" a)) with (with_asset_id "" a).
    change (Str.replace "SPYD" "." "/") with ("SPY" ++ "D")%string.
    rewrite <- append_assoc, endswith_snoc. simpl.
    now rewrite !append_assoc.
Qed.

Lemma SPY_not_SPYD (x name : string) :
  Str.startswith name (x ++ "SPY/")%string = true ->
  Str.startswith name (x ++ "SPYD/")%string = false.
Proof.
  intros H1. destruct (Str.startswith name (x ++ "SPYD/")%string) eqn:H2; auto.
  apply startswith_app in H1 as (r1 & -> & H1).
  apply startswith_app in H2 as (r2 & Heq & H2).
  apply append_inj_l in Heq as ->.
  change "SPY/"%string with ("SPY" ++ "/")%string in H1.
  change "SPYD/"%string with ("SPY" ++ "D/")%string in H2.
  apply startswith_app in H1 as (r1 & -> & H1).
  apply startswith_app in H2 as (r & Heq & H2).
  apply append_inj_l in Heq as ->.
  destruct r as [|c r]; cbn [Str.startswith] in *; try discriminate.
  apply andb_true_iff in H1 as [H1 _]. apply andb_true_iff in H2 as [H2 _].
  apply Ascii.eqb_eq in H1, H2.
  congruence.
Qed.

(** C5. [list_polygon_asset_files] lists under the label's path
    (dots turned into separators) closed by a separator, and returns exactly
    the names of the bucket that start with it.  For an asset of id [SPY] no
    returned name lies under the prefix of the sibling [SPYD]. *)
Theorem list_polygon_asset_files_under_prefix {L : Library} (asset : PolygonDataAsset)
    (w : World) (objects : list (string * string)) :
  assoc GCP_BUCKET_ID (buckets w) = Some objects ->
  let path := Str.replace (label asset) "." "/" in
  let prefix := asset_files_prefix asset in
  let listed := filter (fun name => Str.startswith name prefix) (map fst objects) in
  prefix = (if Str.endswith path "/" then path else path ++ "/")%string
  /\ Str.endswith prefix "/" = true
  /\ (exists w', list_polygon_asset_files asset w = (OK listed, w'))
  /\ (asset_id asset = "SPY"%string ->
      forall name, In name listed ->
        Str.startswith name (asset_files_prefix (with_asset_id "SPYD" asset)) = false).
Proof.
  intros Hb path prefix listed. repeat split.
  - unfold prefix, asset_files_prefix. fold path. now destruct (Str.endswith path "/").
  - apply asset_files_prefix_ends_with_separator.
  - unfold list_polygon_asset_files, list_blobs_in_bucket, get_bucket, bind, store_call,
      get_world, ret. simpl. rewrite Hb. eexists. reflexivity.
  - intros Hid name Hin. apply filter_In in Hin as [_ Hpre].
    destruct (asset_files_prefix_SPY asset Hid) as [Hspy Hspyd].
    unfold prefix in Hpre. rewrite Hspy in Hpre. rewrite Hspyd.
    now apply SPY_not_SPYD.
Qed.

Lemma list_polygon_asset_files_under_prefix_witness :
  asset_files_prefix SPY = "polygon/equity/ohlcv/1d/SPY/"%string
  /\ (exists w',
         list_polygon_asset_files SPY cold_world
         = (OK ["polygon/equity/ohlcv/1d/SPY/2024-01-02.jsonl";
                "polygon/equity/ohlcv/1d/SPY/2024-01-01.jsonl"]%string, w')).
Proof.
  destruct (list_polygon_asset_files_under_prefix SPY cold_world example_bucket eq_refl)
    as (Hprefix & _ & Hlisted & _).
  split; [exact Hprefix | exact Hlisted].
Defined.

(** ** The remote loader *)

Section RemoteLoader.
Context {L : Library}.

(** What [load_polygon_data_asset_from_gcs] does once the names are listed,
    sorted and cut: log, download, build the table, check it. *)
Lemma load_polygon_data_asset_from_gcs_steps (asset : PolygonDataAsset)
    (blob_limit : option Z) (clean : bool) (w w1 : World) (listed sorted : list string) :
  list_polygon_asset_files asset w = (OK listed, w1) ->
  sort_blobs_by_date listed = OK sorted ->
  let blobs := limit_blobs blob_limit sorted in
  load_polygon_data_asset_from_gcs asset blob_limit clean w
  = (logger_info ("Loading " ++ str_of_Z (Z.of_nat (List.length blobs)) ++ " blobs.")%string ;;
     data <- download_blobs blobs ;;
     if (0 <? df_len (DataFrame_new data))%nat
     then ret (DataFrame_new data)
     else raise (AssertionError "No data")) w1.
Proof.
  intros Hlist Hsort blobs.
  unfold load_polygon_data_asset_from_gcs, bind at 1. rewrite Hlist.
  unfold bind at 1, lift. rewrite Hsort. reflexivity.
Qed.

Lemma limit_blobs_nil (blob_limit : option Z) : limit_blobs blob_limit [] = [].
Proof.
  destruct blob_limit as [n|]; simpl; auto.
  destruct (negb (n =? 0)); auto.
  unfold slice_to. destruct (n <? 0); now rewrite firstn_nil.
Qed.

(** C4. [load_polygon_data_asset_from_gcs] never returns a table without
    rows: when the downloads end with no record at all it raises
    [AssertionError], and so it does when the listing is empty. *)
Theorem load_polygon_data_asset_from_gcs_no_data (asset : PolygonDataAsset)
    (blob_limit : option Z) (clean : bool) (w : World) :
  (forall df w',
      load_polygon_data_asset_from_gcs asset blob_limit clean w = (OK df, w') ->
      (0 < df_len df)%nat)
  /\ (forall listed sorted w1 w2 w3,
         list_polygon_asset_files asset w = (OK listed, w1) ->
         sort_blobs_by_date listed = OK sorted ->
         let blobs := limit_blobs blob_limit sorted in
         logger_info ("Loading " ++ str_of_Z (Z.of_nat (List.length blobs)) ++ " blobs.")%string
                     w1 = (OK tt, w2) ->
         download_blobs blobs w2 = (OK [], w3) ->
         load_polygon_data_asset_from_gcs asset blob_limit clean w
         = (Raise (AssertionError "No data"), w3))
  /\ (forall w1,
         list_polygon_asset_files asset w = (OK [], w1) ->
         exists w',
           load_polygon_data_asset_from_gcs asset blob_limit clean w
           = (Raise (AssertionError "No data"), w')).
Proof.
  split; [|split].
  - intros df w'. unfold load_polygon_data_asset_from_gcs, bind.
    destruct (list_polygon_asset_files asset w) as [[listed|e] w1]; [|discriminate].
    destruct (lift (sort_blobs_by_date listed) w1) as [[sorted|e] w2]; [|discriminate].
    destruct (logger_info _ w2) as [[[]|e] w3]; [|discriminate].
    destruct (download_blobs _ w3) as [[data|e] w4]; [|discriminate].
    destruct (0 <? df_len (DataFrame_new data))%nat eqn:Hlen; [|discriminate].
    unfold ret. intros [= <- <-]. now apply Nat.ltb_lt.
  - intros listed sorted w1 w2 w3 Hlist Hsort blobs Hlog Hdl.
    rewrite (load_polygon_data_asset_from_gcs_steps asset blob_limit clean w w1
               listed sorted Hlist Hsort).
    fold blobs. unfold bind at 1. rewrite Hlog. unfold bind. rewrite Hdl.
    now rewrite DataFrame_new_len.
  - intros w1 Hlist.
    rewrite (load_polygon_data_asset_from_gcs_steps asset blob_limit clean w w1
               [] [] Hlist eq_refl).
    rewrite limit_blobs_nil. unfold bind; simpl.
    rewrite DataFrame_new_len. simpl. eexists. reflexivity.
Qed.

(** C9. The argument [clean] of [load_polygon_data_asset_from_gcs] is never
    read: both values give the same outcome and the same world, and a table
    that is returned is the one [pd.DataFrame] builds from the records as
    they were downloaded. *)
Theorem load_polygon_data_asset_from_gcs_ignores_clean (asset : PolygonDataAsset)
    (blob_limit : option Z) (w : World) :
  load_polygon_data_asset_from_gcs asset blob_limit true w
  = load_polygon_data_asset_from_gcs asset blob_limit false w
  /\ forall clean df w',
      load_polygon_data_asset_from_gcs asset blob_limit clean w = (OK df, w') ->
      exists data, df = DataFrame_new data.
Proof.
  split; [reflexivity|].
  intros clean df w'. unfold load_polygon_data_asset_from_gcs, bind.
  destruct (list_polygon_asset_files asset w) as [[listed|e] w1]; [|discriminate].
  destruct (lift (sort_blobs_by_date listed) w1) as [[sorted|e] w2]; [|discriminate].
  destruct (logger_info _ w2) as [[[]|e] w3]; [|discriminate].
  destruct (download_blobs _ w3) as [[data|e] w4]; [|discriminate].
  destruct (0 <? df_len (DataFrame_new data))%nat; [|discriminate].
  unfold ret. intros [= <- <-]. now exists data.
Qed.

End RemoteLoader.

Lemma load_polygon_data_asset_from_gcs_no_data_witness :
  (exists w',
      load_polygon_data_asset_from_gcs (PolygonDataAsset_default index "DAX") None true
                                       cold_world
      = (Raise (AssertionError "No data"), w'))
  /\ (exists w',
         load_polygon_data_asset_from_gcs (PolygonDataAsset_default index "VIX") (Some 5) true
                                          cold_world
         = (Raise (AssertionError "No data"), w')).
Proof.
  split.
  - eapply (proj2 (proj2 (load_polygon_data_asset_from_gcs_no_data
                            (PolygonDataAsset_default index "DAX") None true cold_world))).
    reflexivity.
  - eexists.
    eapply (proj1 (proj2 (load_polygon_data_asset_from_gcs_no_data
                            (PolygonDataAsset_default index "VIX") (Some 5) true
                            cold_world))).
    + vm_compute; reflexivity.
    + vm_compute; reflexivity.
    + vm_compute; reflexivity.
    + vm_compute; reflexivity.
Defined.

(** ** What a computation leaves untouched *)

Create HintDb frame.

Section Frame.
Context {B : Type} (proj : World -> B).

Lemma keeps_ret {A} (a : A) : keeps proj (ret a).
Proof. intros w; reflexivity. Qed.

Lemma keeps_raise {A} (e : exn) : keeps proj (@raise A e).
Proof. intros w; reflexivity. Qed.

Lemma keeps_lift {A} (r : result A) : keeps proj (lift r).
Proof. intros w; reflexivity. Qed.

Lemma keeps_get_world : keeps proj get_world.
Proof. intros w; reflexivity. Qed.

Lemma keeps_bind {A C} (m : M A) (k : A -> M C) :
  keeps proj m -> (forall a, keeps proj (k a)) -> keeps proj (bind m k).
Proof.
  intros Hm Hk w. unfold bind. specialize (Hm w).
  destruct (m w) as [[a|e] w1]; simpl in *; [|assumption].
  now rewrite Hk.
Qed.

Lemma keeps_attempt {A} (m : M A) : keeps proj m -> keeps proj (attempt m).
Proof.
  intros Hm w. unfold attempt. specialize (Hm w). now destruct (m w).
Qed.

End Frame.

#[local] Hint Resolve keeps_ret keeps_raise keeps_lift keeps_get_world keeps_attempt : frame.

Lemma logger_info_keeps_files msg : keeps files (logger_info msg).
Proof. intros w; reflexivity. Qed.

Lemma logger_info_keeps_store_calls msg : keeps store_calls (logger_info msg).
Proof. intros w; reflexivity. Qed.

Lemma store_call_keeps_files c : keeps files (store_call c).
Proof. intros w; reflexivity. Qed.

Lemma set_schedule_keeps_files s : keeps files (set_schedule s).
Proof. intros w; reflexivity. Qed.

#[local] Hint Resolve logger_info_keeps_files logger_info_keeps_store_calls
  store_call_keeps_files set_schedule_keeps_files : frame.

Section FrameOfPool.
Context {L : Library} {B : Type} (proj : World -> B).
Hypothesis store_call_keeps : forall c, keeps proj (store_call c).

Lemma step_download_keeps (bucket_name : string) (d : Download) :
  keeps proj (step_download bucket_name d).
Proof.
  destruct d as [blob|blob bucket|blob outcome]; cbn [step_download];
    [| |apply keeps_ret].
  - apply keeps_bind.
    + apply keeps_attempt. unfold get_bucket.
      apply keeps_bind; [apply store_call_keeps|]. intros _.
      apply keeps_bind; [apply keeps_get_world|]. intros w.
      destruct (assoc bucket_name (buckets w)); [apply keeps_ret | apply keeps_raise].
    + intros [bucket|e]; apply keeps_ret.
  - apply keeps_bind; [|intro; apply keeps_ret].
    apply keeps_attempt. unfold download_as_text.
    apply keeps_bind.
    + apply keeps_bind; [apply store_call_keeps|]. intros _.
      destruct (assoc blob bucket); [apply keeps_ret | apply keeps_raise].
    + intro. apply keeps_lift.
Qed.

Lemma keeps_run_pool (steps : nat) (choices : list nat) (pending : list Download) :
  keeps proj (run_pool steps choices pending).
Proof.
  revert choices pending. induction steps as [|steps IH]; intros choices pending;
    cbn [run_pool]; [apply keeps_ret|].
  destruct (nth_error pending _) as [d|]; [|apply keeps_ret].
  apply keeps_bind; [apply step_download_keeps|].
  intros [d'|r]; [apply IH|].
  apply keeps_bind; [apply IH | intro; apply keeps_ret].
Qed.

End FrameOfPool.

Ltac frame :=
  repeat first
    [ progress auto with frame
    | apply keeps_run_pool
    | apply keeps_bind; [|intro]
    | match goal with
      | |- keeps _ (match ?x with _ => _ end) => destruct x
      | |- keeps _ (if ?b then _ else _) => destruct b
      | |- keeps _ (let _ := _ in _) => cbv zeta
      end ].

Section FrameOfPackage.
Context {L : Library}.

Lemma load_polygon_data_asset_from_gcs_keeps_files asset blob_limit clean :
  keeps files (load_polygon_data_asset_from_gcs asset blob_limit clean).
Proof.
  unfold load_polygon_data_asset_from_gcs, list_polygon_asset_files,
    list_blobs_in_bucket, get_bucket, download_blobs.
  frame.
Qed.

(** The loader touches the store calls, the log and the schedule alone. *)
Lemma load_polygon_data_asset_from_gcs_keeps {B} (proj : World -> B) asset blob_limit clean :
  (forall msg, keeps proj (logger_info msg)) ->
  (forall c, keeps proj (store_call c)) ->
  (forall s, keeps proj (set_schedule s)) ->
  keeps proj (load_polygon_data_asset_from_gcs asset blob_limit clean).
Proof.
  intros Hlog Hcall Hschedule.
  unfold load_polygon_data_asset_from_gcs, list_polygon_asset_files,
    list_blobs_in_bucket, get_bucket, download_blobs.
  frame.
Qed.

(** A logged cleaner that only computes on the table touches the log
    alone. *)
Lemma logged_cleaner_keeps {B} (proj : World -> B) name f df asset :
  (forall msg, keeps proj (logger_info msg)) ->
  keeps proj (cleaner_call
                (log_dataframe_changes
                   (mk_CleanerFunc name (fun df asset => lift (f df asset)))) df asset).
Proof. intros Hlog. simpl. frame; apply Hlog. Qed.

Lemma apply_cleaners_keeps {B} (proj : World -> B) (t : PolygonAssetType) df asset :
  (forall msg, keeps proj (logger_info msg)) ->
  keeps proj (apply_cleaners (CLEANERS t) df asset).
Proof.
  intros Hlog.
  destruct t; cbn [CLEANERS apply_cleaners];
    unfold set_sort_dt_index, ohlc_to_float, add_asset_id_prefixes;
    repeat (apply keeps_bind; [now apply logged_cleaner_keeps | intro]);
    apply keeps_ret.
Qed.

End FrameOfPackage.

(** ** The cache and [load_asset] *)

Lemma assoc_in {V} (k : string) (l : list (string * V)) :
  In k (map fst l) -> exists v, assoc k l = Some v.
Proof.
  induction l as [|[k' v] l IH]; simpl; [intros []|].
  intros [Hk|Hin].
  - subst. rewrite String.eqb_refl. eauto.
  - destruct (String.eqb k' k); eauto.
Qed.

Lemma assoc_write_file_same (file : string) (obj : DataFrame) fs :
  assoc file (write_file file obj fs) = Some obj.
Proof.
  induction fs as [|[f o] fs IH]; simpl.
  - now rewrite String.eqb_refl.
  - destruct (String.eqb f file) eqn:Hf; simpl; now rewrite Hf.
Qed.

Lemma assoc_write_file_other (file other : string) (obj : DataFrame) fs :
  other <> file -> assoc other (write_file file obj fs) = assoc other fs.
Proof.
  intros Hne. induction fs as [|[f o] fs IH]; simpl.
  - destruct (String.eqb_spec file other); congruence.
  - destruct (String.eqb_spec f file) as [->|Hf]; simpl.
    + destruct (String.eqb_spec file other); congruence.
    + now rewrite IH.
Qed.

(** ** Paths in normal form *)

Lemma split_nonempty (s : string) (sep : ascii) : Str.split s sep <> [].
Proof.
  destruct s as [|c s]; cbn [Str.split]; [discriminate|].
  destruct (Ascii.eqb c sep); [discriminate|]. now destruct (Str.split s sep).
Qed.

Lemma join_split (s : string) : join "/" (Str.split s "/") = s.
Proof.
  induction s as [|c s IH]; [reflexivity|].
  cbn [Str.split]. pose proof (split_nonempty s "/") as Hsplit.
  destruct (Ascii.eqb_spec c "/") as [->|Hc].
  - destruct (Str.split s "/") as [|piece pieces]; [contradiction|].
    cbn [join] in *. now rewrite IH.
  - destruct (Str.split s "/") as [|piece pieces]; [contradiction|].
    cbn [join] in *. destruct pieces; cbn [append]; now rewrite <- IH.
Qed.

Lemma split_no_slash (s : string) : no_slash s = true -> Str.split s "/" = [s].
Proof.
  unfold no_slash. induction s as [|c s IH]; [reflexivity|].
  cbn [list_ascii_of_string forallb Str.split]. intros Hs.
  apply andb_true_iff in Hs as [Hc Hs]. apply negb_true_iff in Hc.
  now rewrite Hc, (IH Hs).
Qed.

Lemma follow_parts_app (is_rooted : bool) (parts rest : list string) :
  existsb (String.eqb "..") rest = false ->
  forall stack,
    follow_parts is_rooted stack (parts ++ rest)
    = follow_parts is_rooted stack parts ++ rest.
Proof.
  intros Hrest. induction parts as [|part parts IH]; intros stack.
  - cbn [app follow_parts]. revert stack.
    induction rest as [|part rest IH]; intros stack.
    + cbn [follow_parts]. now rewrite app_nil_r.
    + cbn [existsb] in Hrest. apply orb_false_iff in Hrest as [Hpart Hrest].
      cbn [follow_parts]. rewrite String.eqb_sym, Hpart, (IH Hrest).
      cbn [List.rev]. now rewrite <- app_assoc.
  - cbn [app follow_parts].
    destruct (String.eqb part ".."); [|apply IH].
    destruct stack as [|top stack]; [destruct is_rooted; apply IH|].
    destruct (String.eqb top ".."); apply IH.
Qed.

Lemma strip_parts_app (prefix rest : list string) :
  strip_parts prefix (prefix ++ rest) = Some rest.
Proof.
  induction prefix as [|p prefix IH]; [now destruct rest|].
  cbn [app strip_parts]. now rewrite String.eqb_refl.
Qed.

Lemma normal_relative_parts (file : string) :
  normal_relative file = true ->
  path_of_str file = mk_Path "" (Str.split file "/")
  /\ existsb (String.eqb "..") (Str.split file "/") = false.
Proof.
  unfold normal_relative, path_of_str. intros Hnormal. split.
  - f_equal.
    + destruct file as [|c file]; [reflexivity|].
      cbn [leading_slashes]. destruct (Ascii.eqb c "/") eqn:Hc; [|reflexivity].
      cbn [Str.split] in Hnormal. rewrite Hc in Hnormal. discriminate Hnormal.
    + induction (Str.split file "/") as [|part parts IH]; [reflexivity|].
      cbn [forallb filter] in *. apply andb_true_iff in Hnormal as [Hpart Hparts].
      apply andb_true_iff in Hpart as [Hpart _]. now rewrite Hpart, (IH Hparts).
  - induction (Str.split file "/") as [|part parts IH]; [reflexivity|].
    cbn [forallb existsb] in *. apply andb_true_iff in Hnormal as [Hpart Hparts].
    apply andb_true_iff in Hpart as [_ Hpart]. apply negb_true_iff in Hpart.
    now rewrite String.eqb_sym, Hpart, (IH Hparts).
Qed.

(** A relative path in normal form is the relative path of the place it
    leads to, whatever the cache directory. *)
Lemma normal_relative_cache_key (self : LocalDataCache) (file : string) :
  normal_relative file = true ->
  locate (data_dir self) file = Inside (Str.split file "/")
  /\ cache_key self file = Some file.
Proof.
  intros Hnormal.
  destruct (normal_relative_parts file Hnormal) as [Hpath Hparent].
  assert (Hplace : locate (data_dir self) file = Inside (Str.split file "/")).
  { unfold locate, truediv, rooted. rewrite Hpath. cbn [path_root path_parts].
    rewrite String.eqb_refl. cbn [path_root path_parts].
    rewrite eqb_reflx, (follow_parts_app _ _ _ Hparent), strip_parts_app.
    now rewrite Hparent. }
  split; [exact Hplace|].
  unfold cache_key. rewrite Hplace.
  pose proof (split_nonempty file "/") as Hsplit.
  pose proof (join_split file) as Hjoin.
  destruct (Str.split file "/") as [|part parts]; [contradiction|].
  unfold relative_path. now rewrite Hjoin.
Qed.

Section DataManager.
Context {L : Library}.

(** The run of [load] on a file of the cache. *)
Lemma load_from_cache (self : LocalDataCache) (file key : string) (df : DataFrame)
    (w : World) :
  cache_key self file = Some key ->
  assoc key (files w) = Some df ->
  load self file w
  = (OK df, logged [("Loading " ++ path_join (data_dir self) file)%string] w).
Proof.
  unfold cache_key, load, bind, logger_info, get_world. intros Hkey Hdf.
  destruct (locate (data_dir self) file) as [[|part parts]|path]; try discriminate Hkey.
  injection Hkey as <-. cbn [files]. now rewrite Hdf.
Qed.

(** The run of [save], by what stands in its way. *)
Lemma save_run (self : LocalDataCache) (obj : DataFrame) (file : string) (w : World) :
  save self obj file w
  = match makedirs_error self file (files w) with
    | Some e => (Raise e, w)
    | None =>
        let w1 := logged [("Saving " ++ path_join (data_dir self) file)%string] w in
        match dump_error self file (files w) with
        | Some e => (Raise e, w1)
        | None => (OK tt, written (locate (data_dir self) file) obj w1)
        end
    end.
Proof.
  unfold save, bind, get_world, raise, logger_info.
  destruct (makedirs_error self file (files w)); [reflexivity|].
  cbv zeta. destruct (dump_error self file (files w)); [reflexivity|].
  destruct (locate (data_dir self) file); reflexivity.
Qed.



(** The run of [load_asset] that finds the asset in the cache. *)
Lemma load_asset_from_cache (self : LocalDataCache) (asset : PolygonDataAsset)
    (clean : bool) (w : World) (first : string) (others : list string) (df : DataFrame) :
  fst (list_files self (get_polygon_asset_local_file_name asset) w) = OK (first :: others) ->
  cache_key self first = Some first ->
  assoc first (files w) = Some df ->
  load_asset self asset false clean w
  = (if clean then apply_cleaners (CLEANERS (asset_type asset)) df asset else ret df)
      (logged [("Loading " ++ label asset ++ " from local cache.")%string;
               ("Loading " ++ path_join (data_dir self) first)%string] w).
Proof.
  intros Hlist Hkey Hdf. simpl in Hlist. injection Hlist as Hlist.
  unfold load_asset. unfold bind at 1. unfold list_files at 1, bind at 1, get_world, ret at 1.
  rewrite Hlist. cbn [negb]. unfold bind at 1. unfold bind at 1. unfold logger_info at 1.
  fold (logged [("Loading " ++ label asset ++ " from local cache.")%string] w).
  rewrite (load_from_cache self first first df
             (logged [("Loading " ++ label asset ++ " from local cache.")%string] w)
             Hkey Hdf).
  unfold logged. cbn [files elsewhere buckets store_calls log schedule].
  now rewrite <- app_assoc.
Qed.

(** The branch [load_asset] takes with [force_reload] or on a miss. *)
Lemma load_asset_remote_branch (self : LocalDataCache) (asset : PolygonDataAsset)
    (force_reload clean : bool) (w : World) :
  force_reload = true
  \/ fst (list_files self (get_polygon_asset_local_file_name asset) w) = OK [] ->
  load_asset self asset force_reload clean w
  = (df <- (logger_info ("Loading " ++ label asset ++ " from remote.")%string ;;
            df <- load_polygon_data_asset_from_gcs asset None true ;;
            save self df (get_polygon_asset_local_file_name asset) ;;
            ret df) ;;
     if clean then apply_cleaners (CLEANERS (asset_type asset)) df asset else ret df) w.
Proof.
  intros Hremote. unfold load_asset, bind at 1. simpl.
  destruct Hremote as [-> | Hnone].
  - reflexivity.
  - simpl in Hnone. injection Hnone as ->. now destruct (negb force_reload).
Qed.

(** The run of [load_asset] that loads from remote, by the outcome of the
    remote load and by what stands in the way of the write. *)
Lemma load_asset_from_remote (self : LocalDataCache) (asset : PolygonDataAsset)
    (force_reload clean : bool) (w w1 : World) (r : result DataFrame) :
  force_reload = true
  \/ fst (list_files self (get_polygon_asset_local_file_name asset) w) = OK [] ->
  load_polygon_data_asset_from_gcs asset None true
    (logged [("Loading " ++ label asset ++ " from remote.")%string] w) = (r, w1) ->
  let cache_file := get_polygon_asset_local_file_name asset in
  load_asset self asset force_reload clean w
  = match r with
    | Raise e => (Raise e, w1)
    | OK df =>
        match makedirs_error self cache_file (files w1) with
        | Some e => (Raise e, w1)
        | None =>
            let w2 := logged [("Saving " ++ path_join (data_dir self) cache_file)%string] w1 in
            match dump_error self cache_file (files w1) with
            | Some e => (Raise e, w2)
            | None =>
                (if clean then apply_cleaners (CLEANERS (asset_type asset)) df asset
                 else ret df)
                  (written (locate (data_dir self) cache_file) df w2)
            end
        end
    end.
Proof.
  intros Hremote Hload cache_file.
  rewrite (load_asset_remote_branch self asset force_reload clean w Hremote).
  unfold bind at 1. unfold bind at 1. unfold logger_info at 1.
  fold (logged [("Loading " ++ label asset ++ " from remote.")%string] w).
  unfold bind at 1. rewrite Hload. destruct r as [df|e]; [|reflexivity].
  unfold bind at 1. rewrite save_run. fold cache_file.
  destruct (makedirs_error self cache_file (files w1)); [reflexivity|].
  cbv zeta. destruct (dump_error self cache_file (files w1)); reflexivity.
Qed.

(** What the cleaners of an asset type return does not depend on the world
    they run in. *)
Lemma apply_cleaners_value (t : PolygonAssetType) (df : DataFrame)
    (asset : PolygonDataAsset) (w w' : World) :
  fst (apply_cleaners (CLEANERS t) df asset w)
  = fst (apply_cleaners (CLEANERS t) df asset w').
Proof.
  destruct t; cbn [CLEANERS apply_cleaners];
    unfold log_dataframe_changes, set_sort_dt_index, ohlc_to_float, add_asset_id_prefixes,
      bind, lift, logger_info, ret; cbn [cleaner_call cleaner_name];
    repeat match goal with
           | |- context [set_sort_dt_index_fn ?d ?a] => destruct (set_sort_dt_index_fn d a)
           | |- context [ohlc_to_float_fn ?d ?a] => destruct (ohlc_to_float_fn d a)
           | |- context [add_asset_id_prefixes_fn ?d ?a] =>
               destruct (add_asset_id_prefixes_fn d a)
           end; reflexivity.
Qed.

Lemma startswith_refl (s : string) : Str.startswith s s = true.
Proof. induction s as [|c s IH]; simpl; auto. now rewrite Ascii.eqb_refl. Qed.

(** Writing a file that no cached file matches makes it the only match. *)
Lemma filter_write_file (file : string) (obj : DataFrame) (fs : list (string * DataFrame)) :
  filter (fun f => Str.startswith f file) (map fst fs) = [] ->
  filter (fun f => Str.startswith f file) (map fst (write_file file obj fs)) = [file].
Proof.
  induction fs as [|[f o] fs IH]; simpl.
  - now rewrite startswith_refl.
  - destruct (Str.startswith f file) eqn:Hf; [discriminate|]. intros Hnone.
    destruct (String.eqb_spec f file) as [->|Hne].
    + now rewrite startswith_refl in Hf.
    + simpl. rewrite Hf. auto.
Qed.



(** C10. The logging wrapper is transparent: the wrapped transform returns
    what the transform returns, or raises what it raises, and leaves the
    world as the transform leaves it up to one more line in the log. *)
Theorem log_dataframe_changes_transparent (func : CleanerFunc) (df : DataFrame)
    (asset : PolygonDataAsset) (w : World) :
  let plain := cleaner_call func df asset w in
  let wrapped := cleaner_call (log_dataframe_changes func) df asset w in
  fst wrapped = fst plain
  /\ cleaner_name (log_dataframe_changes func) = cleaner_name func
  /\ snd wrapped
     = match fst plain with
       | OK result_df =>
           logged [(cleaner_name func ++ "() "
                    ++ change_description (shape df) (shape result_df) ++ ".")%string]
                  (snd plain)
       | Raise _ => snd plain
       end.
Proof.
  simpl. unfold bind.
  destruct (cleaner_call func df asset w) as [[result_df|e] w1]; simpl; auto.
Qed.

End DataManager.




(** The two days of [SPY] on a cold cache: the load returns two rows in the
    order of their dates, and the next load returns the same table from the
    cache without a store operation. *)
Example load_asset_end_to_end :
  exists table w1,
    load_asset cache SPY false true cold_world = (OK table, w1)
    /\ df_len table = 2%nat
    /\ df_index table = [VTimestamp 752960; VTimestamp 752961]
    /\ fst (load_asset cache SPY false true w1) = OK table
    /\ store_calls (snd (load_asset cache SPY false true w1)) = store_calls w1.
Proof.
  do 2 eexists. split; [vm_compute; reflexivity|].
  repeat split; vm_compute; reflexivity.
Qed.

(** ** [ohlc_to_float] *)

Section OhlcToFloat.
Context {L : Library}.

Lemma cell_to_float_again (c c' : cell) :
  cell_to_float c = OK c' -> cell_to_float c' = OK c'.
Proof.
  destruct c; simpl;
    repeat match goal with
           | |- context [match ?x with _ => _ end] => destruct x
           end;
    intros [= <-]; reflexivity.
Qed.

Lemma column_to_float_floats (col floats : list cell) :
  map_result cell_to_float col = OK floats ->
  Forall (fun c => exists f, c = VFloat f) floats.
Proof.
  revert floats; induction col as [|c col IH]; simpl; intros floats.
  - intros [= <-]. constructor.
  - destruct (cell_to_float c) as [c'|e] eqn:Hc; [|discriminate].
    destruct (map_result cell_to_float col) as [fl|e]; [|discriminate].
    intros [= <-]. constructor; [|now apply IH].
    destruct c; simpl in Hc;
      repeat match type of Hc with
             | context [match ?x with _ => _ end] => destruct x
             end;
      try discriminate; injection Hc as <-; eauto.
Qed.

Lemma column_to_float_again (col floats : list cell) :
  map_result cell_to_float col = OK floats -> map_result cell_to_float floats = OK floats.
Proof.
  revert floats; induction col as [|c col IH]; simpl; intros floats.
  - intros [= <-]. reflexivity.
  - destruct (cell_to_float c) as [c'|e] eqn:Hc; [|discriminate].
    destruct (map_result cell_to_float col) as [fl|e]; [|discriminate].
    intros [= <-]. simpl. now rewrite (cell_to_float_again _ _ Hc), (IH fl eq_refl).
Qed.

Lemma assoc_set_column_same (k : string) (c c' : list cell) cols :
  assoc k cols = Some c -> assoc k (set_column k c' cols) = Some c'.
Proof.
  induction cols as [|[n col] cols IH]; simpl; [discriminate|].
  destruct (String.eqb n k) eqn:Hn; simpl; rewrite Hn; auto.
Qed.

Lemma assoc_set_column_other (k k' : string) (c' : list cell) cols :
  String.eqb k' k = false -> assoc k (set_column k' c' cols) = assoc k cols.
Proof.
  intros Hne. induction cols as [|[n col] cols IH]; simpl; auto.
  destruct (String.eqb_spec n k') as [->|Hn]; simpl.
  - rewrite Hne. exact IH.
  - now rewrite IH.
Qed.

Lemma assoc_NoDup_In {V} (k : string) (v : V) (l : list (string * V)) :
  NoDup (map fst l) -> In (k, v) l -> assoc k l = Some v.
Proof.
  induction l as [|[k' v'] l IH]; simpl; [intros _ []|].
  intros Hnd [Heq|Hin]; inversion Hnd as [|? ? Hnotin Hnd']; subst.
  - injection Heq as -> ->. now rewrite String.eqb_refl.
  - destruct (String.eqb_spec k' k) as [->|Hne]; auto.
    exfalso. apply Hnotin. apply in_map_iff. now exists (k, v).
Qed.

Lemma set_columns_put_floats f_open f_high f_low f_close cols :
  set_columns [("open"%string, f_open); ("high"%string, f_high);
               ("low"%string, f_low); ("close"%string, f_close)] cols
  = map (put_floats f_open f_high f_low f_close) cols.
Proof.
  unfold set_columns, set_column; simpl. rewrite !map_map.
  apply map_ext. intros [n c]. unfold put_floats; simpl.
  destruct (String.eqb_spec n "open") as [->|]; simpl; auto.
  destruct (String.eqb_spec n "high") as [->|]; simpl; auto.
  destruct (String.eqb_spec n "low") as [->|]; simpl; auto.
Qed.

Lemma put_floats_again f_open f_high f_low f_close nc :
  put_floats f_open f_high f_low f_close (put_floats f_open f_high f_low f_close nc)
  = put_floats f_open f_high f_low f_close nc.
Proof.
  unfold put_floats.
  destruct (String.eqb (fst nc) "close") eqn:H1; simpl; [now rewrite H1|].
  destruct (String.eqb (fst nc) "low") eqn:H2; simpl; [now rewrite H1, H2|].
  destruct (String.eqb (fst nc) "high") eqn:H3; simpl; [now rewrite H1, H2, H3|].
  destruct (String.eqb (fst nc) "open") eqn:H4; simpl; now rewrite H1, H2, H3, ?H4.
Qed.

(** The steps of [ohlc_to_float] when it returns. *)
Lemma ohlc_to_float_fn_ok (df df1 : DataFrame) (asset : PolygonDataAsset) :
  ohlc_to_float_fn df asset = OK df1 ->
  exists c_open c_high c_low c_close f_open f_high f_low f_close,
    assoc "open" (df_columns df) = Some c_open
    /\ assoc "high" (df_columns df) = Some c_high
    /\ assoc "low" (df_columns df) = Some c_low
    /\ assoc "close" (df_columns df) = Some c_close
    /\ map_result cell_to_float c_open = OK f_open
    /\ map_result cell_to_float c_high = OK f_high
    /\ map_result cell_to_float c_low = OK f_low
    /\ map_result cell_to_float c_close = OK f_close
    /\ df1 = mk_DataFrame (df_index_name df) (df_index df)
                          (map (put_floats f_open f_high f_low f_close) (df_columns df)).
Proof.
  unfold ohlc_to_float_fn, select_columns, astype_float, ohlcv_cols.
  cbn [map_result fst snd].
  destruct (assoc "open" (df_columns df)) as [c_open|] eqn:Ha_open; [|discriminate].
  destruct (assoc "high" (df_columns df)) as [c_high|] eqn:Ha_high; [|discriminate].
  destruct (assoc "low" (df_columns df)) as [c_low|] eqn:Ha_low; [|discriminate].
  destruct (assoc "close" (df_columns df)) as [c_close|] eqn:Ha_close; [|discriminate].
  cbn [map_result fst snd].
  destruct (map_result cell_to_float c_open) as [f_open|] eqn:Hf_open; [|discriminate].
  destruct (map_result cell_to_float c_high) as [f_high|] eqn:Hf_high; [|discriminate].
  destruct (map_result cell_to_float c_low) as [f_low|] eqn:Hf_low; [|discriminate].
  destruct (map_result cell_to_float c_close) as [f_close|] eqn:Hf_close; [|discriminate].
  intros [= <-].
  exists c_open, c_high, c_low, c_close, f_open, f_high, f_low, f_close.
  repeat split; auto. now rewrite <- set_columns_put_floats.
Qed.

Lemma assoc_put_floats f_open f_high f_low f_close cols c_open c_high c_low c_close :
  assoc "open" cols = Some c_open ->
  assoc "high" cols = Some c_high ->
  assoc "low" cols = Some c_low ->
  assoc "close" cols = Some c_close ->
  let cols' := map (put_floats f_open f_high f_low f_close) cols in
  assoc "open" cols' = Some f_open /\ assoc "high" cols' = Some f_high
  /\ assoc "low" cols' = Some f_low /\ assoc "close" cols' = Some f_close.
Proof.
  intros Ho Hh Hl Hc cols'. unfold cols'.
  rewrite <- set_columns_put_floats. unfold set_columns. cbn [fold_left fst snd].
  repeat split.
  - rewrite !assoc_set_column_other by reflexivity.
    now apply assoc_set_column_same with (c := c_open).
  - rewrite !assoc_set_column_other by reflexivity.
    apply assoc_set_column_same with (c := c_high).
    now rewrite !assoc_set_column_other by reflexivity.
  - rewrite !assoc_set_column_other by reflexivity.
    apply assoc_set_column_same with (c := c_low).
    now rewrite !assoc_set_column_other by reflexivity.
  - apply assoc_set_column_same with (c := c_close).
    now rewrite !assoc_set_column_other by reflexivity.
Qed.

(** C8. [ohlc_to_float] is idempotent: a second application changes
    nothing, and fails as the first when the first fails.  When it returns,
    the index and the names and order of the columns are as before; in a
    table of distinct column names the columns [open], [high], [low] and
    [close] hold their former cells cast to float, floats all, and every
    other column holds its former cells. *)
Theorem ohlc_to_float_idempotent (df : DataFrame) (asset : PolygonDataAsset) :
  bind_result (ohlc_to_float_fn df asset) (fun df1 => ohlc_to_float_fn df1 asset)
  = ohlc_to_float_fn df asset
  /\ forall df1,
      ohlc_to_float_fn df asset = OK df1 ->
      df_index_name df1 = df_index_name df
      /\ df_index df1 = df_index df
      /\ map fst (df_columns df1) = map fst (df_columns df)
      /\ (NoDup (map fst (df_columns df)) ->
          Forall2 (fun old new =>
                     if is_ohlc (fst old)
                     then map_result cell_to_float (snd old) = OK (snd new)
                          /\ Forall (fun c => exists f, c = VFloat f) (snd new)
                     else snd new = snd old)
                  (df_columns df) (df_columns df1)).
Proof.
  split.
  - destruct (ohlc_to_float_fn df asset) as [df1|e] eqn:Hrun; [|reflexivity].
    simpl.
    destruct (ohlc_to_float_fn_ok _ _ _ Hrun)
      as (c_open & c_high & c_low & c_close & f_open & f_high & f_low & f_close
          & Ho & Hh & Hl & Hc & Hfo & Hfh & Hfl & Hfc & ->).
    destruct (assoc_put_floats f_open f_high f_low f_close _ _ _ _ _ Ho Hh Hl Hc)
      as (Ho' & Hh' & Hl' & Hc').
    unfold ohlc_to_float_fn, select_columns, astype_float, ohlcv_cols.
    cbn [map_result fst snd df_columns df_index df_index_name].
    rewrite Ho', Hh', Hl', Hc'. cbn [map_result fst snd].
    rewrite (column_to_float_again _ _ Hfo), (column_to_float_again _ _ Hfh),
      (column_to_float_again _ _ Hfl), (column_to_float_again _ _ Hfc).
    rewrite set_columns_put_floats, map_map.
    f_equal. f_equal. apply map_ext. intros nc. apply put_floats_again.
  - intros df1 Hrun.
    destruct (ohlc_to_float_fn_ok _ _ _ Hrun)
      as (c_open & c_high & c_low & c_close & f_open & f_high & f_low & f_close
          & Ho & Hh & Hl & Hc & Hfo & Hfh & Hfl & Hfc & ->).
    cbn [df_columns df_index df_index_name]. repeat split.
    + rewrite map_map. apply map_ext. intros nc. unfold put_floats.
      repeat match goal with
             | |- context [if ?b then _ else _] => destruct b
             end; reflexivity.
    + intros Hnd.
      assert (Hin : forall nc, In nc (df_columns df) -> In nc (df_columns df)) by auto.
      revert Hin. generalize (df_columns df) at 1 3 4.
      induction l as [|[n c] l IH]; intros Hin; simpl; constructor.
      * assert (Hnc : assoc n (df_columns df) = Some c).
        { apply assoc_NoDup_In; auto. apply Hin. now left. }
        unfold is_ohlc, put_floats, ohlcv_cols. cbn [existsb fst snd].
        destruct (String.eqb_spec n "close") as [->|];
          [rewrite Hc in Hnc; injection Hnc as <-; simpl;
           split; [exact Hfc | exact (column_to_float_floats _ _ Hfc)]|].
        destruct (String.eqb_spec n "low") as [->|];
          [rewrite Hl in Hnc; injection Hnc as <-; simpl;
           split; [exact Hfl | exact (column_to_float_floats _ _ Hfl)]|].
        destruct (String.eqb_spec n "high") as [->|];
          [rewrite Hh in Hnc; injection Hnc as <-; simpl;
           split; [exact Hfh | exact (column_to_float_floats _ _ Hfh)]|].
        destruct (String.eqb_spec n "open") as [->|];
          [rewrite Ho in Hnc; injection Hnc as <-; simpl;
           split; [exact Hfo | exact (column_to_float_floats _ _ Hfo)]|].
        reflexivity.
      * apply IH. intros nc Hnc. apply Hin. now right.
Qed.

End OhlcToFloat.

Lemma ohlc_to_float_idempotent_witness :
  exists df1,
    ohlc_to_float_fn example_frame SPY = OK df1
    /\ ohlc_to_float_fn df1 SPY = OK df1
    /\ assoc "close" (df_columns df1)
       = Some [VFloat (S754_finite false 8444249301319680 (-49));
               VFloat (S754_finite false 8444249301319680 (-49))]
    /\ assoc "volume" (df_columns df1) = Some [VInt 100; VInt 100].
Proof.
  destruct (ohlc_to_float_fn example_frame SPY) as [df1|e] eqn:Hrun; [|discriminate Hrun].
  exists df1. split; [reflexivity|].
  pose proof (proj1 (ohlc_to_float_idempotent example_frame SPY)) as Hagain.
  rewrite Hrun in Hagain. simpl in Hagain. split; [exact Hagain|].
  injection Hrun as <-. split; reflexivity.
Defined.

(** * Further properties *)

(** ** What [load_asset] leaves as it is *)

Lemma logger_info_keeps_buckets msg : keeps buckets (logger_info msg).
Proof. intros w; reflexivity. Qed.

Lemma store_call_keeps_buckets c : keeps buckets (store_call c).
Proof. intros w; reflexivity. Qed.

Lemma set_schedule_keeps_buckets s : keeps buckets (set_schedule s).
Proof. intros w; reflexivity. Qed.

Lemma set_files_keeps_buckets fs : keeps buckets (set_files fs).
Proof. intros w; reflexivity. Qed.

Lemma set_elsewhere_keeps_buckets fs : keeps buckets (set_elsewhere fs).
Proof. intros w; reflexivity. Qed.

#[local] Hint Resolve logger_info_keeps_buckets store_call_keeps_buckets
  set_schedule_keeps_buckets set_files_keeps_buckets set_elsewhere_keeps_buckets : frame.

Lemma write_file_paths (file : string) (obj : DataFrame) (fs : list (string * DataFrame)) :
  map fst (write_file file obj fs) = map fst fs
  \/ (~ In file (map fst fs) /\ map fst (write_file file obj fs) = map fst fs ++ [file]).
Proof.
  induction fs as [|[f o] fs IH]; simpl.
  - right. auto.
  - destruct (String.eqb_spec f file) as [->|Hne]; simpl.
    + now left.
    + destruct IH as [IH | [Hnot IH]].
      * left. now rewrite IH.
      * right. split; [intros [?|?]; auto | now rewrite IH].
Qed.

Lemma cache_key_locate (self : LocalDataCache) (file key : string) :
  cache_key self file = Some key ->
  exists relative,
    locate (data_dir self) file = Inside relative /\ relative_path relative = key.
Proof.
  unfold cache_key.
  destruct (locate (data_dir self) file) as [[|part parts]|path]; try discriminate.
  intros [= <-]. eauto.
Qed.

(** [load] writes nothing. *)
Lemma load_keeps {B} (proj : World -> B) (self : LocalDataCache) (file : string) :
  (forall msg, keeps proj (logger_info msg)) -> keeps proj (load self file).
Proof. intros Hlog. unfold load. frame. Qed.

Section LoadAssetFrame.
Context {L : Library}.

Lemma load_polygon_data_asset_from_gcs_keeps_buckets asset blob_limit clean :
  keeps buckets (load_polygon_data_asset_from_gcs asset blob_limit clean).
Proof. apply load_polygon_data_asset_from_gcs_keeps; auto with frame. Qed.

Lemma load_polygon_data_asset_from_gcs_keeps_elsewhere asset blob_limit clean :
  keeps elsewhere (load_polygon_data_asset_from_gcs asset blob_limit clean).
Proof. apply load_polygon_data_asset_from_gcs_keeps; intros ? ?; reflexivity. Qed.

Lemma load_asset_keeps_buckets self asset force_reload clean :
  keeps buckets (load_asset self asset force_reload clean).
Proof.
  unfold load_asset, list_files, save.
  apply keeps_bind; [frame|]. intros cached.
  apply keeps_bind.
  - pose proof (load_polygon_data_asset_from_gcs_keeps_buckets asset None true).
    pose proof (fun file => load_keeps buckets self file logger_info_keeps_buckets).
    destruct (negb force_reload), cached; frame.
  - intros df. destruct clean; [|apply keeps_ret].
    apply apply_cleaners_keeps. intro. auto with frame.
Qed.

(** The branch [load_asset] takes on a hit. *)
Lemma load_asset_hit_branch (self : LocalDataCache) (asset : PolygonDataAsset)
    (clean : bool) (w : World) (first : string) (others : list string) :
  fst (list_files self (get_polygon_asset_local_file_name asset) w) = OK (first :: others) ->
  load_asset self asset false clean w
  = (df <- (logger_info ("Loading " ++ label asset ++ " from local cache.")%string ;;
            load self first) ;;
     if clean then apply_cleaners (CLEANERS (asset_type asset)) df asset else ret df) w.
Proof.
  intros Hlist. simpl in Hlist. injection Hlist as Hlist.
  unfold load_asset. unfold bind at 1. unfold list_files at 1, bind at 1, get_world, ret at 1.
  rewrite Hlist. reflexivity.
Qed.

(** The cleaning step of [load_asset] keeps the files. *)
Lemma cleaning_keeps {B} (proj : World -> B) (clean : bool) (t : PolygonAssetType)
    (df : DataFrame) (asset : PolygonDataAsset) :
  (forall msg, keeps proj (logger_info msg)) ->
  keeps proj (if clean then apply_cleaners (CLEANERS t) df asset else ret df).
Proof.
  intros Hlog. destruct clean; [now apply apply_cleaners_keeps | apply keeps_ret].
Qed.

(** The files after [load_asset]: as before, or with the table of the store
    written at the place of the cache file. *)
Lemma load_asset_files (self : LocalDataCache) (asset : PolygonDataAsset)
    (force_reload clean : bool) (w : World) :
  let place := locate (data_dir self) (get_polygon_asset_local_file_name asset) in
  let after := snd (load_asset self asset force_reload clean w) in
  (files after = files w /\ elsewhere after = elsewhere w)
  \/ exists df,
       files after = files (written place df w)
       /\ elsewhere after = elsewhere (written place df w).
Proof.
  intros place after. unfold after.
  destruct (fst (list_files self (get_polygon_asset_local_file_name asset) w))
    as [cached|e] eqn:Hlist; [|discriminate Hlist].
  assert (Hcases :
            (force_reload = true \/ cached = [])
            \/ (force_reload = false /\ exists first others, cached = first :: others)).
  { destruct force_reload; [now left; left|].
    destruct cached as [|first others]; [now left; right|right; eauto]. }
  destruct Hcases as [Hremote | (-> & first & others & ->)].
  - assert (Hremote' : force_reload = true
                       \/ fst (list_files self (get_polygon_asset_local_file_name asset) w)
                          = OK []).
    { destruct Hremote as [->| ->]; auto. }
    set (w0 := logged [("Loading " ++ label asset ++ " from remote.")%string] w).
    pose proof (load_polygon_data_asset_from_gcs_keeps_files asset None true w0) as Hfiles.
    pose proof (load_polygon_data_asset_from_gcs_keeps_elsewhere asset None true w0)
      as Helsewhere.
    destruct (load_polygon_data_asset_from_gcs asset None true w0) as [r w1] eqn:Hload.
    rewrite (load_asset_from_remote self asset force_reload clean w w1 r Hremote' Hload).
    cbn [snd fst] in Hfiles, Helsewhere. cbv zeta.
    destruct r as [df|e]; [|now left].
    destruct (makedirs_error _ _ _); [now left|].
    destruct (dump_error _ _ _); [now left|].
    right. exists df.
    rewrite !cleaning_keeps by (intros ? ?; reflexivity).
    fold place. destruct place; cbn [written logged files elsewhere];
      now rewrite Hfiles, Helsewhere.
  - left. rewrite (load_asset_hit_branch self asset clean w first others Hlist).
    split.
    + apply (keeps_bind files);
        [apply keeps_bind; [auto with frame | intro; apply load_keeps; auto with frame]
        | intro; apply cleaning_keeps; auto with frame].
    + apply (keeps_bind elsewhere);
        [apply keeps_bind;
         [intros ?; reflexivity | intro; apply load_keeps; intros ? ?; reflexivity]
        | intro; apply cleaning_keeps; intros ? ?; reflexivity].
Qed.

End LoadAssetFrame.

Lemma write_file_incl (file : string) (obj : DataFrame) (fs : list (string * DataFrame)) :
  incl (map fst fs) (map fst (write_file file obj fs)).
Proof.
  destruct (write_file_paths file obj fs) as [-> | [_ ->]];
    [apply incl_refl | apply incl_appl, incl_refl].
Qed.

Lemma write_file_length (file : string) (obj : DataFrame) (fs : list (string * DataFrame)) :
  (List.length (write_file file obj fs) <= S (List.length fs))%nat.
Proof.
  rewrite <- (length_map fst (write_file _ _ _)), <- (length_map fst fs).
  destruct (write_file_paths file obj fs) as [-> | [_ ->]];
    [lia | rewrite length_app; simpl; lia].
Qed.

(** ** The cache as a read-through cache *)

(** Among cached files of which none but [file] itself starts with [file],
    [file] is the first match once it is written. *)
Lemma first_match_write_file (file : string) (obj : DataFrame)
    (fs : list (string * DataFrame)) :
  (forall f, In f (map fst fs) -> Str.startswith f file = true -> f = file) ->
  exists rest,
    filter (fun f => Str.startswith f file) (map fst (write_file file obj fs)) = file :: rest.
Proof.
  induction fs as [|[f o] fs IH]; simpl; intros Honly.
  - rewrite startswith_refl. eauto.
  - destruct (String.eqb_spec f file) as [->|Hne]; simpl.
    + rewrite startswith_refl. eauto.
    + destruct (Str.startswith f file) eqn:Hf.
      * exfalso. apply Hne. apply Honly; auto.
      * apply IH. intros g Hg. apply Honly. now right.
Qed.

Section ReadThrough.
Context {L : Library}.

(** X1. When the cache file name of the asset is a relative path in normal
    form (so that it is the relative path of the file it is written to), and
    no cached file other than that file starts with the name, a
    load that returns makes the next plain load a cache hit: it returns the
    same table, performs no store operation and leaves the cache as it is,
    whether the first load came from the cache, from a miss or from a forced
    reload. *)
Theorem load_asset_then_cached (self : LocalDataCache) (asset : PolygonDataAsset)
    (force_reload clean : bool) (w w1 : World) (table : DataFrame) :
  normal_relative (get_polygon_asset_local_file_name asset) = true ->
  (forall f, In f (map fst (files w)) ->
             Str.startswith f (get_polygon_asset_local_file_name asset) = true ->
             f = get_polygon_asset_local_file_name asset) ->
  load_asset self asset force_reload clean w = (OK table, w1) ->
  fst (load_asset self asset false clean w1) = OK table
  /\ store_calls (snd (load_asset self asset false clean w1)) = store_calls w1
  /\ files (snd (load_asset self asset false clean w1)) = files w1.
Proof.
  intros Hnormal Honly Hfirst.
  pose proof (proj2 (normal_relative_cache_key self _ Hnormal)) as Hkey. clear Hnormal.
  set (cache_file := get_polygon_asset_local_file_name asset) in *.
  destruct (cache_key_locate self cache_file cache_file Hkey) as (relative & Hplace & Hrel).
  assert (Hcached : exists df others,
             fst (list_files self cache_file w1) = OK (cache_file :: others)
             /\ assoc cache_file (files w1) = Some df
             /\ fst ((if clean
                      then apply_cleaners (CLEANERS (asset_type asset)) df asset
                      else ret df) w1) = OK table).
  { destruct (fst (list_files self cache_file w)) as [cached|e] eqn:Hlist;
      [|discriminate Hlist].
    assert (Hremote_or_hit :
              (force_reload = true \/ cached = [])
              \/ (force_reload = false /\ exists first others, cached = first :: others)).
    { destruct force_reload; [now left; left|].
      destruct cached as [|first others]; [now left; right|right; eauto]. }
    destruct Hremote_or_hit as [Hremote | (-> & first & others & ->)].
    - assert (Hremote' : force_reload = true \/ fst (list_files self cache_file w) = OK []).
      { destruct Hremote as [->| ->]; auto. }
      pose proof (load_polygon_data_asset_from_gcs_keeps_files asset None true
                    (logged [("Loading " ++ label asset ++ " from remote.")%string] w))
        as Hfiles.
      destruct (load_polygon_data_asset_from_gcs asset None true _) as [r w0] eqn:Hload.
      pose proof (load_asset_from_remote self asset force_reload clean w w0 r Hremote' Hload)
        as Hrun.
      cbv zeta in Hrun. fold cache_file in Hrun. rewrite Hfirst in Hrun.
      destruct r as [df|e]; [|discriminate Hrun].
      destruct (makedirs_error self cache_file (files w0)); [discriminate Hrun|].
      destruct (dump_error self cache_file (files w0)); [discriminate Hrun|].
      rewrite Hplace in Hrun. cbn [snd logged files] in Hfiles.
      assert (Hfiles1 : files w1 = write_file cache_file df (files w)).
      { change w1 with (snd (OK table, w1)). rewrite Hrun.
        rewrite cleaning_keeps by (intro; auto with frame).
        cbn [written logged files]. now rewrite Hrel, Hfiles. }
      destruct (first_match_write_file cache_file df (files w) Honly) as [others Hothers].
      exists df, others. repeat split.
      + simpl. rewrite Hfiles1. now f_equal.
      + rewrite Hfiles1. apply assoc_write_file_same.
      + apply (f_equal fst) in Hrun. cbn [fst] in Hrun. rewrite Hrun.
        destruct clean; [apply apply_cleaners_value | reflexivity].
    - assert (Heq : first = cache_file).
      { simpl in Hlist. injection Hlist as Hlist.
        assert (Hin : In first (filter (fun f => Str.startswith f cache_file)
                                       (map fst (files w)))) by (rewrite Hlist; now left).
        apply filter_In in Hin as [Hin Hpre]. now apply Honly. }
      subst first.
      assert (Hin : In cache_file (map fst (files w))).
      { simpl in Hlist. injection Hlist as Hlist.
        eapply proj1, filter_In. rewrite Hlist. now left. }
      destruct (assoc_in _ _ Hin) as [df Hdf].
      pose proof (load_asset_from_cache self asset clean w cache_file others df
                    Hlist Hkey Hdf) as Hrun.
      rewrite Hfirst in Hrun.
      assert (Hfiles1 : files w1 = files w).
      { change w1 with (snd (OK table, w1)). rewrite Hrun.
        now rewrite cleaning_keeps by (intro; auto with frame). }
      exists df, others. repeat split.
      + simpl in *. now rewrite Hfiles1.
      + now rewrite Hfiles1.
      + apply (f_equal fst) in Hrun. simpl in Hrun. rewrite Hrun.
        destruct clean; [apply apply_cleaners_value | reflexivity]. }
  destruct Hcached as (df & others & Hlist1 & Hdf1 & Hvalue).
  rewrite (load_asset_from_cache self asset clean w1 cache_file others df Hlist1 Hkey Hdf1).
  split; [|split].
  - rewrite <- Hvalue.
    destruct clean; [apply apply_cleaners_value | reflexivity].
  - now rewrite cleaning_keeps by (intro; auto with frame).
  - now rewrite cleaning_keeps by (intro; auto with frame).
Qed.

(** X2. Whatever its arguments and its outcome, [load_asset] leaves the
    objects of the store as they are and changes no file but the one that the
    cache directory joined with the cache name leads to: every other file,
    in the cache directory and outside it, holds what it held; no path is
    removed and at most one is added. *)
Theorem load_asset_never_evicts (self : LocalDataCache) (asset : PolygonDataAsset)
    (force_reload clean : bool) (w : World) :
  let place := locate (data_dir self) (get_polygon_asset_local_file_name asset) in
  let after := snd (load_asset self asset force_reload clean w) in
  buckets after = buckets w
  /\ match place with
     | Inside relative =>
         (forall other, other <> relative_path relative ->
                        assoc other (files after) = assoc other (files w))
         /\ elsewhere after = elsewhere w
     | Outside path =>
         files after = files w
         /\ (forall other, other <> path ->
                           assoc other (elsewhere after) = assoc other (elsewhere w))
     end
  /\ incl (map fst (files w)) (map fst (files after))
  /\ incl (map fst (elsewhere w)) (map fst (elsewhere after))
  /\ (List.length (files after) + List.length (elsewhere after)
      <= S (List.length (files w) + List.length (elsewhere w)))%nat.
Proof.
  intros place after. split; [apply load_asset_keeps_buckets|].
  destruct (load_asset_files self asset force_reload clean w)
    as [[Hfiles Helsewhere] | (df & Hfiles & Helsewhere)];
    fold place after in Hfiles, Helsewhere; rewrite Hfiles, Helsewhere.
  - split; [destruct place; auto|].
    split; [apply incl_refl|]. split; [apply incl_refl | lia].
  - destruct place as [relative|path]; cbn [written files elsewhere].
    + split; [split; [intros other Hne; now apply assoc_write_file_other | reflexivity]|].
      split; [apply write_file_incl|]. split; [apply incl_refl|].
      pose proof (write_file_length (relative_path relative) df (files w)). lia.
    + split; [split; [reflexivity | intros other Hne; now apply assoc_write_file_other]|].
      split; [apply incl_refl|]. split; [apply write_file_incl|].
      pose proof (write_file_length path df (elsewhere w)). lia.
Qed.

End ReadThrough.

Lemma load_asset_then_cached_witness :
  exists table w1,
    load_asset cache SPY true true warm_world = (OK table, w1)
    /\ fst (load_asset cache SPY false true w1) = OK table
    /\ store_calls (snd (load_asset cache SPY false true w1)) = store_calls w1
    /\ files (snd (load_asset cache SPY false true w1)) = files w1.
Proof.
  do 2 eexists.
  assert (Honly : forall f, In f (map fst (files warm_world)) ->
                            Str.startswith f (get_polygon_asset_local_file_name SPY) = true ->
                            f = get_polygon_asset_local_file_name SPY).
  { intros f [<-|[]] _. reflexivity. }
  split; [vm_compute; reflexivity|].
  apply (load_asset_then_cached cache SPY true true warm_world _ _ eq_refl Honly).
  vm_compute; reflexivity.
Defined.

(** ** Cache file names *)

Lemma no_dot_replace (s : string) : no_dot (Str.replace s "." "/") = true.
Proof.
  unfold no_dot, Str.replace. induction s as [|c s IH]; [reflexivity|].
  cbn [Str.replace_from Str.startswith Str.len String.length Nat.pred].
  rewrite andb_true_r.
  destruct (Ascii.eqb "." c) eqn:Hc.
  - exact IH.
  - cbn [list_ascii_of_string forallb]. rewrite IH, andb_true_r.
    rewrite Ascii.eqb_sym. now rewrite Hc.
Qed.

(** Of two names without a dot that carry the same extension, one starts with
    the other only when they are the same name. *)
Lemma startswith_extension_exact (p q : string) :
  no_dot p = true -> no_dot q = true ->
  Str.startswith (q ++ ".joblib") (p ++ ".joblib") = true -> q = p.
Proof.
  unfold no_dot. revert q. induction p as [|c p IH]; intros [|d q] Hp Hq Hpre.
  - reflexivity.
  - cbn [list_ascii_of_string forallb] in Hq. apply andb_true_iff in Hq as [Hd _].
    cbn [append Str.startswith] in Hpre. apply andb_true_iff in Hpre as [Hpre _].
    apply Ascii.eqb_eq in Hpre. subst d. discriminate Hd.
  - cbn [list_ascii_of_string forallb] in Hp. apply andb_true_iff in Hp as [Hc _].
    cbn [append Str.startswith] in Hpre. apply andb_true_iff in Hpre as [Hpre _].
    apply Ascii.eqb_eq in Hpre. subst c. discriminate Hc.
  - cbn [list_ascii_of_string forallb] in Hp, Hq.
    apply andb_true_iff in Hp as [_ Hp]. apply andb_true_iff in Hq as [_ Hq].
    cbn [append Str.startswith] in Hpre. apply andb_true_iff in Hpre as [Hcd Hpre].
    apply Ascii.eqb_eq in Hcd. subst d. f_equal. now apply IH.
Qed.

(** X3. The cache file of an asset starts with the cache file name of another
    asset only when the two names are the same: the prefix match of the cache
    lookup cannot take the file of [SPYD] for the file of [SPY]. *)
Theorem cache_file_name_prefix_exact (a b : PolygonDataAsset) :
  Str.startswith (get_polygon_asset_local_file_name b) (get_polygon_asset_local_file_name a)
  = String.eqb (get_polygon_asset_local_file_name b) (get_polygon_asset_local_file_name a).
Proof.
  destruct (String.eqb_spec (get_polygon_asset_local_file_name b)
                            (get_polygon_asset_local_file_name a)) as [->|Hne].
  - apply startswith_refl.
  - apply not_true_is_false. intros Hpre. apply Hne.
    unfold get_polygon_asset_local_file_name in *.
    f_equal. apply startswith_extension_exact; auto using no_dot_replace.
Qed.

(** X4. In a cache that holds nothing but cache files of assets, the lookup
    [list_files] with the cache file name of an asset finds the paths equal
    to that name and no other. *)
Theorem list_files_of_asset_exact (self : LocalDataCache) (a : PolygonDataAsset) (w : World) :
  (forall f, In f (map fst (files w)) -> exists b, f = get_polygon_asset_local_file_name b) ->
  list_files self (get_polygon_asset_local_file_name a) w
  = (OK (filter (fun f => String.eqb f (get_polygon_asset_local_file_name a))
                (map fst (files w))), w).
Proof.
  intros Hassets. unfold list_files, bind, get_world, ret. simpl. do 2 f_equal.
  apply filter_ext_in. intros f Hf. destruct (Hassets f Hf) as [b ->].
  unfold get_polygon_asset_local_file_name.
  destruct (String.eqb_spec (Str.replace (label b) "." "/" ++ ".joblib")
                            (Str.replace (label a) "." "/" ++ ".joblib")) as [->|Hne].
  - apply startswith_refl.
  - apply not_true_is_false. intros Hpre. apply Hne.
    f_equal. apply startswith_extension_exact; auto using no_dot_replace.
Qed.

Lemma list_files_of_asset_exact_witness :
  list_files cache (get_polygon_asset_local_file_name SPX) warm_world = (OK [], warm_world).
Proof.
  apply (list_files_of_asset_exact cache SPX warm_world).
  intros f [<-|[]]. exists SPY. reflexivity.
Defined.

(** ** The local cache as a store *)

(** X5. When [save] returns, a [load] afterwards gives the saved table for
    every path that leads to the file that was written (the path of the save
    itself, and any other spelling of it that joins to the same file), and for
    every other path the table it gave before; a path that could not be
    loaded before cannot be loaded now.  The cache directory is given by an
    absolute path, as [cfg.py] gives it, and the paths are without [..]. *)
Theorem save_then_load (self : LocalDataCache) (obj : DataFrame) (file other : string)
    (w : World) :
  rooted (path_of_str (data_dir self)) = true ->
  no_parent_step file = true ->
  no_parent_step other = true ->
  fst (save self obj file w) = OK tt ->
  let after := snd (save self obj file w) in
  if same_file self file other then fst (load self other after) = OK obj
  else
    match fst (load self other w) with
    | OK table => fst (load self other after) = OK table
    | Raise _ => is_ok (fst (load self other after)) = false
    end.
Proof.
  intros _ _ _. rewrite save_run. unfold same_file, dump_error.
  destruct (makedirs_error self file (files w)); [discriminate|].
  cbv zeta. destruct (locate (data_dir self) file) as [relative|path] eqn:Hfile.
  - destruct (is_directory relative (files w)) eqn:Hdir; [discriminate|]. intros _.
    destruct relative as [|part parts]; [discriminate Hdir|].
    unfold load, bind, logger_info, get_world. cbn [fst snd written logged files elsewhere].
    destruct (locate (data_dir self) other) as [[|part' parts']|path'].
    + reflexivity.
    + destruct (String.eqb_spec (relative_path (part :: parts))
                                (relative_path (part' :: parts'))) as [Heq|Hne].
      * now rewrite <- Heq, assoc_write_file_same.
      * rewrite assoc_write_file_other by congruence.
        now destruct (assoc (relative_path (part' :: parts')) (files w)).
    + now destruct (assoc path' (elsewhere w)).
  - intros _. unfold load, bind, logger_info, get_world.
    cbn [fst snd written logged files elsewhere].
    destruct (locate (data_dir self) other) as [relative'|path'].
    + destruct relative' as [|part parts]; [reflexivity|].
      now destruct (assoc (relative_path (part :: parts)) (files w)).
    + destruct (String.eqb_spec path path') as [<-|Hne].
      * now rewrite assoc_write_file_same.
      * rewrite assoc_write_file_other by congruence.
        now destruct (assoc path' (elsewhere w)).
Qed.

Lemma save_then_load_witness :
  let self := mk_LocalDataCache "/srv/resources/cachedir" in
  let after := snd (save self example_frame "polygon/index/ohlc/1d/SPX.joblib" warm_world) in
  fst (load self "polygon/index//ohlc/./1d/SPX.joblib" after) = OK example_frame
  /\ fst (load self "/srv/resources/cachedir/polygon/index/ohlc/1d/SPX.joblib/" after)
     = OK example_frame
  /\ fst (load self "polygon/equity/ohlcv/1d/SPY.joblib" after) = OK example_frame
  /\ is_ok (fst (load self "polygon/index/ohlc/1d" after)) = false.
Proof.
  intros self after.
  pose proof (save_then_load self example_frame "polygon/index/ohlc/1d/SPX.joblib") as Hsave.
  split; [|split; [|split]].
  - apply (Hsave "polygon/index//ohlc/./1d/SPX.joblib"%string warm_world);
      vm_compute; reflexivity.
  - apply (Hsave "/srv/resources/cachedir/polygon/index/ohlc/1d/SPX.joblib/"%string
             warm_world); vm_compute; reflexivity.
  - apply (Hsave "polygon/equity/ohlcv/1d/SPY.joblib"%string warm_world);
      vm_compute; reflexivity.
  - apply (Hsave "polygon/index/ohlc/1d"%string warm_world); vm_compute; reflexivity.
Defined.

(** The cache file name of an asset has no [..]: its dots are those of
    [.joblib]. *)
Lemma no_dot_no_adjacent_dots (s suffix : string) :
  no_dot s = true ->
  adjacent_dots suffix = false ->
  adjacent_dots (s ++ suffix) = false.
Proof.
  unfold no_dot. intros Hs Hsuffix. induction s as [|c s IH]; [exact Hsuffix|].
  cbn in Hs. apply andb_true_iff in Hs as [Hc Hs].
  apply negb_true_iff in Hc.
  cbn [append adjacent_dots]. now rewrite Hc, IH.
Qed.

Lemma split_first_piece (s : string) (sep c : ascii) (piece : string)
    (pieces : list string) :
  Str.split s sep = String c piece :: pieces -> Str.startswith s (String c "") = true.
Proof.
  destruct s as [|d s]; [discriminate|]. cbn [Str.split].
  destruct (Ascii.eqb d sep); [discriminate|].
  destruct (Str.split s sep); intros [= -> _]; cbn; now rewrite Ascii.eqb_refl.
Qed.

Lemma split_parent_step (s : string) :
  In ".." (Str.split s "/") -> adjacent_dots s = true.
Proof.
  induction s as [|c s IH]; [intros [[=]|[]]|].
  cbn [Str.split adjacent_dots]. destruct (Ascii.eqb c "/").
  - intros [[=]|Hin]. rewrite (IH Hin). apply orb_true_r.
  - destruct (Str.split s "/") as [|piece pieces] eqn:Hsplit.
    + intros [[=]|[]].
    + intros [Hfirst|Hin].
      * injection Hfirst as -> ->.
        now rewrite (split_first_piece s "/" "." "" pieces Hsplit).
      * rewrite IH; [apply orb_true_r | now right].
Qed.

Lemma get_polygon_asset_local_file_name_no_parent_step (asset : PolygonDataAsset) :
  no_parent_step (get_polygon_asset_local_file_name asset) = true.
Proof.
  unfold no_parent_step, path_of_str. cbn [path_parts].
  apply negb_true_iff. apply not_true_is_false. intros Hin.
  apply existsb_exists in Hin as (part & Hin & Hpart).
  apply String.eqb_eq in Hpart. subst part.
  apply filter_In in Hin as [Hin _].
  apply split_parent_step in Hin.
  unfold get_polygon_asset_local_file_name in Hin.
  rewrite no_dot_no_adjacent_dots in Hin; [discriminate | | reflexivity].
  apply no_dot_replace.
Qed.

Section CacheInvariant.
Context {L : Library}.

(** X6. A cache that holds nothing but cache files of assets, each path once,
    is still such a cache after [load_asset] for an asset whose cache file
    name is a relative path in normal form, whatever the other arguments and
    the outcome. *)
Theorem load_asset_keeps_cache_of_assets (self : LocalDataCache) (asset : PolygonDataAsset)
    (force_reload clean : bool) (w : World) :
  normal_relative (get_polygon_asset_local_file_name asset) = true ->
  cache_of_assets (files w) ->
  cache_of_assets (files (snd (load_asset self asset force_reload clean w))).
Proof.
  intros Hnormal [Hnodup Hassets].
  pose proof (proj2 (normal_relative_cache_key self _ Hnormal)) as Hkey.
  destruct (cache_key_locate self _ _ Hkey) as (relative & Hplace & Hrel).
  destruct (load_asset_files self asset force_reload clean w)
    as [[-> _] | (df & -> & _)]; [now split|].
  rewrite Hplace. cbn [written files]. rewrite Hrel.
  unfold cache_of_assets.
  destruct (write_file_paths (get_polygon_asset_local_file_name asset) df (files w))
    as [-> | [Hnew ->]]; [now split|].
  split.
  - apply NoDup_app; [assumption | repeat constructor; auto |].
    intros f Hf [<-|[]]. contradiction.
  - intros f Hf. apply in_app_or in Hf as [Hf | [<-|[]]]; eauto.
Qed.

End CacheInvariant.

Lemma load_asset_keeps_cache_of_assets_witness :
  cache_of_assets (files (snd (load_asset cache SPY false true cold_world))).
Proof.
  apply (load_asset_keeps_cache_of_assets cache SPY false true cold_world eq_refl).
  split; [constructor | intros f []].
Defined.

(** ** Sorting what is sorted *)

Section SortedAgain.
Context {K A : Type}.
Variable ltb : K -> K -> bool.
Variable key : A -> result K.

Lemma insert_keyed_front (x : K * A) (l : list (K * A)) :
  Forall (keyed_le ltb x) l -> insert_keyed ltb x l = x :: l.
Proof.
  destruct l as [|y l]; simpl; [reflexivity|].
  intros Hall. apply Forall_inv in Hall. unfold keyed_le in Hall. now rewrite Hall.
Qed.

Lemma sort_keyed_of_sorted (l : list (K * A)) :
  StronglySorted (keyed_le ltb) l -> sort_keyed ltb l = l.
Proof.
  induction 1 as [|x l _ IH Hall]; simpl; [reflexivity|].
  fold (sort_keyed ltb l). rewrite IH. now apply insert_keyed_front.
Qed.

Lemma map_result_keyed_ok (dec : list (K * A)) :
  Forall (keyed_ok key) dec -> map_result key (map snd dec) = OK (map fst dec).
Proof.
  induction 1 as [|p dec Hp _ IH]; simpl; [reflexivity|].
  unfold keyed_ok in Hp. now rewrite Hp, IH.
Qed.

Lemma combine_fst_snd (dec : list (K * A)) : combine (map fst dec) (map snd dec) = dec.
Proof. induction dec as [|[k a] dec IH]; simpl; [reflexivity | now rewrite IH]. Qed.

(** Items that come with their keys, in ascending order of the keys, are
    returned as they are. *)
Lemma sorted_by_key_of_sorted (dec : list (K * A)) :
  Forall (keyed_ok key) dec -> StronglySorted (keyed_le ltb) dec ->
  sorted_by_key ltb key (map snd dec) = OK (map snd dec).
Proof.
  intros Hok Hsorted. unfold sorted_by_key.
  rewrite (map_result_keyed_ok dec Hok), combine_fst_snd.
  now rewrite (sort_keyed_of_sorted dec Hsorted).
Qed.

Lemma combine_keys_sorted (R : A -> A -> Prop) (l : list A) (keys : list K) :
  (forall p q, keyed_ok key p -> keyed_ok key q -> R (snd p) (snd q) -> keyed_le ltb p q) ->
  Forall2 (fun x k => key x = OK k) l keys ->
  StronglySorted R l -> StronglySorted (keyed_le ltb) (combine keys l).
Proof.
  intros HR Hkeys. induction Hkeys as [|x k l keys Hx Hkeys IH]; simpl; intros Hsorted.
  - constructor.
  - apply StronglySorted_inv in Hsorted as [Hsorted Hall].
    constructor; [auto|].
    destruct (combine_keys_ok key l keys Hkeys) as [Hok _].
    rewrite Forall_forall in Hok, Hall |- *. intros q Hq.
    apply HR; [exact Hx | now apply Hok |].
    apply Hall. destruct q as [kq aq]. now apply in_combine_r in Hq.
Qed.

End SortedAgain.

Lemma blob_date_leb_keyed_le (p q : datetime * string) :
  keyed_ok extract_date p -> keyed_ok extract_date q ->
  blob_date_leb (snd p) (snd q) = true -> keyed_le datetime_ltb p q.
Proof.
  unfold keyed_ok, keyed_le, blob_date_leb. intros -> ->. apply negb_true_iff.
Qed.

(** X7. A list of blob names that all carry a date and are in ascending order
    of their dates is returned by [sort_blobs_by_date] as it is. *)
Theorem sort_blobs_by_date_of_sorted (blobs : list string) :
  Forall (fun b => is_ok (extract_date b) = true) blobs ->
  StronglySorted (fun a b => blob_date_leb a b = true) blobs ->
  sort_blobs_by_date blobs = OK blobs.
Proof.
  intros Hdates Hsorted.
  destruct (map_result_ok extract_date blobs Hdates) as [keys Hkeys].
  apply map_result_Forall2 in Hkeys.
  destruct (combine_keys_ok extract_date blobs keys Hkeys) as [Hok Hsnd].
  rewrite <- Hsnd at 1 2. apply sorted_by_key_of_sorted; [exact Hok|].
  exact (combine_keys_sorted datetime_ltb extract_date _ blobs keys
           blob_date_leb_keyed_le Hkeys Hsorted).
Qed.

Lemma sort_blobs_by_date_of_sorted_witness :
  sort_blobs_by_date ["a/2023-12-31.jsonl"; "b/2024-01-01.jsonl"; "a/2024-01-01.jsonl"]%string
  = OK ["a/2023-12-31.jsonl"; "b/2024-01-01.jsonl"; "a/2024-01-01.jsonl"]%string.
Proof.
  apply sort_blobs_by_date_of_sorted;
    repeat first [ apply Forall_nil | apply Forall_cons | apply SSorted_nil
                 | apply SSorted_cons | vm_compute; reflexivity ].
Defined.

(** X8. Sorting is idempotent: what [sort_blobs_by_date] returns, it returns
    again when given its own result. *)
Theorem sort_blobs_by_date_idempotent (blobs sorted : list string) :
  sort_blobs_by_date blobs = OK sorted ->
  sort_blobs_by_date sorted = OK sorted.
Proof.
  intros Hsort.
  destruct (map_result extract_date blobs) as [keys|e] eqn:Hkeys.
  - destruct (sorted_by_key_decorated datetime_ltb extract_date blobs keys Hkeys)
      as (Hout & Hok & _).
    unfold sort_blobs_by_date in Hsort. rewrite Hout in Hsort.
    injection Hsort as <-.
    apply sorted_by_key_of_sorted.
    + exact Hok.
    + apply sort_keyed_sorted; [exact datetime_ltb_asym | exact datetime_ltb_negtrans].
  - unfold sort_blobs_by_date, sorted_by_key in Hsort. rewrite Hkeys in Hsort.
    discriminate Hsort.
Qed.

Lemma sort_blobs_by_date_idempotent_witness :
  sort_blobs_by_date ["b/2024-01-01.jsonl"; "a/2023-12-31.jsonl"]%string
  = OK ["a/2023-12-31.jsonl"; "b/2024-01-01.jsonl"]%string
  /\ sort_blobs_by_date ["a/2023-12-31.jsonl"; "b/2024-01-01.jsonl"]%string
     = OK ["a/2023-12-31.jsonl"; "b/2024-01-01.jsonl"]%string.
Proof.
  split; [vm_compute; reflexivity|].
  apply (sort_blobs_by_date_idempotent ["b/2024-01-01.jsonl"; "a/2023-12-31.jsonl"]%string).
  vm_compute; reflexivity.
Defined.

(** ** The blob limit *)

Lemma sort_blobs_by_date_ascending (blobs sorted : list string) :
  sort_blobs_by_date blobs = OK sorted ->
  StronglySorted (fun a b => blob_date_leb a b = true) sorted.
Proof.
  intros Hsort.
  destruct (map_result extract_date blobs) as [keys|e] eqn:Hkeys.
  - destruct (sorted_by_key_decorated datetime_ltb extract_date blobs keys Hkeys)
      as (Hout & Hok & _).
    unfold sort_blobs_by_date in Hsort. rewrite Hout in Hsort. injection Hsort as <-.
    apply (StronglySorted_map_snd extract_date (keyed_le datetime_ltb)); [|exact Hok|].
    + intros p q Hp Hq Hle. unfold keyed_ok, keyed_le, blob_date_leb in *.
      now rewrite Hp, Hq, Hle.
    + apply sort_keyed_sorted; [exact datetime_ltb_asym | exact datetime_ltb_negtrans].
  - unfold sort_blobs_by_date, sorted_by_key in Hsort. rewrite Hkeys in Hsort.
    discriminate Hsort.
Qed.

Lemma StronglySorted_app_le {A} (R : A -> A -> Prop) (l1 l2 : list A) :
  StronglySorted R (l1 ++ l2) -> forall a b, In a l1 -> In b l2 -> R a b.
Proof.
  induction l1 as [|x l1 IH]; simpl; intros Hsorted a b Ha Hb; [contradiction|].
  apply StronglySorted_inv in Hsorted as [Hsorted Hall].
  destruct Ha as [<-|Ha]; [|now apply IH].
  rewrite Forall_forall in Hall. apply Hall, in_or_app. now right.
Qed.

(** X9. The blob limit cuts the sorted list at its end: what is kept is an
    initial part of the list, nothing that is kept carries a later date than
    anything that is dropped, and the number kept is the whole list for no
    limit and for the limit 0, the limit or the whole list if that is shorter
    for a positive limit, and all but the last [-n] for a negative limit
    [n]. *)
Theorem limit_blobs_keeps_earliest (blob_limit : option Z) (listed sorted : list string) :
  sort_blobs_by_date listed = OK sorted ->
  exists dropped,
    sorted = limit_blobs blob_limit sorted ++ dropped
    /\ (forall a b, In a (limit_blobs blob_limit sorted) -> In b dropped ->
                    blob_date_leb a b = true)
    /\ Z.of_nat (List.length (limit_blobs blob_limit sorted))
       = match blob_limit with
         | None => Z.of_nat (List.length sorted)
         | Some n =>
             if n =? 0 then Z.of_nat (List.length sorted)
             else if n <? 0 then Z.max 0 (Z.of_nat (List.length sorted) + n)
             else Z.min n (Z.of_nat (List.length sorted))
         end.
Proof.
  intros Hsort. apply sort_blobs_by_date_ascending in Hsort.
  assert (Hcut : forall k,
             exists dropped,
               sorted = firstn k sorted ++ dropped
               /\ (forall a b, In a (firstn k sorted) -> In b dropped ->
                               blob_date_leb a b = true)).
  { intros k. exists (skipn k sorted). split; [now rewrite firstn_skipn|].
    apply (StronglySorted_app_le (fun a b => blob_date_leb a b = true)).
    now rewrite firstn_skipn. }
  assert (Hall : exists dropped,
             sorted = sorted ++ dropped
             /\ (forall a b, In a sorted -> In b dropped -> blob_date_leb a b = true)).
  { exists []. split; [now rewrite app_nil_r | intros a b _ []]. }
  unfold limit_blobs, slice_to. destruct blob_limit as [n|].
  - destruct (Z.eqb_spec n 0) as [->|Hn]; cbn [negb].
    + destruct Hall as (dropped & Happ & Hle). eauto.
    + destruct (Z.ltb_spec n 0) as [Hneg|Hpos].
      * destruct (Hcut (Z.to_nat (Z.of_nat (List.length sorted) + n)))
          as (dropped & Happ & Hle).
        exists dropped. repeat split; auto. rewrite length_firstn. lia.
      * destruct (Hcut (Z.to_nat n)) as (dropped & Happ & Hle).
        exists dropped. repeat split; auto. rewrite length_firstn. lia.
  - destruct Hall as (dropped & Happ & Hle). eauto.
Qed.

Lemma limit_blobs_keeps_earliest_witness :
  exists dropped,
    ["a/2023-12-31.jsonl"; "b/2024-01-01.jsonl"; "c/2024-01-02.jsonl"]%string
    = limit_blobs (Some (-1))
        ["a/2023-12-31.jsonl"; "b/2024-01-01.jsonl"; "c/2024-01-02.jsonl"]%string ++ dropped
    /\ (forall a b,
           In a (limit_blobs (Some (-1))
                   ["a/2023-12-31.jsonl"; "b/2024-01-01.jsonl"; "c/2024-01-02.jsonl"]%string) ->
           In b dropped -> blob_date_leb a b = true)
    /\ Z.of_nat (List.length
                   (limit_blobs (Some (-1))
                      ["a/2023-12-31.jsonl"; "b/2024-01-01.jsonl"; "c/2024-01-02.jsonl"]%string))
       = 2.
Proof.
  apply (limit_blobs_keeps_earliest (Some (-1))
           ["c/2024-01-02.jsonl"; "a/2023-12-31.jsonl"; "b/2024-01-01.jsonl"]%string).
  vm_compute; reflexivity.
Defined.

(** ** The downloads of the remote loader *)

Lemma called_nil (w : World) : called [] w = w.
Proof. unfold called. rewrite app_nil_r. now destruct w. Qed.

Lemma called_app (c1 c2 : list StoreCall) (w : World) :
  called c2 (called c1 w) = called (c1 ++ c2) w.
Proof. unfold called. simpl. now rewrite app_assoc. Qed.

Lemma extend_all_ok (rs : list (result (list record))) (data : list record) :
  Forall (fun r => is_ok r = true) rs ->
  extend_all data rs = OK (data ++ List.concat (map records_of rs)).
Proof.
  intros Hok. revert data. induction Hok as [|r rs Hr _ IH]; intros data; simpl.
  - now rewrite app_nil_r.
  - destruct r as [records|e]; [|discriminate Hr]. simpl. now rewrite IH, app_assoc.
Qed.

Lemma extend_all_raise (rs : list (result (list record))) (data : list record) :
  Exists (fun r => is_ok r = false) rs ->
  exists e, In (Raise e) rs /\ extend_all data rs = Raise e.
Proof.
  intros Hbad. revert data. induction rs as [|r rs IH]; intros data.
  - inversion Hbad.
  - destruct r as [records|e]; simpl.
    + apply Exists_cons in Hbad as [Hbad|Hbad]; [discriminate Hbad|].
      destruct (IH Hbad (data ++ records)) as (e & Hin & Hrun). eauto.
    + eauto.
Qed.

Lemma pick_pending {A} (choice : nat) (pending : list A) (d : A) :
  nth_error pending (Nat.modulo choice (List.length pending)) = Some d ->
  exists l1 l2,
    pending = l1 ++ d :: l2
    /\ firstn (Nat.modulo choice (List.length pending)) pending = l1
    /\ skipn (S (Nat.modulo choice (List.length pending))) pending = l2.
Proof.
  intros Hd. apply nth_error_split in Hd as (l1 & l2 & Hpending & Hl1).
  exists l1, l2. rewrite <- Hl1. split; [exact Hpending|].
  subst pending. clear Hl1. split.
  - now rewrite firstn_app, firstn_all, Nat.sub_diag, firstn_O, app_nil_r.
  - clear. induction l1 as [|y l1 IH]; [reflexivity | exact IH].
Qed.

Lemma pending_steps_cons (d : Download) (pending : list Download) :
  list_sum (map pending_steps (d :: pending))
  = (pending_steps d + list_sum (map pending_steps pending))%nat.
Proof. reflexivity. Qed.

Lemma pending_steps_positive (pending : list Download) :
  (list_sum (map pending_steps pending) <= 0)%nat -> pending = [].
Proof.
  destruct pending as [|[blob|blob bucket|blob outcome] pending]; cbn;
    [reflexivity | lia | lia | lia].
Qed.

(** Every download of the pool ends once, and each of its store operations
    is performed once. *)
Lemma pool_trace_perm {L : Library} (objects : list (string * string)) (steps : nat) :
  forall (choices : list nat) (pending : list Download),
    (list_sum (map pending_steps pending) <= steps)%nat ->
    Permutation (map download_blob pending) (fst (pool_trace objects steps choices pending))
    /\ Permutation (flat_map pending_calls pending)
                   (snd (pool_trace objects steps choices pending)).
Proof.
  induction steps as [|steps IH]; intros choices pending Hsteps.
  - rewrite (pending_steps_positive pending Hsteps). split; constructor.
  - cbn [pool_trace].
    destruct (nth_error pending _) as [d|] eqn:Hd.
    + destruct (pick_pending _ _ _ Hd) as (l1 & l2 & Hpending & -> & ->).
      rewrite Hpending in Hsteps |- *. clear Hd Hpending.
      rewrite map_app, list_sum_app, pending_steps_cons in Hsteps.
      destruct d as [blob|blob bucket|blob outcome]; cbn [pending_steps] in Hsteps.
      * destruct (IH (tl choices) (l1 ++ Fetching blob objects :: l2)) as [Hblobs Hcalls].
        { rewrite map_app, list_sum_app, pending_steps_cons. cbn [pending_steps]. lia. }
        cbn [fst snd]. split.
        -- rewrite map_app in *. exact Hblobs.
        -- rewrite flat_map_app in *. cbn [flat_map pending_calls download_calls app] in *.
           eapply perm_trans; [|apply perm_skip; exact Hcalls].
           symmetry. apply Permutation_middle.
      * destruct (IH (tl choices)
                    (l1 ++ Returning blob (blob_records objects blob) :: l2))
          as [Hblobs Hcalls].
        { rewrite map_app, list_sum_app, pending_steps_cons. cbn [pending_steps]. lia. }
        cbn [fst snd]. split.
        -- rewrite map_app in *. exact Hblobs.
        -- rewrite flat_map_app in *. cbn [flat_map pending_calls app] in *.
           eapply perm_trans; [|apply perm_skip; exact Hcalls].
           symmetry. apply Permutation_middle.
      * destruct (IH (tl choices) (l1 ++ l2)) as [Hblobs Hcalls].
        { rewrite map_app, list_sum_app. lia. }
        cbn [fst snd]. split.
        -- rewrite map_app in *. cbn [map download_blob].
           eapply perm_trans; [symmetry; apply Permutation_middle|].
           now apply perm_skip.
        -- rewrite flat_map_app in *. cbn [flat_map pending_calls app]. exact Hcalls.
    + apply nth_error_None in Hd.
      destruct pending as [|d pending]; [split; constructor|].
      pose proof (Nat.mod_upper_bound (hd O choices) (List.length (d :: pending))) as Hlt.
      cbn [List.length] in *. lia.
Qed.

Section Downloads.
Context {L : Library}.

Lemma step_submitted (objects : list (string * string)) (blob : string) (w : World) :
  assoc GCP_BUCKET_ID (buckets w) = Some objects ->
  step_download GCP_BUCKET_ID (Submitted blob) w
  = (OK (inl (Fetching blob objects)), called [GetBucket GCP_BUCKET_ID] w).
Proof.
  intros Hbucket.
  unfold step_download, attempt, get_bucket, bind, store_call, get_world.
  cbn [buckets]. now rewrite Hbucket.
Qed.

Lemma step_fetching (objects : list (string * string)) (blob : string) (w : World) :
  step_download GCP_BUCKET_ID (Fetching blob objects) w
  = (OK (inl (Returning blob (blob_records objects blob))),
     called [DownloadAsText GCP_BUCKET_ID blob] w).
Proof.
  unfold step_download, attempt, download_as_text, bind, store_call, blob_records, lift.
  destruct (assoc blob objects) as [content|]; reflexivity.
Qed.

Lemma run_pool_S (steps : nat) (choices : list nat) (pending : list Download) :
  run_pool (S steps) choices pending
  = (let i := Nat.modulo (hd O choices) (List.length pending) in
     match nth_error pending i with
     | None => ret []
     | Some d =>
         next <- step_download GCP_BUCKET_ID d ;;
         match next with
         | inl d' =>
             run_pool steps (tl choices) (firstn i pending ++ d' :: skipn (S i) pending)
         | inr r =>
             rs <- run_pool steps (tl choices) (firstn i pending ++ skipn (S i) pending) ;;
             ret (r :: rs)
         end
     end)%M.
Proof. reflexivity. Qed.

(** A download on its own is [load_jsonl_blob]. *)
Lemma run_pool_single (blob : string) (choices : list nat) (w : World) :
  run_pool 3 choices [Submitted blob] w
  = (let (r, w') := load_jsonl_blob GCP_BUCKET_ID blob w in (OK [r], w')).
Proof.
  assert (Hpick : forall (d : Download) (n : nat),
             nth_error [d] (Nat.modulo n (List.length [d])) = Some d
             /\ firstn (Nat.modulo n (List.length [d])) [d] = []
             /\ skipn (S (Nat.modulo n (List.length [d]))) [d] = []).
  { intros d n. cbn [List.length]. now rewrite Nat.mod_1_r. }
  assert (Hnil : forall (k : nat) (n : list nat) (w' : World),
             run_pool k n [] w' = (OK [], w')).
  { intros [|k] n w'; [reflexivity|]. rewrite run_pool_S. cbv zeta.
    now rewrite nth_error_nil. }
  assert (Hend : forall (r : result (list record)) (k : nat) (n : list nat) (w' : World),
             run_pool (S k) n [Returning blob r] w' = (OK [r], w')).
  { intros r k n w'. rewrite run_pool_S. cbv zeta.
    destruct (Hpick (Returning blob r) (hd O n)) as (-> & -> & ->).
    cbn [step_download app]. unfold bind, ret. now rewrite Hnil. }
  rewrite run_pool_S. cbv zeta.
  destruct (Hpick (Submitted blob) (hd O choices)) as (-> & -> & ->).
  cbn [app]. unfold bind at 1.
  destruct (assoc GCP_BUCKET_ID (buckets w)) as [objects|] eqn:Hbucket.
  - rewrite (step_submitted objects blob w Hbucket).
    rewrite run_pool_S. cbv zeta.
    destruct (Hpick (Fetching blob objects) (hd O (tl choices))) as (-> & -> & ->).
    cbn [app]. unfold bind at 1. rewrite step_fetching, Hend.
    unfold load_jsonl_blob, get_bucket, bind, store_call, get_world, ret.
    cbn [buckets]. rewrite Hbucket.
    unfold download_as_text, bind, store_call, blob_records, lift, called.
    cbn [files elsewhere buckets store_calls log schedule].
    rewrite <- app_assoc.
    destruct (assoc blob objects) as [content|]; reflexivity.
  - unfold step_download at 1, attempt, get_bucket, bind, store_call, get_world, ret, raise.
    cbn [buckets]. rewrite Hbucket, Hend.
    unfold load_jsonl_blob, get_bucket, bind, store_call, get_world, raise.
    cbn [buckets]. now rewrite Hbucket.
Qed.

Lemma run_pool_run (objects : list (string * string)) (steps : nat) :
  forall (choices : list nat) (pending : list Download) (w : World),
    assoc GCP_BUCKET_ID (buckets w) = Some objects ->
    Forall (pool_invariant objects) pending ->
    run_pool steps choices pending w
    = (OK (map (blob_records objects) (fst (pool_trace objects steps choices pending))),
       called (snd (pool_trace objects steps choices pending)) w).
Proof.
  induction steps as [|steps IH]; intros choices pending w Hbucket Hheld.
  - cbn. now rewrite called_nil.
  - cbn [run_pool pool_trace].
    destruct (nth_error pending _) as [d|] eqn:Hd; [|cbn; now rewrite called_nil].
    destruct (pick_pending _ _ _ Hd) as (l1 & l2 & Hpending & -> & ->).
    assert (Hd' : pool_invariant objects d).
    { rewrite Hpending in Hheld. apply Forall_app in Hheld as [_ Hheld].
      now apply Forall_inv in Hheld. }
    assert (Hnext : forall d', pool_invariant objects d' ->
                               Forall (pool_invariant objects) (l1 ++ d' :: l2)).
    { intros d' Hd''. rewrite Hpending in Hheld. apply Forall_app in Hheld as [H1 H2].
      apply Forall_app. split; [exact H1|]. constructor; [exact Hd''|].
      now apply Forall_inv_tail in H2. }
    assert (Hrest : Forall (pool_invariant objects) (l1 ++ l2)).
    { rewrite Hpending in Hheld. apply Forall_app in Hheld as [H1 H2].
      apply Forall_app. split; [exact H1 | now apply Forall_inv_tail in H2]. }
    destruct d as [blob|blob bucket|blob outcome]; cbn [pool_invariant] in Hd'.
    + unfold bind at 1. rewrite (step_submitted objects blob w Hbucket).
      rewrite IH; [cbn [fst snd]; now rewrite called_app | exact Hbucket |].
      now apply Hnext.
    + subst bucket. unfold bind at 1. rewrite (step_fetching objects blob w).
      rewrite IH; [cbn [fst snd]; now rewrite called_app | exact Hbucket |].
      now apply Hnext.
    + subst outcome. unfold bind at 1. cbn [step_download]. unfold ret at 1.
      unfold bind at 1. rewrite IH by assumption.
      cbn [fst snd map]. reflexivity.
Qed.

Lemma download_blobs_run (objects : list (string * string)) (blobs : list string)
    (w : World) :
  assoc GCP_BUCKET_ID (buckets w) = Some objects ->
  let steps := (3 * List.length blobs)%nat in
  let trace := pool_trace objects steps (schedule w) (map Submitted blobs) in
  download_blobs blobs w
  = (extend_all [] (map (blob_records objects) (fst trace)),
     mk_World (files w) (elsewhere w) (buckets w) (store_calls w ++ snd trace)
              (log w) (skipn steps (schedule w))).
Proof.
  intros Hbucket steps trace.
  unfold download_blobs. unfold bind at 1, get_world. fold steps.
  unfold bind at 1, set_schedule. unfold bind at 1.
  rewrite (run_pool_run objects steps) with (w := mk_World _ _ _ _ _ _);
    [reflexivity | exact Hbucket |].
  apply Forall_forall. intros d Hd. apply in_map_iff in Hd as (blob & <- & _). exact I.
Qed.

Lemma submitted_trace_perm (objects : list (string * string)) (choices : list nat)
    (blobs : list string) :
  let trace := pool_trace objects (3 * List.length blobs) choices (map Submitted blobs) in
  Permutation blobs (fst trace)
  /\ Permutation (flat_map download_calls blobs) (snd trace).
Proof.
  intros trace.
  destruct (pool_trace_perm objects (3 * List.length blobs) choices (map Submitted blobs))
    as [Hblobs Hcalls].
  { clear. induction blobs as [|blob blobs IH]; [cbn; lia|].
    unfold list_sum in *. cbn [map fold_right pending_steps List.length] in *. lia. }
  fold trace in Hblobs, Hcalls. split.
  - rewrite map_map in Hblobs. cbn [download_blob] in Hblobs. now rewrite map_id in Hblobs.
  - rewrite flat_map_concat_map, map_map, <- flat_map_concat_map in Hcalls. exact Hcalls.
Qed.

(** The loader, for a bucket that exists and names that all carry a date:
    the downloads run in the pool, each to its end. *)
Lemma load_polygon_data_asset_from_gcs_run (asset : PolygonDataAsset)
    (blob_limit : option Z) (clean : bool) (w : World)
    (objects : list (string * string)) (sorted : list string) :
  assoc GCP_BUCKET_ID (buckets w) = Some objects ->
  sort_blobs_by_date (list_blobs objects (Some (asset_files_prefix asset)) None) = OK sorted ->
  let blobs := limit_blobs blob_limit sorted in
  let trace :=
    pool_trace objects (3 * List.length blobs) (schedule w) (map Submitted blobs) in
  fst (load_polygon_data_asset_from_gcs asset blob_limit clean w)
  = match extend_all [] (map (blob_records objects) (fst trace)) with
    | OK data =>
        if (0 <? List.length data)%nat then OK (DataFrame_new data)
        else Raise (AssertionError "No data")
    | Raise e => Raise e
    end
  /\ store_calls (snd (load_polygon_data_asset_from_gcs asset blob_limit clean w))
     = store_calls w
       ++ [GetBucket GCP_BUCKET_ID;
           ListBlobs GCP_BUCKET_ID (Some (asset_files_prefix asset)) None]
       ++ snd trace.
Proof.
  intros Hbucket Hsort blobs trace.
  set (w1 := called [GetBucket GCP_BUCKET_ID;
                     ListBlobs GCP_BUCKET_ID (Some (asset_files_prefix asset)) None] w).
  assert (Hlist : list_polygon_asset_files asset w
                  = (OK (list_blobs objects (Some (asset_files_prefix asset)) None), w1)).
  { unfold list_polygon_asset_files, list_blobs_in_bucket, get_bucket, bind, store_call,
      get_world. cbn [buckets]. rewrite Hbucket. unfold ret.
    cbn [store_calls files elsewhere log schedule buckets]. unfold w1, called.
    now rewrite <- app_assoc. }
  assert (Hrun : load_polygon_data_asset_from_gcs asset blob_limit clean w
                 = let w3 := mk_World (files w) (elsewhere w) (buckets w)
                               (store_calls w1 ++ snd trace)
                               (log w ++ [("Loading "
                                           ++ str_of_Z (Z.of_nat (List.length blobs))
                                           ++ " blobs.")%string])
                               (skipn (3 * List.length blobs) (schedule w)) in
                   match extend_all [] (map (blob_records objects) (fst trace)) with
                   | OK data =>
                       if (0 <? List.length data)%nat then (OK (DataFrame_new data), w3)
                       else (Raise (AssertionError "No data"), w3)
                   | Raise e => (Raise e, w3)
                   end).
  { rewrite (load_polygon_data_asset_from_gcs_steps asset blob_limit clean w w1 _ sorted
               Hlist Hsort).
    fold blobs. unfold bind at 1, logger_info. unfold bind at 1.
    rewrite (download_blobs_run objects blobs) by exact Hbucket.
    cbn [schedule files elsewhere buckets store_calls log w1 called]. fold trace. cbv zeta.
    destruct (extend_all [] (map (blob_records objects) (fst trace))) as [data|e];
      [|reflexivity].
    rewrite DataFrame_new_len. now destruct (0 <? List.length data)%nat. }
  rewrite Hrun. cbv zeta.
  destruct (extend_all [] (map (blob_records objects) (fst trace))) as [data|e];
    [destruct (0 <? List.length data)%nat|];
    (split; [reflexivity | unfold w1, called; cbn; now rewrite <- app_assoc]).
Qed.

End Downloads.

Section DownloadProperties.
Context {L : Library}.

(** X10. When the bucket exists and every listed name carries a date, the
    loader performs one listing and then, for every blob it selected, one
    bucket lookup and one download, the operations of the downloads in some
    order among them: no blob is downloaded twice and none is left out, also
    when a download fails or the blobs hold no data. *)
Theorem load_polygon_data_asset_from_gcs_downloads_each_once (asset : PolygonDataAsset)
    (blob_limit : option Z) (clean : bool) (w : World)
    (objects : list (string * string)) (sorted : list string) :
  assoc GCP_BUCKET_ID (buckets w) = Some objects ->
  sort_blobs_by_date (list_blobs objects (Some (asset_files_prefix asset)) None) = OK sorted ->
  exists calls,
    Permutation (flat_map download_calls (limit_blobs blob_limit sorted)) calls
    /\ store_calls (snd (load_polygon_data_asset_from_gcs asset blob_limit clean w))
       = store_calls w
         ++ [GetBucket GCP_BUCKET_ID;
             ListBlobs GCP_BUCKET_ID (Some (asset_files_prefix asset)) None]
         ++ calls.
Proof.
  intros Hbucket Hsort.
  destruct (load_polygon_data_asset_from_gcs_run asset blob_limit clean w objects sorted
              Hbucket Hsort) as [_ Hcalls].
  eexists. split; [|exact Hcalls].
  apply (submitted_trace_perm objects (schedule w) (limit_blobs blob_limit sorted)).
Qed.

(** X11. When moreover every selected blob can be read, the rows of the table
    are the records of the blobs, those of one blob together and in the order
    of its lines, the blobs in their order of completion; the rows are the
    same, up to their order, whatever the order of completion, and without a
    row the load raises [AssertionError]. *)
Theorem load_polygon_data_asset_from_gcs_rows (asset : PolygonDataAsset)
    (blob_limit : option Z) (clean : bool) (w : World)
    (objects : list (string * string)) (sorted : list string) :
  assoc GCP_BUCKET_ID (buckets w) = Some objects ->
  sort_blobs_by_date (list_blobs objects (Some (asset_files_prefix asset)) None) = OK sorted ->
  Forall (fun blob => is_ok (blob_records objects blob) = true)
         (limit_blobs blob_limit sorted) ->
  exists completed data,
    Permutation (limit_blobs blob_limit sorted) completed
    /\ data = flat_map (fun blob => records_of (blob_records objects blob)) completed
    /\ Permutation data
         (flat_map (fun blob => records_of (blob_records objects blob))
                   (limit_blobs blob_limit sorted))
    /\ fst (load_polygon_data_asset_from_gcs asset blob_limit clean w)
       = match data with
         | [] => Raise (AssertionError "No data")
         | _ :: _ => OK (DataFrame_new data)
         end.
Proof.
  intros Hbucket Hsort Hread.
  destruct (load_polygon_data_asset_from_gcs_run asset blob_limit clean w objects sorted
              Hbucket Hsort) as [Hvalue _].
  set (blobs := limit_blobs blob_limit sorted) in *.
  set (completed := fst (pool_trace objects (3 * List.length blobs) (schedule w)
                                    (map Submitted blobs))) in *.
  assert (Hperm : Permutation blobs completed)
    by apply (submitted_trace_perm objects (schedule w) blobs).
  exists completed, (flat_map (fun blob => records_of (blob_records objects blob)) completed).
  repeat split; [exact Hperm | apply Permutation_flat_map; now symmetry |].
  rewrite Hvalue, extend_all_ok.
  - rewrite map_map, <- flat_map_concat_map. cbn [app].
    now destruct (flat_map _ completed).
  - apply Forall_map. rewrite Forall_forall in Hread |- *.
    intros blob Hblob. apply Hread. eapply Permutation_in; [symmetry|]; eassumption.
Qed.

(** X12. When a selected blob cannot be read (it is missing, or a line of it
    is not JSON), the load raises the error of such a blob and returns no
    table, however many other blobs are readable. *)
Theorem load_polygon_data_asset_from_gcs_unreadable_blob (asset : PolygonDataAsset)
    (blob_limit : option Z) (clean : bool) (w : World)
    (objects : list (string * string)) (sorted : list string) :
  assoc GCP_BUCKET_ID (buckets w) = Some objects ->
  sort_blobs_by_date (list_blobs objects (Some (asset_files_prefix asset)) None) = OK sorted ->
  Exists (fun blob => is_ok (blob_records objects blob) = false)
         (limit_blobs blob_limit sorted) ->
  exists blob e,
    In blob (limit_blobs blob_limit sorted)
    /\ blob_records objects blob = Raise e
    /\ fst (load_polygon_data_asset_from_gcs asset blob_limit clean w) = Raise e.
Proof.
  intros Hbucket Hsort Hbad.
  destruct (load_polygon_data_asset_from_gcs_run asset blob_limit clean w objects sorted
              Hbucket Hsort) as [Hvalue _].
  set (blobs := limit_blobs blob_limit sorted) in *.
  set (completed := fst (pool_trace objects (3 * List.length blobs) (schedule w)
                                    (map Submitted blobs))) in *.
  assert (Hperm : Permutation blobs completed)
    by apply (submitted_trace_perm objects (schedule w) blobs).
  destruct (extend_all_raise (map (blob_records objects) completed) []) as (e & Hin & Hrun).
  { apply Exists_exists in Hbad as (blob & Hblob & Hfail).
    apply Exists_exists. exists (blob_records objects blob). split; [|exact Hfail].
    apply in_map. eapply Permutation_in; eassumption. }
  apply in_map_iff in Hin as (blob & Hblob & Hin).
  exists blob, e. repeat split.
  - eapply Permutation_in; [symmetry|]; eassumption.
  - exact Hblob.
  - now rewrite Hvalue, Hrun.
Qed.

End DownloadProperties.

(** Three downloads whose store operations interleave: the third asks for its
    bucket first, the first is the first to end. *)
Example load_polygon_data_asset_from_gcs_interleaved :
  store_calls (snd (load_polygon_data_asset_from_gcs SPY None true broken_world))
  = [GetBucket GCP_BUCKET_ID;
     ListBlobs GCP_BUCKET_ID (Some "polygon/equity/ohlcv/1d/SPY/"%string) None;
     GetBucket GCP_BUCKET_ID;
     GetBucket GCP_BUCKET_ID;
     DownloadAsText GCP_BUCKET_ID "polygon/equity/ohlcv/1d/SPY/2024-01-01.jsonl"%string;
     GetBucket GCP_BUCKET_ID;
     DownloadAsText GCP_BUCKET_ID "polygon/equity/ohlcv/1d/SPY/2024-01-02.jsonl"%string;
     DownloadAsText GCP_BUCKET_ID "polygon/equity/ohlcv/1d/SPY/2024-01-03.jsonl"%string].
Proof. vm_compute; reflexivity. Qed.

(** The downloads need not end in the order in which they fetch: the first
    day is fetched first and ends last, so its row comes second. *)
Example load_polygon_data_asset_from_gcs_completion_order :
  let w :=
    mk_World [] [] [(GCP_BUCKET_ID, example_bucket)] [] []
             [0; 0; 1; 1; 1; 0]%nat in
  fst (load_polygon_data_asset_from_gcs SPY None true w)
  = OK (mk_DataFrame None [VInt 0; VInt 1]
          [("dt"%string, [VStr "2024-01-02"; VStr "2024-01-01"]);
           ("open"%string, [VInt 1; VInt 1]); ("high"%string, [VInt 2; VInt 2]);
           ("low"%string, [VInt 1; VInt 1]); ("close"%string, [VInt 2; VInt 2]);
           ("volume"%string, [VInt 100; VInt 100])])
  /\ store_calls (snd (load_polygon_data_asset_from_gcs SPY None true w))
     = [GetBucket GCP_BUCKET_ID;
        ListBlobs GCP_BUCKET_ID (Some "polygon/equity/ohlcv/1d/SPY/"%string) None;
        GetBucket GCP_BUCKET_ID;
        DownloadAsText GCP_BUCKET_ID "polygon/equity/ohlcv/1d/SPY/2024-01-01.jsonl"%string;
        GetBucket GCP_BUCKET_ID;
        DownloadAsText GCP_BUCKET_ID "polygon/equity/ohlcv/1d/SPY/2024-01-02.jsonl"%string].
Proof. split; vm_compute; reflexivity. Qed.

Lemma load_polygon_data_asset_from_gcs_downloads_each_once_witness :
  exists calls,
    Permutation
      (flat_map download_calls
         (limit_blobs None ["polygon/equity/ohlcv/1d/SPY/2024-01-01.jsonl";
                            "polygon/equity/ohlcv/1d/SPY/2024-01-02.jsonl";
                            "polygon/equity/ohlcv/1d/SPY/2024-01-03.jsonl"]%string))
      calls
    /\ store_calls (snd (load_polygon_data_asset_from_gcs SPY None true broken_world))
       = store_calls broken_world
         ++ [GetBucket GCP_BUCKET_ID;
             ListBlobs GCP_BUCKET_ID (Some (asset_files_prefix SPY)) None]
         ++ calls.
Proof.
  apply (load_polygon_data_asset_from_gcs_downloads_each_once SPY None true broken_world
           broken_bucket).
  - reflexivity.
  - vm_compute; reflexivity.
Defined.

Lemma load_polygon_data_asset_from_gcs_rows_witness :
  exists completed data,
    Permutation
      (limit_blobs None ["polygon/equity/ohlcv/1d/SPY/2024-01-01.jsonl";
                         "polygon/equity/ohlcv/1d/SPY/2024-01-02.jsonl"]%string)
      completed
    /\ data = flat_map (fun blob => records_of (blob_records example_bucket blob)) completed
    /\ Permutation data
         (flat_map (fun blob => records_of (blob_records example_bucket blob))
            (limit_blobs None ["polygon/equity/ohlcv/1d/SPY/2024-01-01.jsonl";
                               "polygon/equity/ohlcv/1d/SPY/2024-01-02.jsonl"]%string))
    /\ fst (load_polygon_data_asset_from_gcs SPY None true cold_world)
       = match data with
         | [] => Raise (AssertionError "No data")
         | _ :: _ => OK (DataFrame_new data)
         end.
Proof.
  apply (load_polygon_data_asset_from_gcs_rows SPY None true cold_world example_bucket).
  - reflexivity.
  - vm_compute; reflexivity.
  - repeat (constructor; [vm_compute; reflexivity|]). constructor.
Defined.

Lemma load_polygon_data_asset_from_gcs_unreadable_blob_witness :
  exists blob e,
    In blob (limit_blobs None ["polygon/equity/ohlcv/1d/SPY/2024-01-01.jsonl";
                               "polygon/equity/ohlcv/1d/SPY/2024-01-02.jsonl";
                               "polygon/equity/ohlcv/1d/SPY/2024-01-03.jsonl"]%string)
    /\ blob_records broken_bucket blob = Raise e
    /\ fst (load_polygon_data_asset_from_gcs SPY None true broken_world) = Raise e.
Proof.
  apply (load_polygon_data_asset_from_gcs_unreadable_blob SPY None true broken_world
           broken_bucket).
  - reflexivity.
  - vm_compute; reflexivity.
  - apply Exists_cons_tl, Exists_cons_tl, Exists_cons_hd. vm_compute; reflexivity.
Defined.

(** ** Reading one object of the store *)

Section ReadBlob.
Context {L : Library}.

Lemma json_objects_of_filter (lines : list string) :
  json_objects_of lines
  = map_result json_loads (filter (fun line => truthy (strip line)) lines).
Proof.
  induction lines as [|line lines IH]; [reflexivity|].
  cbn [json_objects_of filter]. destruct (truthy (strip line)); [|exact IH].
  cbn [map_result]. rewrite IH. reflexivity.
Qed.

(** X13. [load_jsonl_blob] raises [NotFound] for a bucket or an object that
    is not there; otherwise it parses every line of the object that is not
    blank, in order, skips the blank ones, and gives the records of all of
    them or the error of the first line that is not JSON. *)
Theorem load_jsonl_blob_records (bucket_name blob_name : string) (w : World) :
  fst (load_jsonl_blob bucket_name blob_name w)
  = match assoc bucket_name (buckets w) with
    | None => Raise (NotFound bucket_name)
    | Some objects =>
        match assoc blob_name objects with
        | None => Raise (NotFound blob_name)
        | Some content =>
            map_result json_loads
              (filter (fun line => truthy (strip line)) (splitlines content))
        end
    end.
Proof.
  unfold load_jsonl_blob, get_bucket, download_as_text, bind, store_call, get_world.
  cbn [buckets]. destruct (assoc bucket_name (buckets w)) as [objects|]; [|reflexivity].
  unfold ret at 1. destruct (assoc blob_name objects) as [content|]; [|reflexivity].
  unfold ret, lift. cbn [fst]. apply json_objects_of_filter.
Qed.

End ReadBlob.

(** ** The logging wrapper of the cleaners *)

Lemma change_description_same (s : Z * Z) : change_description s s = "made no changes"%string.
Proof. unfold change_description, change_entry. now rewrite !Z.sub_diag. Qed.

Lemma join_entry_not_no_changes (change : Z) (what : string) (more : list string) :
  change <> 0 ->
  match change_entry change what ++ more with
  | [] => "made no changes"%string
  | _ => join " and " (change_entry change what ++ more)
  end <> "made no changes"%string.
Proof.
  intros Hne. unfold change_entry.
  destruct (Z.eqb_spec change 0) as [|_]; [contradiction|]. cbn [negb app join].
  destruct (0 <? change); destruct more; cbn [append]; discriminate.
Qed.

(** X14. The wrapper says [made no changes] exactly when the shape of the
    table is what it was before. *)
Theorem change_description_no_changes (before_shape after_shape : Z * Z) :
  change_description before_shape after_shape = "made no changes"%string
  <-> after_shape = before_shape.
Proof.
  split; [|intros ->; apply change_description_same].
  destruct before_shape as [r c], after_shape as [r' c']. unfold change_description.
  cbn [fst snd]. intros Hsame.
  destruct (Z.eq_dec (r' - r) 0) as [Hr|Hr].
  - destruct (Z.eq_dec (c' - c) 0) as [Hc|Hc].
    + f_equal; lia.
    + exfalso. revert Hsame. unfold change_entry at 1 3. rewrite Hr. cbn [Z.eqb negb app].
      rewrite <- (app_nil_r (change_entry (c' - c) "columns")).
      now apply join_entry_not_no_changes.
  - exfalso. revert Hsame. now apply join_entry_not_no_changes.
Qed.

Section Cleaners.
Context {L : Library}.

Lemma ohlc_to_float_fn_shape (df df1 : DataFrame) (asset : PolygonDataAsset) :
  ohlc_to_float_fn df asset = OK df1 -> shape df1 = shape df.
Proof.
  intros Hok. apply ohlc_to_float_fn_ok in Hok
    as (c1 & c2 & c3 & c4 & f1 & f2 & f3 & f4 & _ & _ & _ & _ & _ & _ & _ & _ & ->).
  unfold shape, df_len. cbn [df_index df_columns]. now rewrite length_map.
Qed.

(** X15. [ohlc_to_float] and [add_asset_id_prefixes] keep the shape of the
    table, so under the logging wrapper each of them, when it returns, logs
    that it made no changes, whatever it did to the cells or to the names of
    the columns; when [ohlc_to_float] raises, nothing is logged. *)
Theorem shape_keeping_cleaners_log_no_changes (df : DataFrame) (asset : PolygonDataAsset)
    (w : World) :
  cleaner_call (log_dataframe_changes ohlc_to_float) df asset w
  = match ohlc_to_float_fn df asset with
    | OK df1 => (OK df1, logged ["ohlc_to_float() made no changes."%string] w)
    | Raise e => (Raise e, w)
    end
  /\ cleaner_call (log_dataframe_changes add_asset_id_prefixes) df asset w
     = (add_asset_id_prefixes_fn df asset,
        logged ["add_asset_id_prefixes() made no changes."%string] w).
Proof.
  unfold log_dataframe_changes, ohlc_to_float, add_asset_id_prefixes, bind, lift,
    logger_info, ret, logged.
  cbn [cleaner_call cleaner_name]. split.
  - destruct (ohlc_to_float_fn df asset) as [df1|e] eqn:Hok; [|reflexivity].
    rewrite (ohlc_to_float_fn_shape df df1 asset Hok), change_description_same.
    reflexivity.
  - unfold add_asset_id_prefixes_fn.
    replace (shape (mk_DataFrame _ _ _)) with (shape df)
      by (unfold shape, df_len; cbn [df_index df_columns]; now rewrite length_map).
    rewrite change_description_same. reflexivity.
Qed.

(** What the cleaners of an asset type compute, the log left aside. *)
Lemma apply_cleaners_pipeline (t : PolygonAssetType) (df : DataFrame)
    (asset : PolygonDataAsset) (w : World) :
  fst (apply_cleaners (CLEANERS t) df asset w)
  = match t with
    | index => OK df
    | options | forex => set_sort_dt_index_fn df asset
    | equity =>
        bind_result (set_sort_dt_index_fn df asset)
          (fun df1 => bind_result (ohlc_to_float_fn df1 asset)
                        (fun df2 => add_asset_id_prefixes_fn df2 asset))
    end.
Proof.
  destruct t; cbn [CLEANERS apply_cleaners];
    unfold log_dataframe_changes, set_sort_dt_index, ohlc_to_float, add_asset_id_prefixes,
      bind, lift, logger_info, ret, bind_result; cbn [cleaner_call cleaner_name];
    repeat match goal with
           | |- context [set_sort_dt_index_fn ?d ?a] => destruct (set_sort_dt_index_fn d a)
           | |- context [ohlc_to_float_fn ?d ?a] => destruct (ohlc_to_float_fn d a)
           end; reflexivity.
Qed.

Lemma map_fst_filter {A B} (p : A -> bool) (l : list (A * B)) :
  map fst (filter (fun x => p (fst x)) l) = filter p (map fst l).
Proof.
  induction l as [|x l IH]; simpl; [reflexivity|].
  destruct (p (fst x)); simpl; now rewrite IH.
Qed.

Lemma map_fst_set_column (name : string) (col : list cell) (cols : list (string * list cell)) :
  map fst (set_column name col cols) = map fst cols.
Proof.
  unfold set_column. rewrite map_map. apply map_ext. intros nc.
  now destruct (String.eqb (fst nc) name).
Qed.

Lemma set_sort_dt_index_fn_names (df df1 : DataFrame) (asset : PolygonDataAsset) :
  set_sort_dt_index_fn df asset = OK df1 ->
  df_index_name df1 = Some "dt"%string
  /\ map fst (df_columns df1)
     = filter (fun name => negb (String.eqb name "dt")) (map fst (df_columns df)).
Proof.
  unfold set_sort_dt_index_fn.
  destruct (assoc "dt" (df_columns df)) as [col|]; [|discriminate].
  destruct (to_datetime_mixed col) as [dt|e]; [|discriminate].
  intros [= <-]. cbn [df_index_name df_columns]. split; [reflexivity|].
  unfold drop_column.
  rewrite (map_fst_filter (fun name => negb (String.eqb name "dt"))). f_equal.
  rewrite map_map. exact (map_fst_set_column "dt" dt (df_columns df)).
Qed.

Lemma ohlc_to_float_fn_names (df df1 : DataFrame) (asset : PolygonDataAsset) :
  ohlc_to_float_fn df asset = OK df1 ->
  df_index_name df1 = df_index_name df
  /\ map fst (df_columns df1) = map fst (df_columns df).
Proof.
  intros Hok. apply ohlc_to_float_fn_ok in Hok
    as (c1 & c2 & c3 & c4 & f1 & f2 & f3 & f4 & _ & _ & _ & _ & _ & _ & _ & _ & ->).
  cbn [df_index_name df_columns]. split; [reflexivity|].
  rewrite map_map. apply map_ext. intros nc. unfold put_floats.
  repeat match goal with |- context [if ?b then _ else _] => destruct b end; reflexivity.
Qed.

(** X16. What cleaning does to the names: for an index nothing; for the other
    types [dt] becomes the index and is no longer a column, the other columns
    keep their order, and for an equity every column name gets the asset id
    and an underscore in front. *)
Theorem apply_cleaners_column_names (t : PolygonAssetType) (df df1 : DataFrame)
    (asset : PolygonDataAsset) (w : World) :
  fst (apply_cleaners (CLEANERS t) df asset w) = OK df1 ->
  let others := filter (fun name => negb (String.eqb name "dt")) (map fst (df_columns df)) in
  match t with
  | index => df1 = df
  | options | forex =>
      df_index_name df1 = Some "dt"%string /\ map fst (df_columns df1) = others
  | equity =>
      df_index_name df1 = Some "dt"%string
      /\ map fst (df_columns df1)
         = map (fun name => (asset_id asset ++ "_" ++ name)%string) others
  end.
Proof.
  rewrite apply_cleaners_pipeline. intros Hclean others. destruct t.
  - now apply set_sort_dt_index_fn_names in Hclean.
  - now injection Hclean.
  - unfold bind_result in Hclean.
    destruct (set_sort_dt_index_fn df asset) as [d1|] eqn:H1; [|discriminate].
    destruct (ohlc_to_float_fn d1 asset) as [d2|] eqn:H2; [|discriminate].
    apply set_sort_dt_index_fn_names in H1 as [Hi1 Hn1].
    apply ohlc_to_float_fn_names in H2 as [Hi2 Hn2].
    unfold add_asset_id_prefixes_fn in Hclean. injection Hclean as <-.
    cbn [df_index_name df_columns]. split; [congruence|].
    unfold others. rewrite <- Hn1, <- Hn2, !map_map. reflexivity.
  - now apply set_sort_dt_index_fn_names in Hclean.
Qed.

Lemma assoc_None_not_in {V} (k : string) (l : list (string * V)) :
  ~ In k (map fst l) -> assoc k l = None.
Proof.
  induction l as [|[k' v] l IH]; simpl; intros Hnot; [reflexivity|].
  destruct (String.eqb_spec k' k) as [->|_]; [exfalso; auto | auto].
Qed.

Lemma prefixed_not_dt (id name : string) : (id ++ "_" ++ name)%string <> "dt"%string.
Proof.
  destruct id as [|c1 [|c2 [|c3 id]]]; cbn [append]; intros [= ? ?]; discriminate.
Qed.

(** X17. Cleaning is not idempotent for the types that have cleaners: on a
    table that was cleaned, cleaning raises [KeyError] for [dt], since [dt] is
    no longer a column. *)
Theorem apply_cleaners_twice_raises (t : PolygonAssetType) (df df1 : DataFrame)
    (asset asset' : PolygonDataAsset) (w w' : World) :
  t <> index ->
  fst (apply_cleaners (CLEANERS t) df asset w) = OK df1 ->
  fst (apply_cleaners (CLEANERS t) df1 asset' w') = Raise (KeyError "dt").
Proof.
  intros Ht Hclean.
  assert (Hnot : forall d d1 a,
             set_sort_dt_index_fn d a = OK d1 -> ~ In "dt"%string (map fst (df_columns d1))).
  { intros d d1 a Hd. apply set_sort_dt_index_fn_names in Hd as [_ ->].
    intros Hin. apply filter_In in Hin as [_ Hne]. now rewrite String.eqb_refl in Hne. }
  assert (Hdt : assoc "dt" (df_columns df1) = None).
  { apply assoc_None_not_in. rewrite apply_cleaners_pipeline in Hclean.
    destruct t; try contradiction; eauto.
    unfold bind_result in Hclean.
    destruct (set_sort_dt_index_fn df asset) as [d1|]; [|discriminate].
    destruct (ohlc_to_float_fn d1 asset) as [d2|]; [|discriminate].
    unfold add_asset_id_prefixes_fn in Hclean. injection Hclean as <-.
    cbn [df_columns]. rewrite map_map. intros Hin.
    apply in_map_iff in Hin as (nc & Heq & _). now apply prefixed_not_dt in Heq. }
  rewrite apply_cleaners_pipeline.
  assert (Hraise : set_sort_dt_index_fn df1 asset' = Raise (KeyError "dt")).
  { unfold set_sort_dt_index_fn. now rewrite Hdt. }
  destruct t; try contradiction; rewrite Hraise; reflexivity.
Qed.

End Cleaners.

Lemma apply_cleaners_column_names_witness :
  exists df1,
    fst (apply_cleaners (CLEANERS equity) example_frame SPY warm_world) = OK df1
    /\ df_index_name df1 = Some "dt"%string
    /\ map fst (df_columns df1)
       = ["SPY_open"; "SPY_high"; "SPY_low"; "SPY_close"; "SPY_volume"]%string.
Proof.
  eexists. split; [vm_compute; reflexivity|].
  apply (apply_cleaners_column_names equity example_frame _ SPY warm_world).
  vm_compute; reflexivity.
Defined.

Lemma apply_cleaners_twice_raises_witness :
  exists df1,
    fst (apply_cleaners (CLEANERS equity) example_frame SPY warm_world) = OK df1
    /\ fst (apply_cleaners (CLEANERS equity) df1 SPY warm_world) = Raise (KeyError "dt").
Proof.
  eexists. split; [vm_compute; reflexivity|].
  apply (apply_cleaners_twice_raises equity example_frame _ SPY SPY warm_world warm_world).
  - discriminate.
  - vm_compute; reflexivity.
Defined.

Section OhlcToFloatDomain.
Context {L : Library}.

Lemma map_result_is_ok {A B} (f : A -> result B) (l : list A) :
  is_ok (map_result f l) = true <-> Forall (fun x => is_ok (f x) = true) l.
Proof.
  split.
  - destruct (map_result f l) as [ys|e] eqn:Hys; [intros _|discriminate].
    apply map_result_Forall2 in Hys.
    induction Hys as [|x y l ys Hx _ IH]; constructor; [now rewrite Hx | exact IH].
  - intros Hall. destruct (map_result_ok f l Hall) as [ys ->]. reflexivity.
Qed.

(** X18. [ohlc_to_float] returns exactly when the table has the four columns
    [open], [high], [low] and [close] and every cell of these four can be
    cast to a float; no other column is looked at. *)
Theorem ohlc_to_float_fn_returns_iff (df : DataFrame) (asset : PolygonDataAsset) :
  is_ok (ohlc_to_float_fn df asset) = true
  <-> Forall (fun name =>
                exists col, assoc name (df_columns df) = Some col
                            /\ Forall (fun c => is_ok (cell_to_float c) = true) col)
             ohlcv_cols.
Proof.
  split.
  - destruct (ohlc_to_float_fn df asset) as [df1|e] eqn:Hok; [intros _|discriminate].
    apply ohlc_to_float_fn_ok in Hok
      as (c1 & c2 & c3 & c4 & f1 & f2 & f3 & f4 & H1 & H2 & H3 & H4
          & F1 & F2 & F3 & F4 & _).
    repeat constructor; eexists; (split; [eassumption|]);
      apply map_result_is_ok;
      match goal with H : map_result cell_to_float ?c = _ |- context [?c] => now rewrite H end.
  - intros Hall. unfold ohlcv_cols in Hall.
    repeat match goal with
           | H : Forall _ (_ :: _) |- _ =>
               apply Forall_cons_iff in H as [(? & ? & ?) H]
           end.
    unfold ohlc_to_float_fn, select_columns, astype_float, ohlcv_cols.
    cbn [map_result].
    repeat match goal with
           | H : assoc _ (df_columns df) = Some _ |- _ => rewrite H; clear H
           end.
    cbn [map_result fst snd].
    repeat match goal with
           | H : Forall (fun c => is_ok (cell_to_float c) = true) ?col |- _ =>
               let floats := fresh "floats" in
               let Hf := fresh "Hf" in
               destruct (map_result_ok cell_to_float col H) as [floats Hf];
               rewrite Hf; clear H Hf
           end.
    reflexivity.
Qed.

(** X19. When one of the four columns is missing, [ohlc_to_float] raises
    [KeyError] for a missing column, whatever the cells of the table hold:
    the columns are selected before any cell is cast. *)
Theorem ohlc_to_float_fn_missing_column (df : DataFrame) (asset : PolygonDataAsset) :
  Exists (fun name => assoc name (df_columns df) = None) ohlcv_cols ->
  exists name,
    In name ohlcv_cols
    /\ assoc name (df_columns df) = None
    /\ ohlc_to_float_fn df asset = Raise (KeyError name).
Proof.
  intros Hmissing. unfold ohlc_to_float_fn, select_columns.
  match goal with
  | |- context [map_result ?f ohlcv_cols] =>
      destruct (map_result_first_raise f ohlcv_cols) as (name & e & Hin & Hname & Hselect)
  end.
  - apply Exists_exists in Hmissing as (name & Hin & Hname).
    apply Exists_exists. exists name. split; [exact Hin | now rewrite Hname].
  - exists name. destruct (assoc name (df_columns df)) as [col|]; [discriminate Hname|].
    injection Hname as <-. now rewrite Hselect.
Qed.

End OhlcToFloatDomain.

Lemma ohlc_to_float_fn_missing_column_witness :
  exists name,
    In name ohlcv_cols
    /\ assoc name [("open"%string, [VNested "x"%string]); ("high"%string, [VInt 1]);
                   ("close"%string, [VInt 1])] = None
    /\ ohlc_to_float_fn
         (mk_DataFrame None [VInt 0]
            [("open"%string, [VNested "x"%string]); ("high"%string, [VInt 1]);
             ("close"%string, [VInt 1])])
         SPY
       = Raise (KeyError name).
Proof.
  apply (ohlc_to_float_fn_missing_column
           (mk_DataFrame None [VInt 0]
              [("open"%string, [VNested "x"%string]); ("high"%string, [VInt 1]);
               ("close"%string, [VInt 1])])
           SPY).
  apply Exists_cons_tl, Exists_cons_tl, Exists_cons_hd. reflexivity.
Defined.

(** ** Asset identities *)

Lemma replace_dot_no_dot (s : string) : no_dot s = true -> Str.replace s "." "/" = s.
Proof.
  unfold no_dot, Str.replace. induction s as [|c s IH]; [reflexivity|].
  cbn [list_ascii_of_string forallb]. intros Hs. apply andb_true_iff in Hs as [Hc Hs].
  cbn [Str.replace_from Str.startswith Str.len String.length Nat.pred].
  rewrite andb_true_r, Ascii.eqb_sym. apply negb_true_iff in Hc. rewrite Hc.
  now rewrite IH.
Qed.

Lemma label_default (t : PolygonAssetType) (id : string) :
  label (PolygonDataAsset_default t id)
  = (label (PolygonDataAsset_default t "") ++ id)%string.
Proof. exact (label_asset_id (PolygonDataAsset_default t id)). Qed.

(** X20. Among assets made with the default provider and interval, two are
    equal exactly when they have the same asset type and the same asset
    id. *)
Theorem PolygonDataAsset_default_eq (t t' : PolygonAssetType) (id id' : string) :
  PolygonDataAsset_eq (PolygonDataAsset_default t id) (PolygonDataAsset_default t' id') = true
  <-> t = t' /\ id = id'.
Proof.
  unfold PolygonDataAsset_eq. rewrite String.eqb_eq. split.
  - rewrite (label_default t id), (label_default t' id').
    destruct t, t'; cbn; intros Heq; try discriminate Heq;
      (split; [reflexivity|]);
      repeat match type of Heq with
             | String _ _ = String _ _ => injection Heq as Heq
             end; now symmetry.
  - now intros [-> ->].
Qed.

(** X21. The cache file and the remote prefix of an asset are those of the
    asset whose id has a separator for every dot: the ids [BRK.B] and [BRK/B]
    share one cache file and one remote directory, although the two assets
    are not equal. *)
Theorem dotted_asset_id_shares_paths (a : PolygonDataAsset) :
  let a' := with_asset_id (Str.replace (asset_id a) "." "/") a in
  get_polygon_asset_local_file_name a' = get_polygon_asset_local_file_name a
  /\ asset_files_prefix a' = asset_files_prefix a.
Proof.
  intros a'.
  assert (Hpath : Str.replace (label a') "." "/" = Str.replace (label a) "." "/").
  { rewrite (label_asset_id a'), (label_asset_id a). unfold a'.
    cbn [with_asset_id asset_id]. rewrite !replace_char_app.
    rewrite (replace_dot_no_dot _ (no_dot_replace (asset_id a))). reflexivity. }
  unfold get_polygon_asset_local_file_name, asset_files_prefix.
  now rewrite Hpath.
Qed.

(** X22. Assets made with the default provider and interval whose ids have
    no dot have the same cache file only when they have the same asset type
    and the same asset id. *)
Theorem cache_file_name_injective (t t' : PolygonAssetType) (id id' : string) :
  no_dot id = true -> no_dot id' = true ->
  get_polygon_asset_local_file_name (PolygonDataAsset_default t id)
  = get_polygon_asset_local_file_name (PolygonDataAsset_default t' id') ->
  t = t' /\ id = id'.
Proof.
  intros Hid Hid'. unfold get_polygon_asset_local_file_name.
  rewrite (label_default t id), (label_default t' id'), !replace_char_app.
  rewrite (replace_dot_no_dot id Hid), (replace_dot_no_dot id' Hid').
  intros Heq.
  assert (Hstart : Str.startswith (id' ++ ".joblib") (id ++ ".joblib") = true -> id' = id)
    by now apply startswith_extension_exact.
  destruct t, t'; vm_compute in Heq; try discriminate Heq;
    (split; [reflexivity|]);
    repeat match type of Heq with
           | String _ _ = String _ _ => injection Heq as Heq
           end;
    symmetry; apply Hstart; fold append in Heq; rewrite Heq; apply startswith_refl.
Qed.

Lemma cache_file_name_injective_witness :
  equity = equity /\ "SPY"%string = "SPY"%string.
Proof.
  apply (cache_file_name_injective equity equity "SPY" "SPY"); reflexivity.
Defined.

(** ** The discovery of the assets of a type *)

Lemma after_prefix_app (s p rest : string) :
  after_prefix s p = Some rest <-> s = (p ++ rest)%string.
Proof.
  revert s. induction p as [|c p IH]; intros s; cbn [after_prefix append].
  - split; [now intros [= ->] | now intros ->].
  - destruct s as [|d s]; [split; discriminate|].
    destruct (Ascii.eqb_spec c d) as [->|Hne].
    + rewrite IH. split; [now intros -> | now intros [= ->]].
    + split; [discriminate | intros [= Hd _]; now symmetry in Hd].
Qed.

Lemma no_slash_cons (c : ascii) (s : string) :
  no_slash (String c s) = true <-> c <> "/"%char /\ no_slash s = true.
Proof.
  unfold no_slash. cbn [list_ascii_of_string forallb].
  rewrite andb_true_iff, negb_true_iff, Ascii.eqb_neq. reflexivity.
Qed.

(** A text is cut at its first separator in one way only. *)
Lemma first_slash_unique (a b r1 r2 : string) :
  no_slash a = true -> no_slash b = true ->
  (a ++ String "/" r1 = b ++ String "/" r2)%string -> a = b /\ r1 = r2.
Proof.
  revert b. induction a as [|c a IH]; intros [|d b] Ha Hb; cbn [append]; intros Heq.
  - now injection Heq.
  - apply no_slash_cons in Hb as [Hd _]. congruence.
  - apply no_slash_cons in Ha as [Hc _]. congruence.
  - apply no_slash_cons in Ha as [_ Ha]. apply no_slash_cons in Hb as [_ Hb].
    injection Heq as -> Heq. destruct (IH b Ha Hb Heq) as [-> ->]. auto.
Qed.

Lemma upto_delimiter_slash (rest dir : string) :
  upto_delimiter "/" rest = Some dir
  <-> exists id file,
        no_slash id = true /\ rest = (id ++ String "/" file)%string
        /\ dir = (id ++ "/")%string.
Proof.
  revert dir. induction rest as [|c rest IH]; intros dir; cbn [upto_delimiter].
  - split; [discriminate|]. intros (id & file & _ & Heq & _). now destruct id.
  - cbn [Str.startswith]. rewrite andb_true_r.
    destruct (Ascii.eqb_spec "/" c) as [<-|Hne].
    + split.
      * intros [= <-]. exists EmptyString, rest. auto.
      * intros (id & file & Hid & Heq & ->).
        destruct id as [|d id]; [reflexivity|].
        apply no_slash_cons in Hid as [Hd _]. cbn [append] in Heq. congruence.
    + destruct (upto_delimiter "/" rest) as [dir'|] eqn:Hrest; cbn [option_map].
      * destruct (proj1 (IH dir') eq_refl) as (id & file & Hid & -> & ->).
        split.
        -- intros [= <-]. exists (String c id), file. repeat split.
           apply no_slash_cons. split; [congruence | exact Hid].
        -- intros (id' & file' & Hid' & Heq & ->).
           destruct id' as [|d id']; [cbn [append] in Heq; congruence|].
           cbn [append] in Heq. injection Heq as <- Heq. apply no_slash_cons in Hid' as [_ Hid'].
           destruct (first_slash_unique id id' file file' Hid Hid' Heq) as [-> _].
           reflexivity.
      * split; [discriminate|]. intros (id' & file' & Hid' & Heq & ->).
        destruct id' as [|d id']; [cbn [append] in Heq; congruence|].
        cbn [append] in Heq. injection Heq as <- ->. apply no_slash_cons in Hid' as [_ Hid'].
        assert (Hsome : @None string = Some (id' ++ "/")%string) by (apply IH; eauto).
        discriminate Hsome.
Qed.

(** The directories directly below [prefix] that hold an object. *)
Lemma list_blobs_prefixes_slash (objects : list (string * string)) (prefix dir : string) :
  In dir (list_blobs_prefixes objects (Some prefix) "/")
  <-> exists id file,
        no_slash id = true
        /\ In (prefix ++ id ++ String "/" file)%string (map fst objects)
        /\ dir = (prefix ++ id ++ "/")%string.
Proof.
  unfold list_blobs_prefixes. rewrite in_flat_map. split.
  - intros (name & Hname & Hdir).
    destruct (after_prefix name prefix) as [rest|] eqn:Hrest; [|destruct Hdir].
    destruct (upto_delimiter "/" rest) as [d|] eqn:Hd; [|destruct Hdir].
    destruct Hdir as [<-|[]].
    apply after_prefix_app in Hrest as ->.
    apply upto_delimiter_slash in Hd as (id & file & Hid & -> & ->).
    exists id, file. auto.
  - intros (id & file & Hid & Hin & ->).
    exists (prefix ++ id ++ String "/" file)%string. split; [exact Hin|].
    rewrite (proj2 (after_prefix_app _ prefix (id ++ String "/" file)) eq_refl).
    rewrite (proj2 (upto_delimiter_slash (id ++ String "/" file) (id ++ "/"))) by eauto.
    now left.
Qed.

Lemma startswith_append (p rest : string) : Str.startswith (p ++ rest) p = true.
Proof.
  induction p as [|c p IH]; cbn [append Str.startswith]; [reflexivity|].
  now rewrite Ascii.eqb_refl, IH.
Qed.

Lemma replace_from_skip (old new s1 rest : string) :
  Str.replace_from (String.length s1) old new (s1 ++ rest) = Str.replace_from 0 old new rest.
Proof.
  induction s1 as [|c s1 IH]; cbn [String.length append]; [reflexivity|].
  cbn [Str.replace_from]. exact IH.
Qed.

Lemma assets_prefix_polygon (t : PolygonAssetType) :
  exists c more, assets_prefix t = ("polygon" ++ String "/" (String c more))%string.
Proof. destruct t; vm_compute; eauto. Qed.

Lemma startswith_assets_prefix (t : PolygonAssetType) (id : string) :
  no_slash id = true -> Str.startswith (id ++ "/") (assets_prefix t) = false.
Proof.
  intros Hid. apply not_true_is_false. intros Hstart.
  rewrite <- (append_empty_r (assets_prefix t)) in Hstart.
  apply startswith_app in Hstart as (r & Heq & _).
  destruct (assets_prefix_polygon t) as (c & more & Hprefix).
  rewrite Hprefix, append_assoc in Heq. cbn [append] in Heq.
  change (id ++ String "/" EmptyString = "polygon" ++ String "/" (String c (more ++ r)))%string
    in Heq.
  apply first_slash_unique in Heq as [_ Heq]; [discriminate Heq | exact Hid | reflexivity].
Qed.

Lemma replace_assets_prefix_none (t : PolygonAssetType) (id : string) :
  no_slash id = true ->
  Str.replace_from 0 (assets_prefix t) "" (id ++ "/") = (id ++ "/")%string.
Proof.
  induction id as [|c id IH]; intros Hid.
  - destruct t; reflexivity.
  - change (String c id ++ "/")%string with (String c (id ++ "/")).
    cbn [Str.replace_from].
    change (String c (id ++ "/")) with (String c id ++ "/")%string.
    rewrite (startswith_assets_prefix t (String c id) Hid).
    apply no_slash_cons in Hid as [_ Hid]. now rewrite IH.
Qed.

(** The loop of [list_assets_by_type] takes a directory below the prefix to
    its name. *)
Lemma asset_id_of_dir (t : PolygonAssetType) (id : string) :
  no_slash id = true ->
  asset_id_of (assets_prefix t) (assets_prefix t ++ id ++ "/") = id.
Proof.
  intros Hid. unfold asset_id_of.
  assert (Hreplace : Str.replace (assets_prefix t ++ id ++ "/") (assets_prefix t) ""
                     = (id ++ "/")%string).
  { pose proof (replace_assets_prefix_none t id Hid) as Hnone.
    destruct (assets_prefix t) as [|p0 prefix] eqn:Hp; [destruct t; discriminate Hp|].
    unfold Str.replace. cbn [append Str.replace_from].
    change (String p0 (prefix ++ id ++ "/")) with (String p0 prefix ++ (id ++ "/"))%string.
    rewrite startswith_append.
    cbn [append Str.len String.length Nat.pred].
    now rewrite replace_from_skip. }
  rewrite Hreplace, endswith_snoc, Ascii.eqb_refl.
  unfold drop_last. rewrite length_append. cbn [String.length].
  replace (String.length id + 1 - 1)%nat with (String.length id) by lia.
  apply substring_0_append.
Qed.

Lemma NoDup_map_on {A B} (f : A -> B) (l : list A) :
  (forall x y, In x l -> In y l -> f x = f y -> x = y) -> NoDup l -> NoDup (map f l).
Proof.
  intros Hinj Hnodup. induction Hnodup as [|x l Hx _ IH]; cbn [map]; constructor.
  - intros Hin. apply in_map_iff in Hin as (y & Heq & Hy).
    apply Hx. rewrite (Hinj x y); auto using in_eq, in_cons.
  - apply IH. intros a b Ha Hb. apply Hinj; now right.
Qed.

Section DiscoveryProperties.
Context {order : SetOrder}.

Lemma list_assets_by_type_run (t : PolygonAssetType) (w : World)
    (objects : list (string * string)) :
  assoc GCP_BUCKET_ID (buckets w) = Some objects ->
  list_assets_by_type t w
  = (OK (map (fun dir => PolygonDataAsset_default t (asset_id_of (assets_prefix t) dir))
             (list_of_set (list_blobs_prefixes objects (Some (assets_prefix t)) "/"))),
     called [GetBucket GCP_BUCKET_ID;
             ListBlobs GCP_BUCKET_ID (Some (assets_prefix t)) None] w).
Proof.
  intros Hbucket.
  unfold list_assets_by_type, list_prefixes_in_bucket, get_bucket, bind, store_call,
    get_world. cbn [buckets]. rewrite Hbucket. unfold ret.
  cbn [store_calls files log schedule buckets]. unfold called.
  now rewrite <- app_assoc, map_map.
Qed.

Lemma list_of_set_In (l : list string) (x : string) : In x (list_of_set l) <-> In x l.
Proof.
  rewrite <- (nodup_In string_dec l x).
  split; apply Permutation_in;
    [apply list_of_set_perm | symmetry; apply list_of_set_perm].
Qed.

(** X23. When the bucket exists, [list_assets_by_type] returns one asset for
    every directory directly below the prefix of the type that holds an
    object, and nothing else: the assets have the type asked for, the name
    of the directory as their id and the default fields, and no asset is
    returned twice. *)
Theorem list_assets_by_type_discovers (t : PolygonAssetType) (w : World)
    (objects : list (string * string)) :
  assoc GCP_BUCKET_ID (buckets w) = Some objects ->
  exists assets,
    fst (list_assets_by_type t w) = OK assets
    /\ NoDup assets
    /\ forall a,
         In a assets
         <-> exists id file,
               no_slash id = true
               /\ In (assets_prefix t ++ id ++ String "/" file)%string (map fst objects)
               /\ a = PolygonDataAsset_default t id.
Proof.
  intros Hbucket. rewrite (list_assets_by_type_run t w objects Hbucket).
  eexists. split; [reflexivity|]. split.
  - apply NoDup_map_on.
    + intros d1 d2 H1 H2 Heq.
      apply list_of_set_In, list_blobs_prefixes_slash in H1 as (id1 & f1 & Hid1 & _ & ->).
      apply list_of_set_In, list_blobs_prefixes_slash in H2 as (id2 & f2 & Hid2 & _ & ->).
      rewrite !asset_id_of_dir in Heq by assumption.
      now injection Heq as ->.
    + eapply Permutation_NoDup; [symmetry; apply list_of_set_perm | apply NoDup_nodup].
  - intros a. rewrite in_map_iff. split.
    + intros (dir & <- & Hdir).
      apply list_of_set_In, list_blobs_prefixes_slash in Hdir as (id & file & Hid & Hin & ->).
      exists id, file. rewrite asset_id_of_dir by assumption. auto.
    + intros (id & file & Hid & Hin & ->).
      exists (assets_prefix t ++ id ++ "/")%string. split.
      * now rewrite asset_id_of_dir.
      * apply list_of_set_In, list_blobs_prefixes_slash. eauto.
Qed.

End DiscoveryProperties.

Lemma list_assets_by_type_discovers_witness :
  exists assets,
    fst (list_assets_by_type equity cold_world) = OK assets
    /\ NoDup assets
    /\ forall a,
         In a assets
         <-> exists id file,
               no_slash id = true
               /\ In (assets_prefix equity ++ id ++ String "/" file)%string
                     (map fst example_bucket)
               /\ a = PolygonDataAsset_default equity id.
Proof.
  apply (list_assets_by_type_discovers equity cold_world example_bucket). reflexivity.
Defined.

Section DiscoveryRoundTrip.
Context {order : SetOrder}.

Lemma replace_label_default (t : PolygonAssetType) (id : string) :
  no_dot id = true ->
  Str.replace (label (PolygonDataAsset_default t id)) "." "/" = (assets_prefix t ++ id)%string.
Proof.
  intros Hid. rewrite label_default, replace_char_app, (replace_dot_no_dot id Hid).
  f_equal. destruct t; reflexivity.
Qed.

(** X24. An asset that [list_assets_by_type] returns and whose id has no dot
    can be listed: [list_polygon_asset_files] finds at least one object for
    it in the same bucket. *)
Theorem discovered_asset_has_files (t : PolygonAssetType) (w w' : World)
    (objects : list (string * string)) (assets : list PolygonDataAsset)
    (a : PolygonDataAsset) :
  assoc GCP_BUCKET_ID (buckets w) = Some objects ->
  assoc GCP_BUCKET_ID (buckets w') = Some objects ->
  fst (list_assets_by_type t w) = OK assets ->
  In a assets ->
  no_dot (asset_id a) = true ->
  exists name names, fst (list_polygon_asset_files a w') = OK (name :: names).
Proof.
  intros Hbucket Hbucket' Hrun Hin Hdot.
  rewrite (list_assets_by_type_run t w objects Hbucket) in Hrun.
  injection Hrun as <-.
  apply in_map_iff in Hin as (dir & <- & Hdir).
  apply list_of_set_In, list_blobs_prefixes_slash in Hdir as (id & file & Hid & Hobj & ->).
  rewrite asset_id_of_dir in Hdot |- * by assumption.
  cbn [PolygonDataAsset_default PolygonDataAsset_init asset_id] in Hdot.
  assert (Hlisted : In (assets_prefix t ++ id ++ String "/" file)%string
                       (list_blobs objects
                          (Some (asset_files_prefix (PolygonDataAsset_default t id))) None)).
  { unfold list_blobs. apply filter_In. split; [exact Hobj|].
    unfold asset_files_prefix. rewrite (replace_label_default t id Hdot).
    destruct (negb (Str.endswith (assets_prefix t ++ id) "/")).
    - rewrite append_assoc.
      change (String "/" file) with ("/" ++ file)%string.
      rewrite <- !append_assoc. apply startswith_append.
    - rewrite <- append_assoc. apply startswith_append. }
  unfold list_polygon_asset_files, list_blobs_in_bucket, get_bucket, bind, store_call,
    get_world. cbn [buckets]. rewrite Hbucket'. unfold ret. cbn [fst].
  destruct (list_blobs objects _ None) as [|name names]; [destruct Hlisted | eauto].
Qed.

End DiscoveryRoundTrip.

Lemma discovered_asset_has_files_witness :
  exists name names, fst (list_polygon_asset_files SPY warm_world) = OK (name :: names).
Proof.
  apply (discovered_asset_has_files equity cold_world warm_world example_bucket
           [PolygonDataAsset_default equity "SPYD"; PolygonDataAsset_default equity "SPY"] SPY).
  - reflexivity.
  - reflexivity.
  - vm_compute; reflexivity.
  - right; left; reflexivity.
  - reflexivity.
Defined.

(** ** The loggers *)

Lemma assoc_set_named_same (name : string) (logger : Logger) (loggers : list (string * Logger)) :
  assoc name (set_named name logger loggers) = Some logger.
Proof.
  induction loggers as [|[n l] loggers IH]; cbn [set_named assoc].
  - now rewrite String.eqb_refl.
  - destruct (String.eqb n name) eqn:Hn; cbn [assoc]; now rewrite Hn.
Qed.

Lemma assoc_set_named_other (name other : string) (logger : Logger)
    (loggers : list (string * Logger)) :
  other <> name -> assoc other (set_named name logger loggers) = assoc other loggers.
Proof.
  intros Hne. induction loggers as [|[n l] loggers IH]; cbn [set_named assoc].
  - destruct (String.eqb_spec name other); [congruence | reflexivity].
  - destruct (String.eqb_spec n name) as [->|Hn]; cbn [assoc].
    + destruct (String.eqb_spec name other); [congruence | reflexivity].
    + now rewrite IH.
Qed.

Lemma getLogger_set_logger_same (name : string) (logger : Logger) (lg : Logging) :
  getLogger name (set_logger name logger lg) = logger.
Proof.
  unfold getLogger, set_logger. destruct (is_root name); cbn [root_logger named_loggers].
  - reflexivity.
  - now rewrite assoc_set_named_same.
Qed.

(** Two names are names of one logger when both name the root logger or they
    are the same name. *)
Lemma getLogger_set_logger_other (name other : string) (logger : Logger) (lg : Logging) :
  (if is_root name then is_root other else String.eqb other name) = false ->
  getLogger other (set_logger name logger lg) = getLogger other lg.
Proof.
  unfold getLogger, set_logger. destruct (is_root name); cbn [root_logger named_loggers].
  - now intros ->.
  - intros Hne. apply String.eqb_neq in Hne. destruct (is_root other); [reflexivity|].
    now rewrite assoc_set_named_other.
Qed.

(** X25. A logger that has no handler and is asked for twice, with levels
    that exist, has after the second call the level of the second call, one
    handler only, and that handler at the level of the first call; it does
    not propagate. *)
Theorem get_logger_twice (name : string) (first second : LogLevel) (n1 n2 : Z)
    (lg : Logging) :
  handlers (getLogger name lg) = [] ->
  check_level first = OK n1 ->
  check_level second = OK n2 ->
  fst (get_logger name second (snd (get_logger name first lg)))
  = OK (mk_Logger n2 false [mk_Handler n1 (Some LOG_FORMAT)]).
Proof.
  intros Hnone Hfirst Hsecond. unfold get_logger.
  rewrite Hfirst, Hsecond. cbn [snd fst handlers propagate logger_level].
  rewrite Hnone, getLogger_set_logger_same. reflexivity.
Qed.

Lemma getLogger_set_logger_alias (name other : string) (logger : Logger) (lg : Logging) :
  (if is_root name then is_root other else String.eqb other name) = true ->
  getLogger other (set_logger name logger lg) = logger.
Proof.
  unfold getLogger, set_logger. destruct (is_root name) eqn:Hroot;
    cbn [root_logger named_loggers].
  - now intros ->.
  - intros Hsame. apply String.eqb_eq in Hsame as ->. rewrite Hroot.
    now rewrite assoc_set_named_same.
Qed.

(** X26. [get_logger] never gives a logger a second handler: when every
    logger has at most one handler before the call, so it is after the call,
    whatever the name, the level and the outcome. *)
Theorem get_logger_at_most_one_handler (name : string) (log_level : LogLevel)
    (lg : Logging) :
  (forall n, (List.length (handlers (getLogger n lg)) <= 1)%nat) ->
  forall n, (List.length (handlers (getLogger n (snd (get_logger name log_level lg)))) <= 1)%nat.
Proof.
  intros Hone n.
  assert (Hcases : forall logger,
             (List.length (handlers logger) <= 1)%nat ->
             (List.length (handlers (getLogger n (set_logger name logger lg))) <= 1)%nat).
  { intros logger Hlogger.
    destruct (if is_root name then is_root n else String.eqb n name) eqn:Hsame.
    - now rewrite getLogger_set_logger_alias.
    - rewrite getLogger_set_logger_other by assumption. apply Hone. }
  unfold get_logger. specialize (Hone name).
  destruct (check_level log_level) as [level|e]; cbn [snd]; apply Hcases;
    cbn [handlers]; [|exact Hone].
  destruct (handlers (getLogger name lg)) as [|h hs] eqn:Hhandlers;
    cbn [handlers List.length] in *; lia.
Qed.

Lemma get_logger_at_most_one_handler_witness :
  (List.length
     (handlers (getLogger "data.py" (snd (get_logger "data.py" INFO initial_logging))))
   <= 1)%nat.
Proof.
  apply (get_logger_at_most_one_handler "data.py" INFO initial_logging).
  intros n. unfold getLogger. destruct (is_root n); cbn; lia.
Defined.

(** X27. A level name that [logging] does not know makes [get_logger] raise
    [ValueError]; by then the logger exists and no longer propagates, and it
    has its level and its handlers as before. *)
Theorem get_logger_unknown_level (name level_name : string) (lg : Logging) :
  assoc level_name name_to_level = None ->
  exists msg,
    fst (get_logger name (LevelName level_name) lg) = Raise (ValueError msg)
    /\ getLogger name (snd (get_logger name (LevelName level_name) lg))
       = mk_Logger (logger_level (getLogger name lg)) false (handlers (getLogger name lg)).
Proof.
  intros Hunknown. unfold get_logger, check_level. rewrite Hunknown. cbn [fst snd].
  eexists. split; [reflexivity | apply getLogger_set_logger_same].
Qed.

Lemma get_logger_unknown_level_witness :
  exists msg,
    fst (get_logger "data.py" (LevelName "info") initial_logging) = Raise (ValueError msg)
    /\ getLogger "data.py" (snd (get_logger "data.py" (LevelName "info") initial_logging))
       = mk_Logger (logger_level (getLogger "data.py" initial_logging)) false
                   (handlers (getLogger "data.py" initial_logging)).
Proof.
  apply (get_logger_unknown_level "data.py" "info" initial_logging). reflexivity.
Defined.

(** X28. [get_logger] changes no logger but the one it is asked for: every
    logger of another name is after the call what it was before, whatever
    the level and the outcome. *)
Theorem get_logger_keeps_other_loggers (name other : string) (log_level : LogLevel)
    (lg : Logging) :
  (if is_root name then is_root other else String.eqb other name) = false ->
  getLogger other (snd (get_logger name log_level lg)) = getLogger other lg.
Proof.
  intros Hother. unfold get_logger.
  destruct (check_level log_level) as [level|e]; cbn [snd];
    now apply getLogger_set_logger_other.
Qed.

Lemma get_logger_keeps_other_loggers_witness :
  getLogger "gcs.py" (snd (get_logger "data.py" INFO initial_logging))
  = getLogger "gcs.py" initial_logging.
Proof.
  apply (get_logger_keeps_other_loggers "data.py" "gcs.py" INFO initial_logging).
  reflexivity.
Defined.

Lemma get_logger_twice_witness :
  fst (get_logger "data.py" (LevelName "DEBUG")
         (snd (get_logger "data.py" INFO initial_logging)))
  = OK (mk_Logger 10 false [mk_Handler 20 (Some LOG_FORMAT)]).
Proof.
  apply (get_logger_twice "data.py" INFO (LevelName "DEBUG") 20 10 initial_logging);
    reflexivity.
Defined.

(** ** A remote load that fails *)

Section RemoteFailure.
Context {L : Library}.

(** The outcome of the remote loader is up to the store and the order of
    completion only. *)
Lemma load_polygon_data_asset_from_gcs_value (asset : PolygonDataAsset)
    (blob_limit : option Z) (clean : bool) (w w' : World) :
  buckets w' = buckets w -> schedule w' = schedule w ->
  fst (load_polygon_data_asset_from_gcs asset blob_limit clean w')
  = fst (load_polygon_data_asset_from_gcs asset blob_limit clean w).
Proof.
  intros Hbuckets Hschedule.
  destruct (assoc GCP_BUCKET_ID (buckets w)) as [objects|] eqn:Hbucket.
  - destruct (sort_blobs_by_date (list_blobs objects (Some (asset_files_prefix asset)) None))
      as [sorted|e] eqn:Hsort.
    + assert (Hbucket' : assoc GCP_BUCKET_ID (buckets w') = Some objects)
        by now rewrite Hbuckets.
      destruct (load_polygon_data_asset_from_gcs_run asset blob_limit clean w objects sorted
                  Hbucket Hsort) as [-> _].
      destruct (load_polygon_data_asset_from_gcs_run asset blob_limit clean w' objects sorted
                  Hbucket' Hsort) as [-> _].
      now rewrite Hschedule.
    + unfold load_polygon_data_asset_from_gcs, list_polygon_asset_files,
        list_blobs_in_bucket, get_bucket, bind, store_call, get_world, lift.
      cbn [buckets]. rewrite Hbuckets, Hbucket. unfold ret. now rewrite Hsort.
  - unfold load_polygon_data_asset_from_gcs, list_polygon_asset_files,
      list_blobs_in_bucket, get_bucket, bind, store_call, get_world.
    cbn [buckets]. rewrite Hbuckets, Hbucket. reflexivity.
Qed.

(** X29. When [load_asset] goes to the store (the reload is forced, or no
    cached file matches) and the remote load fails, [load_asset] raises the
    error of the remote load and the cache is as it was: nothing is written,
    and a file that was cached for the asset is still there. *)
Theorem load_asset_remote_failure (self : LocalDataCache) (asset : PolygonDataAsset)
    (force_reload clean : bool) (w : World) (e : exn) :
  force_reload = true
  \/ fst (list_files self (get_polygon_asset_local_file_name asset) w) = OK [] ->
  fst (load_polygon_data_asset_from_gcs asset None true w) = Raise e ->
  fst (load_asset self asset force_reload clean w) = Raise e
  /\ files (snd (load_asset self asset force_reload clean w)) = files w.
Proof.
  intros Hremote Hfail.
  pose proof (load_polygon_data_asset_from_gcs_keeps_files asset None true
                (logged [("Loading " ++ label asset ++ " from remote.")%string] w))
    as Hfiles.
  pose proof (load_polygon_data_asset_from_gcs_value asset None true w
                (logged [("Loading " ++ label asset ++ " from remote.")%string] w)
                eq_refl eq_refl) as Hvalue.
  destruct (load_polygon_data_asset_from_gcs asset None true (logged _ w)) as [r w1] eqn:Hload.
  rewrite (load_asset_from_remote self asset force_reload clean w w1 r Hremote Hload).
  cbn [fst snd] in Hvalue, Hfiles. rewrite Hfail in Hvalue. subst r. auto.
Qed.

End RemoteFailure.

Lemma load_asset_remote_failure_witness :
  fst (load_asset cache SPY true true
         (mk_World (files warm_world) [] (buckets broken_world) [] [] []))
  = Raise JSONDecodeError
  /\ files (snd (load_asset cache SPY true true
                   (mk_World (files warm_world) [] (buckets broken_world) [] [] [])))
     = files (mk_World (files warm_world) [] (buckets broken_world) [] [] []).
Proof.
  apply (load_asset_remote_failure cache SPY true true
           (mk_World (files warm_world) [] (buckets broken_world) [] [] []) JSONDecodeError).
  - left; reflexivity.
  - vm_compute; reflexivity.
Defined.

(** ** Cache file names in normal form *)

(** X30. A file name that is a relative path in normal form is the relative
    path, below the cache directory, of the file that [save] and [load] use
    for it, whatever the cache directory; the cache file name of an asset
    made with the default provider and interval whose id has no dot and no
    separator is such a name. *)
Theorem cache_key_normal_relative (self : LocalDataCache) (file : string) :
  (normal_relative file = true ->
   locate (data_dir self) file = Inside (Str.split file "/")
   /\ cache_key self file = Some file)
  /\ (forall (t : PolygonAssetType) (id : string),
         no_dot id = true -> no_slash id = true ->
         normal_relative
           (get_polygon_asset_local_file_name (PolygonDataAsset_default t id)) = true).
Proof.
  split; [apply normal_relative_cache_key|].
  intros t id Hdot Hslash.
  unfold get_polygon_asset_local_file_name, normal_relative.
  rewrite (replace_label_default t id Hdot).
  assert (Hlast : Str.split (id ++ ".joblib") "/" = [(id ++ ".joblib")%string]).
  { apply split_no_slash. unfold no_slash in *.
    clear Hdot. induction id as [|c id IH]; [reflexivity|].
    cbn [append list_ascii_of_string forallb] in *.
    apply andb_true_iff in Hslash as [Hc Hid]. now rewrite Hc, (IH Hid). }
  assert (Hpart : (negb (String.eqb (id ++ ".joblib") "")
                   && negb (String.eqb (id ++ ".joblib") ".")
                   && negb (String.eqb (id ++ ".joblib") ".."))%bool = true).
  { destruct id as [|c id]; [reflexivity|].
    cbn [append no_dot list_ascii_of_string forallb] in *.
    apply andb_true_iff in Hdot as [Hc _]. apply negb_true_iff in Hc.
    cbn [String.eqb]. rewrite Hc. reflexivity. }
  destruct t; cbn [assets_prefix asset_type_str POLYGON_DATA_TYPE_MAP append];
    rewrite <- ?append_assoc; cbn [append Str.split Ascii.eqb Bool.eqb];
    rewrite Hlast; cbn [forallb String.eqb Ascii.eqb Bool.eqb andb negb];
    rewrite andb_true_r; exact Hpart.
Qed.

Lemma cache_key_normal_relative_witness :
  locate "/srv/resources/cachedir" "polygon/equity/ohlcv/1d/SPY.joblib"
  = Inside ["polygon"; "equity"; "ohlcv"; "1d"; "SPY.joblib"]%string
  /\ cache_key (mk_LocalDataCache "/srv/resources/cachedir")
       "polygon/equity/ohlcv/1d/SPY.joblib"
     = Some "polygon/equity/ohlcv/1d/SPY.joblib"%string
  /\ normal_relative (get_polygon_asset_local_file_name SPY) = true.
Proof.
  destruct (cache_key_normal_relative (mk_LocalDataCache "/srv/resources/cachedir")
              "polygon/equity/ohlcv/1d/SPY.joblib") as [Hkey Hasset].
  destruct (Hkey eq_refl) as [Hplace Hcache]. split; [exact Hplace|].
  split; [exact Hcache|].
  apply (Hasset equity "SPY"%string); reflexivity.
Defined.
